(** * netv transcode session orchestrator: a shallow embedding

    The development follows the two Python modules that make up the
    orchestrator:

    - [ffmpeg_command]: media probing with its two caches, and the pipeline
      planner that turns probe metadata and settings into an ffmpeg argument
      list;
    - [ffmpeg_session]: the session registry, admission control, the recovery
      sweep, fresh start / retry, and seek.

    Conventions of the embedding.
    - Wall-clock readings and durations (Python floats) are rationals [Q];
      rounding of floating point is not modelled.
    - Python [int] is [Z]; [str] is [string] (ASCII); [None] is [option].
    - A [dict] whose iteration order matters ([_transcode_sessions]) is an
      association list in insertion order; the other dicts are [gmap]s.
    - Exceptions are an explicit [result] type.
    - What the host machine decides (detected devices, what ffprobe prints,
      how a spawned ffmpeg behaves while the orchestrator waits) is passed in
      as data, never assumed. *)

From Stdlib Require Import QArith Qround Lqa.
From Stdlib Require Import Ascii String DecimalString DecimalZ.
From stdpp Require Import gmap strings list fin_maps sorting.

#[local] Open Scope string_scope.
#[local] Open Scope Z_scope.
#[local] Open Scope list_scope.

(** ** Python builtins used by the source *)

Module py.

(** Raised exceptions, by class. *)
Inductive exn :=
| RuntimeError (msg : string)
| ValueError (msg : string)
| HTTPException (status_code : Z) (detail : string).

Inductive result (A : Type) :=
| Ok (a : A)
| Raise (e : exn).
Arguments Ok {A} a.
Arguments Raise {A} e.

Definition bind {A B} (r : result A) (k : A → result B) : result B :=
  match r with
  | Ok a => k a
  | Raise e => Raise e
  end.

(** [str(n)] for an int. *)
Definition str (n : Z) : string := NilZero.string_of_int (Z.to_int n).

(** [int(s)] on a decimal literal with optional minus sign; [None] stands for
    [ValueError]. *)
Definition int (s : string) : option Z :=
  Z.of_int <$> NilZero.int_of_string s.

(** [needle in hay] on strings. *)
Fixpoint contains (needle hay : string) : bool :=
  String.prefix needle hay
  || match hay with
     | EmptyString => false
     | String _ rest => contains needle rest
     end.

Definition lower_ascii (c : ascii) : ascii :=
  let n := nat_of_ascii c in
  if (65 <=? n)%nat && (n <=? 90)%nat then ascii_of_nat (n + 32) else c.

(** [s.lower()]. *)
Fixpoint lower (s : string) : string :=
  match s with
  | EmptyString => EmptyString
  | String c rest => String (lower_ascii c) (lower rest)
  end.

Definition upper_ascii (c : ascii) : ascii :=
  let n := nat_of_ascii c in
  if (97 <=? n)%nat && (n <=? 122)%nat then ascii_of_nat (n - 32) else c.

(** [s.upper()]. *)
Fixpoint upper (s : string) : string :=
  match s with
  | EmptyString => EmptyString
  | String c rest => String (upper_ascii c) (upper rest)
  end.

(** [s.endswith(suffix)]. *)
Definition endswith (s suffix : string) : bool :=
  let n := String.length s in
  let k := String.length suffix in
  (k <=? n)%nat && String.eqb (String.substring (n - k) k s) suffix.

(** [s.split(sep, 1)] for a one-character separator that occurs in [s]:
    the text before the first occurrence and the text after it. *)
Fixpoint split1 (sep : ascii) (s : string) : string * string :=
  match s with
  | EmptyString => (EmptyString, EmptyString)
  | String c rest =>
      if Ascii.eqb c sep then (EmptyString, rest)
      else let '(a, b) := split1 sep rest in (String c a, b)
  end.

(** [s.lstrip(",")], [s.rstrip(",")], [s.strip(",")]. *)
Fixpoint lstrip (c : ascii) (s : string) : string :=
  match s with
  | String c' rest => if Ascii.eqb c' c then lstrip c rest else s
  | EmptyString => EmptyString
  end.

Fixpoint rstrip (c : ascii) (s : string) : string :=
  match s with
  | EmptyString => EmptyString
  | String c' rest =>
      match rstrip c rest with
      | EmptyString => if Ascii.eqb c' c then EmptyString else String c' EmptyString
      | r => String c' r
      end
  end.

Definition strip (c : ascii) (s : string) : string := rstrip c (lstrip c s).

(** [s.replace(",,", ",")]: left to right, non-overlapping. *)
Fixpoint replace_double (c : ascii) (s : string) : string :=
  match s with
  | String a ((String b rest') as rest) =>
      if Ascii.eqb a c && Ascii.eqb b c
      then String c (replace_double c rest')
      else String a (replace_double c rest)
  | _ => s
  end.

(** [a < b] on rationals, as a boolean. *)
Definition Qlt_bool (a b : Q) : bool := negb (Qle_bool b a).

(** Truthiness of a string and of an optional string. *)
Definition truthy (s : string) : bool := negb (String.eqb s "").
Definition truthy_opt (s : option string) : bool :=
  match s with Some s => truthy s | None => false end.

(** [x in (a, b, ...)] on strings. *)
Definition str_in (x : string) (l : list string) : bool :=
  existsb (String.eqb x) l.

End py.

Import py.

(** ** ffmpeg_command.py: probing and pipeline planning *)

Module ffmpeg_command.

(** *** Constants *)

Definition _HLS_SEGMENT_DURATION_SEC : Q := 3.
Definition _PROBE_CACHE_TTL_SEC : Q := 3600.
Definition _SERIES_PROBE_CACHE_TTL_SEC : Q := 7 * 24 * 3600.
Definition SEG_PREFIX : string := "seg".
Definition DEFAULT_LIVE_BUFFER_SECS : Q := 30.

Definition TEXT_SUBTITLE_CODECS : list string :=
  ["subrip"; "ass"; "ssa"; "mov_text"; "webvtt"; "srt"].

Definition _USER_AGENT_PRESETS (preset : string) : option string :=
  if String.eqb preset "vlc" then Some "VLC/3.0.20 LibVLC/3.0.20"
  else if String.eqb preset "chrome" then
    Some "Mozilla/5.0 (Windows NT 10.0; Win64; x64) AppleWebKit/537.36 (KHTML, like Gecko) Chrome/120.0.0.0 Safari/537.36"
  else if String.eqb preset "tivimate" then Some "TiviMate/4.7.0"
  else None.

Definition _VAAPI_SAFE_CODECS : list string :=
  ["h264"; "hevc"; "mpeg2video"; "vp8"; "vp9"; "vc1"; "av1"].
Definition _QSV_SAFE_CODECS : list string :=
  ["h264"; "hevc"; "mpeg2video"; "vp9"; "vc1"; "av1"].

Definition _MAX_RES_HEIGHT (setting : string) : option Z :=
  if String.eqb setting "4k" then Some 2160
  else if String.eqb setting "1080p" then Some 1080
  else if String.eqb setting "720p" then Some 720
  else if String.eqb setting "480p" then Some 480
  else None.

Definition _QUALITY_QP (quality : string) : option Z :=
  if String.eqb quality "high" then Some 20
  else if String.eqb quality "medium" then Some 28
  else if String.eqb quality "low" then Some 35
  else None.

Definition _QUALITY_CRF (quality : string) : option Z :=
  if String.eqb quality "high" then Some 20
  else if String.eqb quality "medium" then Some 26
  else if String.eqb quality "low" then Some 32
  else None.

Definition _LANG_NAMES (code : string) : option string :=
  if String.eqb code "eng" then Some "English"
  else if String.eqb code "spa" then Some "Spanish"
  else if String.eqb code "fre" then Some "French"
  else if String.eqb code "ger" then Some "German"
  else if String.eqb code "por" then Some "Portuguese"
  else if String.eqb code "ita" then Some "Italian"
  else if String.eqb code "jpn" then Some "Japanese"
  else if String.eqb code "kor" then Some "Korean"
  else if String.eqb code "chi" then Some "Chinese"
  else if String.eqb code "ara" then Some "Arabic"
  else if String.eqb code "rus" then Some "Russian"
  else if String.eqb code "und" then Some "Unknown"
  else None.

(** *** Data *)

Record SubtitleStream := {
  sub_index : Z;
  sub_lang : string;
  sub_name : string;
}.

Record MediaInfo := {
  video_codec : string;
  audio_codec : string;
  pix_fmt : string;
  audio_channels : Z;
  audio_sample_rate : Z;
  audio_profile : string;
  subtitle_codecs : option (list string);
  duration : Q;
  height : Z;
  video_bitrate : Z;
  interlaced : bool;
  is_10bit : bool;
  is_hdr : bool;
  is_hls : bool;
}.

(** The settings dict; a field is [None] when the key is absent, and each
    reader below applies the default of its [.get]. *)
Record Settings := {
  transcode_hw : option string;
  max_resolution : option string;
  quality : option string;
  probe_movies : option bool;
  probe_series : option bool;
  probe_live : option bool;
  vod_transcode_cache_mins : option Z;
  live_transcode_cache_secs : option Z;
  live_dvr_mins : option Z;
  user_agent_preset : option string;
  user_agent_custom : option string;
}.

(** A numeric JSON field as the extraction code sees it: missing (or falsy),
    convertible, or present but not convertible (the conversion raises and
    the [suppress] block swallows it). *)
Inductive json_num (A : Type) :=
| Absent
| Num (n : A)
| Bad.
Arguments Absent {A}.
Arguments Num {A} n.
Arguments Bad {A}.

(** One entry of ffprobe's ["streams"] array, with the keys the extraction
    reads; a string key that is absent holds the [.get] default [""]. *)
Record ff_stream := {
  st_codec_name : string;
  st_codec_type : string;
  st_pix_fmt : string;
  st_height : option Z;
  st_field_order : string;
  st_color_transfer : string;
  st_bit_rate : json_num Z;
  st_channels : Z;
  st_sample_rate : Z;
  st_profile : string;
  st_index : option Z;
  st_tag_language : option string;
  st_tag_name : option string;
  st_tag_title : option string;
}.

Record ff_format := {
  fmt_format_name : string;
  fmt_duration : json_num Q;
  fmt_bit_rate : json_num Z;
}.

Record ff_data := {
  ff_streams : list ff_stream;
  ff_format_ : ff_format;
}.

(** What the host decides. [VAAPI_DEVICE] is imported from the [cache] module
    (the detected render node, falsy when none was found);
    [gpu_nvdec_codecs] and [has_libplacebo] are the memoised results of
    [_get_gpu_nvdec_codecs] and [_has_libplacebo_filter]; [ffprobe url
    force_hls] is the parsed output of one inspector run, [None] when it
    exits non-zero, times out or prints no JSON. *)
Record host := {
  VAAPI_DEVICE : option string;
  gpu_nvdec_codecs : list string;
  has_libplacebo : bool;
  settings : Settings;
  ffprobe : string → bool → option ff_data;
}.

Definition get_settings (h : host) : Settings := settings h.

Definition get_hls_segment_duration : Q := _HLS_SEGMENT_DURATION_SEC.

Definition get_user_agent (h : host) : option string :=
  let preset := default "default" (user_agent_preset (settings h)) in
  if String.eqb preset "default" then None
  else if String.eqb preset "custom" then
    match user_agent_custom (settings h) with
    | Some s => if truthy s then Some s else None
    | None => None
    end
  else _USER_AGENT_PRESETS preset.

(** *** Probe caches *)

Definition probe_entry : Type := Q * option MediaInfo * list SubtitleStream.

Record series_data := {
  sd_name : string;
  sd_mru : option Z;
  sd_episodes : gmap Z probe_entry;
}.

(** Module state: [_probe_cache], [_series_probe_cache], and the last
    snapshot written to the series cache file. *)
Record probe_state := {
  _probe_cache : gmap string probe_entry;
  _series_probe_cache : gmap Z series_data;
  series_probe_cache_file : gmap Z series_data;
}.

Definition empty_probe_state : probe_state :=
  {| _probe_cache := ∅; _series_probe_cache := ∅; series_probe_cache_file := ∅ |}.

Definition with_series_cache (c : gmap Z series_data) (p : probe_state) : probe_state :=
  {| _probe_cache := _probe_cache p;
     _series_probe_cache := c;
     series_probe_cache_file := series_probe_cache_file p |}.

Definition with_probe_cache (c : gmap string probe_entry) (p : probe_state) : probe_state :=
  {| _probe_cache := c;
     _series_probe_cache := _series_probe_cache p;
     series_probe_cache_file := series_probe_cache_file p |}.

(** [_save_series_probe_cache]: episodes without media info are skipped. *)
Definition _save_series_probe_cache (p : probe_state) : probe_state :=
  {| _probe_cache := _probe_cache p;
     _series_probe_cache := _series_probe_cache p;
     series_probe_cache_file :=
       (λ sd, {| sd_name := sd_name sd;
                 sd_mru := sd_mru sd;
                 sd_episodes :=
                   filter (λ kv, is_Some (kv.2.1.2)) (sd_episodes sd) |})
       <$> _series_probe_cache p |}.

Definition set_mru (eid : option Z) (sd : series_data) : series_data :=
  {| sd_name := sd_name sd; sd_mru := eid; sd_episodes := sd_episodes sd |}.

Definition set_name (n : string) (sd : series_data) : series_data :=
  {| sd_name := n; sd_mru := sd_mru sd; sd_episodes := sd_episodes sd |}.

Definition set_episodes (e : gmap Z probe_entry) (sd : series_data) : series_data :=
  {| sd_name := sd_name sd; sd_mru := sd_mru sd; sd_episodes := e |}.

Definition invalidate_series_probe_cache
    (series_id : Z) (episode_id : option Z) (p : probe_state) : probe_state :=
  match _series_probe_cache p !! series_id with
  | None => p
  | Some sd =>
      let c :=
        match episode_id with
        | None => delete series_id (_series_probe_cache p)
        | Some eid =>
            <[series_id := set_episodes (delete eid (sd_episodes sd)) sd]>
              (_series_probe_cache p)
        end in
      _save_series_probe_cache (with_series_cache c p)
  end.

Definition restore_probe_cache_entry
    (now : Q) (url : string) (media_info : MediaInfo) (subs : list SubtitleStream)
    (series_id episode_id : option Z) (p : probe_state) : probe_state :=
  let p1 :=
    match _probe_cache p !! url with
    | Some _ => p
    | None => with_probe_cache (<[url := (now, Some media_info, subs)]> (_probe_cache p)) p
    end in
  match series_id with
  | None => p1
  | Some sid =>
      let sd := default {| sd_name := ""; sd_mru := None; sd_episodes := ∅ |}
                        (_series_probe_cache p1 !! sid) in
      let eid := default 0 episode_id in
      let sd' :=
        match sd_episodes sd !! eid with
        | Some _ => sd
        | None => set_episodes (<[eid := (now, Some media_info, subs)]> (sd_episodes sd)) sd
        end in
      with_series_cache (<[sid := sd']> (_series_probe_cache p1)) p1
  end.


(** *** Media probing *)

Definition _lang_display_name (code : string) : string :=
  default (upper code) (_LANG_NAMES code).

(** The local variables of the extraction loop of [probe_media]. *)
Record extracted := {
  x_video_codec : string;
  x_audio_codec : string;
  x_pix_fmt : string;
  x_audio_profile : string;
  x_audio_channels : Z;
  x_audio_sample_rate : Z;
  x_subtitle_codecs : list string;
  x_subtitles : list SubtitleStream;
  x_height : Z;
  x_video_bitrate : Z;
  x_interlaced : bool;
  x_is_10bit : bool;
  x_is_hdr : bool;
}.

Definition extract_init : extracted :=
  {| x_video_codec := ""; x_audio_codec := ""; x_pix_fmt := "";
     x_audio_profile := ""; x_audio_channels := 0; x_audio_sample_rate := 0;
     x_subtitle_codecs := []; x_subtitles := [];
     x_height := 0; x_video_bitrate := 0;
     x_interlaced := false; x_is_10bit := false; x_is_hdr := false |}.

Definition or_truthy (a b : option string) : option string :=
  if truthy_opt a then a else b.

(** One iteration of [for stream in data.get("streams", [])]. *)
Definition extract_stream (x : extracted) (stream : ff_stream) : extracted :=
  let codec := lower (st_codec_name stream) in
  let codec_type := st_codec_type stream in
  if String.eqb codec_type "video" && negb (truthy (x_video_codec x)) then
    let pix := st_pix_fmt stream in
    {| x_video_codec := codec;
       x_audio_codec := x_audio_codec x;
       x_pix_fmt := pix;
       x_audio_profile := x_audio_profile x;
       x_audio_channels := x_audio_channels x;
       x_audio_sample_rate := x_audio_sample_rate x;
       x_subtitle_codecs := x_subtitle_codecs x;
       x_subtitles := x_subtitles x;
       x_height := default 0 (st_height stream);
       x_video_bitrate :=
         match st_bit_rate stream with
         | Absent => 0
         | Num n => n
         | Bad => x_video_bitrate x
         end;
       x_interlaced := str_in (lower (st_field_order stream)) ["tt"; "bb"; "tb"; "bt"];
       x_is_10bit := contains "p10" pix || contains "10le" pix || contains "10be" pix;
       x_is_hdr := str_in (lower (st_color_transfer stream)) ["smpte2084"; "arib-std-b67"] |}
  else if String.eqb codec_type "audio" && negb (truthy (x_audio_codec x)) then
    {| x_video_codec := x_video_codec x;
       x_audio_codec := codec;
       x_pix_fmt := x_pix_fmt x;
       x_audio_profile := st_profile stream;
       x_audio_channels := st_channels stream;
       x_audio_sample_rate := st_sample_rate stream;
       x_subtitle_codecs := x_subtitle_codecs x;
       x_subtitles := x_subtitles x;
       x_height := x_height x;
       x_video_bitrate := x_video_bitrate x;
       x_interlaced := x_interlaced x;
       x_is_10bit := x_is_10bit x;
       x_is_hdr := x_is_hdr x |}
  else if String.eqb codec_type "subtitle" then
    {| x_video_codec := x_video_codec x;
       x_audio_codec := x_audio_codec x;
       x_pix_fmt := x_pix_fmt x;
       x_audio_profile := x_audio_profile x;
       x_audio_channels := x_audio_channels x;
       x_audio_sample_rate := x_audio_sample_rate x;
       x_subtitle_codecs := (x_subtitle_codecs x ++ [codec])%list;
       x_subtitles :=
         if str_in codec TEXT_SUBTITLE_CODECS then
           match st_index stream with
           | Some idx =>
               let lang := lower (default "und" (st_tag_language stream)) in
               let name :=
                 default (_lang_display_name lang)
                   (or_truthy (or_truthy (st_tag_name stream) (st_tag_title stream)) None) in
               (x_subtitles x ++ [{| sub_index := idx; sub_lang := lang; sub_name := name |}])%list
           | None => x_subtitles x
           end
         else x_subtitles x;
       x_height := x_height x;
       x_video_bitrate := x_video_bitrate x;
       x_interlaced := x_interlaced x;
       x_is_10bit := x_is_10bit x;
       x_is_hdr := x_is_hdr x |}
  else x.

Definition extract_streams (data : ff_data) : extracted :=
  fold_left extract_stream (ff_streams data) extract_init.

(** The two inspector attempts, [for force_hls in (False, True)]: the first
    run that succeeds wins, with [is_hls = force_hls or "hls" in format_name]. *)
Definition run_probe (h : host) (url : string) : option (ff_data * bool) :=
  match ffprobe h url false with
  | Some data =>
      Some (data, contains "hls" (lower (fmt_format_name (ff_format_ data))))
  | None =>
      match ffprobe h url true with
      | Some data => Some (data, true)
      | None => None
      end
  end.

Definition build_media_info (data : ff_data) (is_hls_ : bool) : MediaInfo :=
  let x := extract_streams data in
  let fmt := ff_format_ data in
  {| video_codec := x_video_codec x;
     audio_codec := x_audio_codec x;
     pix_fmt := x_pix_fmt x;
     audio_channels := x_audio_channels x;
     audio_sample_rate := x_audio_sample_rate x;
     audio_profile := x_audio_profile x;
     subtitle_codecs :=
       match x_subtitle_codecs x with [] => None | l => Some l end;
     duration := match fmt_duration fmt with Num d => d | _ => 0%Q end;
     height := x_height x;
     video_bitrate :=
       if Z.eqb (x_video_bitrate x) 0 then
         match fmt_bit_rate fmt with Num n => n | _ => x_video_bitrate x end
       else x_video_bitrate x;
     interlaced := x_interlaced x;
     is_10bit := x_is_10bit x;
     is_hdr := x_is_hdr x;
     is_hls := is_hls_ |}.

Definition probe_result : Type := option MediaInfo * list SubtitleStream.

(** First phase of [probe_media]: the series/episode cache, exact episode
    first, else the series' most recently used one. Returns the hit, if any,
    and the cache state (the MRU pointer moves on an exact hit). *)
Definition series_cache_lookup
    (now : Q) (series_id episode_id : option Z) (p : probe_state)
  : option probe_result * probe_state :=
  match series_id with
  | None => (None, p)
  | Some sid =>
      match _series_probe_cache p !! sid with
      | None => (None, p)
      | Some sd =>
          let exact := episode_id ≫= λ eid, (λ e, (eid, e)) <$> sd_episodes sd !! eid in
          match exact with
          | Some (eid, (cache_time, media_info, subtitles)) =>
              if Qlt_bool (now - cache_time) _SERIES_PROBE_CACHE_TTL_SEC then
                if decide (sd_mru sd = Some eid) then (Some (media_info, subtitles), p)
                else
                  (Some (media_info, subtitles),
                   _save_series_probe_cache
                     (with_series_cache
                        (<[sid := set_mru (Some eid) sd]> (_series_probe_cache p)) p))
              else (None, p)
          | None =>
              match sd_mru sd ≫= λ m, sd_episodes sd !! m with
              | Some (cache_time, media_info, subtitles) =>
                  if Qlt_bool (now - cache_time) _SERIES_PROBE_CACHE_TTL_SEC
                  then (Some (media_info, subtitles), p)
                  else (None, p)
              | None => (None, p)
              end
          end
      end
  end.

(** Second phase: the URL-keyed cache. *)
Definition url_cache_lookup (now : Q) (url : string) (p : probe_state)
  : option probe_result :=
  match _probe_cache p !! url with
  | Some (cache_time, media_info, subtitles) =>
      if Qlt_bool (now - cache_time) _PROBE_CACHE_TTL_SEC
      then Some (media_info, subtitles) else None
  | None => None
  end.

(** The caching block at the end of [probe_media], under [_probe_lock]. *)
Definition store_probe
    (now : Q) (url : string) (series_id episode_id : option Z) (series_name : string)
    (media_info : MediaInfo) (subtitles : list SubtitleStream) (p : probe_state)
  : probe_state :=
  let entry : probe_entry := (now, Some media_info, subtitles) in
  let p1 := with_probe_cache (<[url := entry]> (_probe_cache p)) p in
  match series_id with
  | None => p1
  | Some sid =>
      let sd :=
        match _series_probe_cache p1 !! sid with
        | None => {| sd_name := series_name; sd_mru := None; sd_episodes := ∅ |}
        | Some sd =>
            if negb (truthy (sd_name sd)) && truthy series_name
            then set_name series_name sd else sd
        end in
      let eid := default 0 episode_id in
      let sd' := set_mru (Some eid) (set_episodes (<[eid := entry]> (sd_episodes sd)) sd) in
      _save_series_probe_cache
        (with_series_cache (<[sid := sd']> (_series_probe_cache p1)) p1)
  end.

(** Third phase: run the inspector, extract, and cache only a probe with a
    positive height. *)
Definition probe_uncached
    (h : host) (now : Q) (url : string) (series_id episode_id : option Z)
    (series_name : string) (p : probe_state) : probe_result * probe_state :=
  match run_probe h url with
  | None => ((None, []), p)
  | Some (data, is_hls_) =>
      let x := extract_streams data in
      if negb (truthy (x_video_codec x)) then ((None, []), p)
      else
        let media_info := build_media_info data is_hls_ in
        let subtitles := x_subtitles x in
        if Z.leb (x_height x) 0 then ((Some media_info, subtitles), p)
        else ((Some media_info, subtitles),
              store_probe now url series_id episode_id series_name media_info subtitles p)
  end.

Definition probe_media
    (h : host) (now : Q) (url : string) (series_id episode_id : option Z)
    (series_name : string) (p : probe_state) : probe_result * probe_state :=
  match series_cache_lookup now series_id episode_id p with
  | (Some hit, p') => (hit, p')
  | (None, p') =>
      match url_cache_lookup now url p' with
      | Some hit => (hit, p')
      | None => probe_uncached h now url series_id episode_id series_name p'
      end
  end.


(** *** Pipeline planner *)

(** [_parse_hw]: ['nvenc+vaapi'] is [('nvenc', 'vaapi')]; a standalone option
    falls back to software. *)
Definition _parse_hw (hw : string) : string * string :=
  if contains "+" hw then split1 "+"%char hw else (hw, "software").

Definition flag_if (b : bool) (s : string) : string := if b then s else "".

Definition tonemap_vaapi : string := "tonemap_vaapi=format=nv12:t=bt709:m=bt709:p=bt709,".

(** [_build_video_args]: the arguments placed before the input and those
    placed after it. *)
Definition _build_video_args
    (h : host) (copy_video : bool) (hw : string) (deinterlace use_hw_pipeline : bool)
    (max_resolution quality : string) (is_hdr : bool)
  : result (list string * list string) :=
  if copy_video then Ok ([], ["-c:v"; "copy"])
  else
    let '(enc_type, fallback) := _parse_hw hw in
    let needs_vaapi := String.eqb enc_type "vaapi" || String.eqb fallback "vaapi" in
    if needs_vaapi && negb (truthy_opt (VAAPI_DEVICE h)) then
      Raise (RuntimeError
        ("Hardware acceleration '" +:+ hw +:+
         "' requires VAAPI but no Intel/AMD GPU was detected. " +:+
         "Select a different hardware option in settings."))
    else
      let device := default "" (VAAPI_DEVICE h) in
      let hx : option string :=
        match _MAX_RES_HEIGHT max_resolution with
        | Some max_h =>
            if Z.eqb max_h 0 then None else Some ("min(ih\," +:+ str max_h +:+ ")")
        | None => None
        end in
      let qp := default 28 (_QUALITY_QP quality) in
      let scale_vaapi :=
        match hx with
        | Some e => "scale_vaapi=w=-2:h=" +:+ e +:+ ":format=nv12"
        | None => "scale_vaapi=format=nv12"
        end in
      let scale_cuda :=
        match hx with
        | Some e => "scale_cuda=-2:" +:+ e +:+ ":format=nv12"
        | None => "scale_cuda=format=nv12"
        end in
      let finish (pre : list string) (vf encoder : string) (enc_opts : list string) :=
        Ok (pre, (["-vf"; vf; "-c:v"; encoder] ++ enc_opts ++ ["-g"; "60"])%list) in
      if String.eqb enc_type "nvenc" then
        let '(pre, vf) :=
          if use_hw_pipeline then
            let deint := flag_if deinterlace "yadif_cuda=0," in
            let tonemap :=
              if is_hdr then
                if has_libplacebo h then
                  "hwdownload,format=p010le,libplacebo=tonemapping=hable:colorspace=bt709:color_primaries=bt709:color_trc=bt709,format=nv12,hwupload_cuda,"
                else
                  "hwdownload,format=p010le,zscale=t=linear:npl=100,format=gbrpf32le,zscale=p=bt709,tonemap=hable:desat=0,zscale=t=bt709:m=bt709:r=tv,format=nv12,hwupload_cuda,"
              else "" in
            (["-hwaccel"; "cuda"; "-hwaccel_output_format"; "cuda"; "-extra_hw_frames"; "3"],
             deint +:+ tonemap +:+ scale_cuda)
          else if String.eqb fallback "vaapi" then
            let tonemap := flag_if is_hdr tonemap_vaapi in
            let deint := flag_if deinterlace "deinterlace_vaapi," in
            (["-hwaccel"; "vaapi"; "-hwaccel_output_format"; "vaapi"; "-hwaccel_device"; device],
             deint +:+ tonemap +:+ scale_vaapi +:+ ",hwdownload,format=nv12,hwupload_cuda")
          else if is_hdr then
            let deint := flag_if deinterlace "yadif=0," in
            let tonemap :=
              if has_libplacebo h then
                "libplacebo=tonemapping=hable:colorspace=bt709:color_primaries=bt709:color_trc=bt709,format=nv12,hwupload_cuda,"
              else
                "zscale=t=linear:npl=100,format=gbrpf32le,zscale=p=bt709,tonemap=hable:desat=0,zscale=t=bt709:m=bt709:r=tv,format=nv12,hwupload_cuda," in
            ([], deint +:+ tonemap +:+ scale_cuda)
          else
            let deint := flag_if deinterlace "yadif_cuda=0," in
            ([], "format=nv12,hwupload_cuda," +:+ deint +:+ scale_cuda) in
        let preset := if deinterlace then "p4" else "p2" in
        finish pre vf "h264_nvenc"
          ["-preset"; preset; "-rc"; "constqp"; "-qp"; str qp; "-rc-lookahead"; "32";
           "-bf"; "3"; "-spatial-aq"; "1"; "-temporal-aq"; "1"]
      else if String.eqb enc_type "amf" then
        let '(pre, vf) :=
          if String.eqb fallback "vaapi" then
            let tonemap := flag_if is_hdr tonemap_vaapi in
            let deint := flag_if deinterlace "deinterlace_vaapi," in
            (["-hwaccel"; "vaapi"; "-hwaccel_output_format"; "vaapi"; "-hwaccel_device"; device],
             deint +:+ tonemap +:+ scale_vaapi +:+ ",hwdownload,format=nv12")
          else
            let tonemap :=
              flag_if is_hdr
                "zscale=t=linear:npl=100,format=gbrpf32le,zscale=p=bt709,tonemap=hable:desat=0,zscale=t=bt709:m=bt709:r=tv,format=nv12," in
            let deint := flag_if deinterlace "yadif=0," in
            let scale := match hx with Some e => "scale=-2:" +:+ e | None => "" end in
            ([], replace_double ","%char
                   (strip ","%char (deint +:+ tonemap +:+ scale +:+ ",format=nv12"))) in
        finish pre vf "h264_amf"
          ["-rc"; "cqp"; "-qp_i"; str qp; "-qp_p"; str qp; "-quality"; "balanced"]
      else if String.eqb enc_type "vaapi" then
        let tonemap := flag_if is_hdr tonemap_vaapi in
        let '(pre, vf) :=
          if use_hw_pipeline then
            (["-hwaccel"; "vaapi"; "-hwaccel_output_format"; "vaapi"; "-hwaccel_device"; device;
              "-extra_hw_frames"; "3"],
             if deinterlace then "deinterlace_vaapi," +:+ tonemap +:+ scale_vaapi
             else tonemap +:+ scale_vaapi)
          else
            let deint := flag_if deinterlace "deinterlace_vaapi," in
            (["-vaapi_device"; device],
             "format=nv12,hwupload," +:+ deint +:+ tonemap +:+ scale_vaapi) in
        finish pre vf "h264_vaapi" ["-rc_mode"; "CQP"; "-qp"; str qp; "-bf"; "3"]
      else if String.eqb enc_type "qsv" then
        let scale :=
          match hx with
          | Some e => "scale_qsv=w=-2:h=" +:+ e +:+ ":format=nv12"
          | None => "scale_qsv=format=nv12"
          end in
        let vpp :=
          if deinterlace && is_hdr then "vpp_qsv=deinterlace=2:tonemap=1:format=nv12," +:+ scale
          else if deinterlace then "vpp_qsv=deinterlace=2," +:+ scale
          else if is_hdr then "vpp_qsv=tonemap=1:format=nv12," +:+ scale
          else scale in
        let '(pre, vf) :=
          if use_hw_pipeline then
            (["-hwaccel"; "qsv"; "-hwaccel_output_format"; "qsv"], vpp)
          else
            (["-init_hw_device"; "qsv=hw"; "-filter_hw_device"; "hw"],
             "format=nv12,hwupload=extra_hw_frames=64," +:+ vpp) in
        finish pre vf "h264_qsv"
          ["-global_quality"; str qp; "-bf"; "3"; "-look_ahead"; "1"; "-look_ahead_depth"; "40"]
      else if String.eqb enc_type "software" then
        let tonemap :=
          flag_if is_hdr
            "zscale=t=linear:npl=100,format=gbrpf32le,zscale=p=bt709,tonemap=hable:desat=0,zscale=t=bt709:m=bt709:r=tv,format=yuv420p," in
        let deint := flag_if deinterlace "yadif=0," in
        let vf :=
          match hx with
          | Some e => deint +:+ tonemap +:+ "scale=-2:" +:+ e +:+ ",format=yuv420p"
          | None => rstrip ","%char (deint +:+ tonemap +:+ "format=yuv420p")
          end in
        let crf := default 26 (_QUALITY_CRF quality) in
        finish [] vf "libx264" ["-preset"; "veryfast"; "-crf"; str crf; "-bf"; "3"]
      else
        Raise (ValueError ("Unrecognized hardware encoder: '" +:+ enc_type +:+ "'.")).

Definition _build_audio_args (copy_audio : bool) (audio_sample_rate_ : Z) : list string :=
  if copy_audio then ["-c:a"; "copy"]
  else
    let rate :=
      if Z.eqb audio_sample_rate_ 44100 || Z.eqb audio_sample_rate_ 48000
      then str audio_sample_rate_ else "48000" in
    ["-c:a"; "aac"; "-ac"; "2"; "-ar"; rate; "-b:a"; "192k"; "-profile:a"; "aac_low"].

(** [int(x)] on a float: truncation toward zero. *)
Definition int_of_float (x : Q) : Z :=
  if Qlt_bool x 0 then Qceiling x else Qfloor x.

Definition get_live_hls_list_size (h : host) : Z :=
  let dvr_mins := default 0 (live_dvr_mins (settings h)) in
  if Z.leb dvr_mins 0 then
    int_of_float (DEFAULT_LIVE_BUFFER_SECS / _HLS_SEGMENT_DURATION_SEC)
  else
    int_of_float (inject_Z dvr_mins * 60 / _HLS_SEGMENT_DURATION_SEC).

(** The stream-copy decisions of [build_hls_ffmpeg_cmd]. *)
Definition copy_video_of (media_info : option MediaInfo) (max_resolution : string) : bool :=
  let max_h := default 9999 (_MAX_RES_HEIGHT max_resolution) in
  match media_info with
  | None => false
  | Some mi =>
      let needs_scale := Z.ltb max_h (height mi) in
      String.eqb (video_codec mi) "h264"
      && String.eqb (pix_fmt mi) "yuv420p"
      && negb needs_scale
      && negb (interlaced mi)
  end.

Definition copy_audio_of (media_info : option MediaInfo) : bool :=
  match media_info with
  | None => false
  | Some mi =>
      String.eqb (audio_codec mi) "aac"
      && Z.leb (audio_channels mi) 2
      && (Z.eqb (audio_sample_rate mi) 44100 || Z.eqb (audio_sample_rate mi) 48000)
      && negb (contains "HE" (audio_profile mi))
  end.

Definition use_hw_pipeline_of
    (h : host) (copy_video : bool) (hw : string) (media_info : option MediaInfo) : bool :=
  let enc_type := (_parse_hw hw).1 in
  match media_info with
  | None => false
  | Some mi =>
      let codec := video_codec mi in
      negb copy_video
      && ((String.eqb enc_type "nvenc" && str_in codec (gpu_nvdec_codecs h))
          || (String.eqb enc_type "vaapi" && str_in codec _VAAPI_SAFE_CODECS)
          || (String.eqb enc_type "qsv" && str_in codec _QSV_SAFE_CODECS))
  end.

Definition subtitle_args (output_dir : string) (subtitles : list SubtitleStream)
  : list string :=
  concat (imap (λ i sub,
    ["-map"; "0:" +:+ str (sub_index sub); "-c:s"; "webvtt"; "-flush_packets"; "1";
     output_dir +:+ "/sub" +:+ str (Z.of_nat i) +:+ ".vtt"]) subtitles).

Definition build_hls_ffmpeg_cmd
    (h : host) (input_url hw output_dir : string) (is_vod : bool)
    (subtitles : option (list SubtitleStream)) (media_info : option MediaInfo)
    (max_resolution quality : string) (user_agent : option string)
    (deinterlace_fallback : option bool) : result (list string) :=
  let copy_video := copy_video_of media_info max_resolution in
  let copy_audio := copy_audio_of media_info in
  let use_hw_pipeline := use_hw_pipeline_of h copy_video hw media_info in
  let fallback := default (negb is_vod) deinterlace_fallback in
  let deinterlace :=
    match media_info with Some mi => interlaced mi | None => fallback end in
  bind (_build_video_args h copy_video hw deinterlace use_hw_pipeline
          max_resolution quality
          (match media_info with Some mi => is_hdr mi | None => false end))
    (λ '(video_pre, video_post),
      let audio_args :=
        _build_audio_args copy_audio
          (match media_info with Some mi => audio_sample_rate mi | None => 0 end) in
      Ok (["ffmpeg"; "-hide_banner"; "-loglevel"; "error"; "-noautorotate"]
          ++ video_pre
          ++ match media_info with
             | None =>
                 ["-probesize"; if is_vod then "50000" else "5000000";
                  "-analyzeduration"; if is_vod then "500000" else "5000000"]
             | Some _ => []
             end
          ++ ["-fflags"; "+discardcorrupt+genpts"; "-err_detect"; "ignore_err";
              "-reconnect"; "1"; "-reconnect_streamed"; "1";
              "-reconnect_on_network_error"; "1";
              "-reconnect_on_http_error"; "4xx,5xx"; "-reconnect_delay_max"; "30"]
          ++ (if truthy_opt user_agent then ["-user_agent"; default "" user_agent] else [])
          ++ match media_info with
             | Some mi => if is_hls mi then ["-f"; "hls"; "-extension_picky"; "0"] else []
             | None => []
             end
          ++ ["-i"; input_url]
          ++ subtitle_args output_dir (default [] subtitles)
          ++ ["-map"; "0:v:0"; "-map"; "0:a:0"]
          ++ video_post
          ++ audio_args
          ++ ["-max_delay"; "5000000"; "-f"; "hls";
              "-hls_time"; str (int_of_float _HLS_SEGMENT_DURATION_SEC);
              "-hls_list_size"; if is_vod then "0" else str (get_live_hls_list_size h);
              "-hls_segment_filename"; output_dir +:+ "/" +:+ SEG_PREFIX +:+ "%03d.ts"]
          ++ (if is_vod
              then ["-hls_init_time"; "2"; "-hls_flags"; "independent_segments";
                    "-hls_playlist_type"; "event"]
              else ["-hls_flags"; "delete_segments"])
          ++ [output_dir +:+ "/stream.m3u8"])%list).

(** *** Probe cache management *)

(** [clear_all_probe_cache]: both caches are emptied and the series file is
    rewritten; the result counts the URL entries and the cached episodes
    that were dropped. *)
Definition clear_all_probe_cache (p : probe_state) : Z * probe_state :=
  let url_count := size (_probe_cache p) in
  let series_count :=
    sum_list ((λ kv, size (sd_episodes kv.2)) <$> map_to_list (_series_probe_cache p)) in
  (Z.of_nat (url_count + series_count),
   _save_series_probe_cache (with_series_cache ∅ (with_probe_cache ∅ p))).

(** [clear_series_mru]: the series keeps its episodes and loses its MRU
    pointer; an unknown series is left alone and the file is not rewritten. *)
Definition clear_series_mru (series_id : Z) (p : probe_state) : probe_state :=
  match _series_probe_cache p !! series_id with
  | None => p
  | Some sd =>
      _save_series_probe_cache
        (with_series_cache (<[series_id := set_mru None sd]> (_series_probe_cache p)) p)
  end.

End ffmpeg_command.

(** ** ffmpeg_session.py: the session registry and its operations *)

Module ffmpeg_session.
Import ffmpeg_command.

(** *** Constants *)

Definition _QUICK_FAILURE_THRESHOLD_SEC : Q := 10.
Definition _HEARTBEAT_TIMEOUT_SEC : Q := 30.
Definition _PLAYLIST_WAIT_TIMEOUT_SEC : Q := 30.
Definition _PLAYLIST_WAIT_SEEK_TIMEOUT_SEC : Q := 40.
Definition _REUSE_ACTIVE_WAIT_TIMEOUT_SEC : Q := 15.
Definition _RESUME_WAIT_TIMEOUT_SEC : Q := 10.
Definition _RESUME_SEGMENT_WAIT_TIMEOUT_SEC : Q := 5.
Definition _MIN_SEGMENT_SIZE_BYTES : Z := 1000.

(** *** Data *)

(** The [process] field of a session: the [_DeadProcess] placeholder, or the
    handle of a spawned transcoder. *)
Inductive process_handle :=
| _DeadProcess
| Process (pid : nat).

(** What the operating system knows about a spawned transcoder: still
    running ([returncode is None]), exited by itself, or ended by a signal
    this program sent. *)
Inductive pstatus :=
| Running
| Exited (returncode : Z)
| Terminated.

(** The subtitle dicts kept in a session and in its descriptor. *)
Record sub_info := {
  si_index : Z;
  si_lang : string;
  si_name : string;
}.

(** A session dict; both places that create one (fresh start and recovery)
    write all of these keys. *)
Record session := {
  dir : string;
  process : process_handle;
  started : Q;
  url : string;
  is_vod : bool;
  last_access : Q;
  subtitles : option (list sub_info);
  duration_ : Q;
  seek_offset : Q;
  series_id : option Z;
  episode_id : option Z;
  username : string;
  source_id : string;
}.

(** The ["probe"] object of a descriptor. *)
Record probe_info := {
  pi_video_codec : string;
  pi_audio_codec : string;
  pi_pix_fmt : string;
  pi_audio_channels : Z;
  pi_audio_sample_rate : Z;
  pi_subtitle_codecs : option (list string);
  pi_height : Z;
  pi_video_bitrate : Z;
  pi_interlaced : bool;
}.

(** The persisted descriptor, [session.json], as its readers see it: a key
    read with [info.get(key, default)] holds the default when it is
    missing, except [started], whose default is the directory's mtime. *)
Record session_info := {
  info_session_id : string;
  info_url : string;
  info_is_vod : bool;
  info_started : option Q;
  info_subtitles : list sub_info;
  info_duration : Q;
  info_seek_offset : Q;
  info_series_id : option Z;
  info_episode_id : option Z;
  info_username : string;
  info_source_id : string;
  info_probe : option probe_info;
}.

(** One output directory: its modification time, the regular files in it
    (name and size in bytes: segments, subtitle files, anything else), the
    lines of [stream.m3u8] if it exists, and [session.json] if it exists
    ([Some None] is a file that does not parse as a descriptor). *)
Record dir_state := {
  d_mtime : Q;
  d_files : gmap string Z;
  d_playlist : option (list string);
  d_session_json : option (option session_info);
}.

(** An argument of a spawned command: a literal, or [str(x)] of a float. *)
Inductive arg :=
| Lit (s : string)
| Flt (x : Q).

(** A pending background task: the coroutine and the arguments it was
    created with. *)
Inductive task :=
| MonitorStderr (pid : nat) (session_id : string)
| MonitorResume (pid : nat) (session_id url_ : string)
| MonitorSeek (pid : nat) (session_id : string).

(** Module state of [ffmpeg_session] and of [ffmpeg_command], and the part
    of the outside world the orchestrator acts on: the transcode directory
    tree, the spawned processes, and a log of the spawn and signal calls. *)
Record world := {
  _transcode_sessions : list (string * session);
  _url_to_session : gmap string string;
  _background_tasks : list task;
  dirs : gmap string dir_state;
  procs : gmap nat pstatus;
  spawned : list (nat * list arg);
  signalled : list nat;
  probe : probe_state;
}.

Definition empty_world : world :=
  {| _transcode_sessions := []; _url_to_session := ∅; _background_tasks := [];
     dirs := ∅; procs := ∅;
     spawned := []; signalled := []; probe := empty_probe_state |}.

Definition with_sessions (l : list (string * session)) (w : world) : world :=
  {| _transcode_sessions := l; _url_to_session := _url_to_session w;
     _background_tasks := _background_tasks w; dirs := dirs w;
     procs := procs w; spawned := spawned w; signalled := signalled w; probe := probe w |}.

Definition with_index (m : gmap string string) (w : world) : world :=
  {| _transcode_sessions := _transcode_sessions w; _url_to_session := m;
     _background_tasks := _background_tasks w; dirs := dirs w;
     procs := procs w; spawned := spawned w; signalled := signalled w; probe := probe w |}.

Definition with_dirs (d : gmap string dir_state) (w : world) : world :=
  {| _transcode_sessions := _transcode_sessions w; _url_to_session := _url_to_session w;
     _background_tasks := _background_tasks w;
     dirs := d; procs := procs w; spawned := spawned w; signalled := signalled w;
     probe := probe w |}.

Definition with_procs (p : gmap nat pstatus) (w : world) : world :=
  {| _transcode_sessions := _transcode_sessions w; _url_to_session := _url_to_session w;
     _background_tasks := _background_tasks w;
     dirs := dirs w; procs := p; spawned := spawned w; signalled := signalled w;
     probe := probe w |}.

Definition with_spawned (l : list (nat * list arg)) (w : world) : world :=
  {| _transcode_sessions := _transcode_sessions w; _url_to_session := _url_to_session w;
     _background_tasks := _background_tasks w;
     dirs := dirs w; procs := procs w; spawned := l; signalled := signalled w;
     probe := probe w |}.

Definition with_signalled (l : list nat) (w : world) : world :=
  {| _transcode_sessions := _transcode_sessions w; _url_to_session := _url_to_session w;
     _background_tasks := _background_tasks w;
     dirs := dirs w; procs := procs w; spawned := spawned w; signalled := l;
     probe := probe w |}.

Definition with_probe (p : probe_state) (w : world) : world :=
  {| _transcode_sessions := _transcode_sessions w; _url_to_session := _url_to_session w;
     _background_tasks := _background_tasks w;
     dirs := dirs w; procs := procs w; spawned := spawned w; signalled := signalled w;
     probe := p |}.

Definition with_tasks (t : list task) (w : world) : world :=
  {| _transcode_sessions := _transcode_sessions w; _url_to_session := _url_to_session w;
     _background_tasks := t;
     dirs := dirs w; procs := procs w; spawned := spawned w; signalled := signalled w;
     probe := probe w |}.

(** [_spawn_background_task]: the task joins [_background_tasks] until it is
    done. *)
Definition _spawn_background_task (t : task) (w : world) : world :=
  with_tasks (_background_tasks w ++ [t]) w.

(** *** Dict operations on the insertion-ordered session table *)

Section dict.
Context {V : Type}.

(** [d.get(k)] *)
Fixpoint dict_get (k : string) (d : list (string * V)) : option V :=
  match d with
  | [] => None
  | (k', v) :: d' => if String.eqb k' k then Some v else dict_get k d'
  end.

(** [d[k] = v]: an existing key keeps its place, a new key goes last. *)
Fixpoint dict_set (k : string) (v : V) (d : list (string * V)) : list (string * V) :=
  match d with
  | [] => [(k, v)]
  | (k', v') :: d' =>
      if String.eqb k' k then (k, v) :: d' else (k', v') :: dict_set k v d'
  end.

(** [d.pop(k, None)] *)
Fixpoint dict_pop (k : string) (d : list (string * V)) : list (string * V) :=
  match d with
  | [] => []
  | (k', v') :: d' =>
      if String.eqb k' k then d' else (k', v') :: dict_pop k d'
  end.

End dict.

(** Field updates of a session dict. *)
Definition set_last_access (t : Q) (s : session) : session :=
  {| dir := dir s; process := process s; started := started s; url := url s;
     is_vod := is_vod s; last_access := t; subtitles := subtitles s;
     duration_ := duration_ s; seek_offset := seek_offset s;
     series_id := series_id s; episode_id := episode_id s;
     username := username s; source_id := source_id s |}.

Definition set_process (p : process_handle) (s : session) : session :=
  {| dir := dir s; process := p; started := started s; url := url s;
     is_vod := is_vod s; last_access := last_access s; subtitles := subtitles s;
     duration_ := duration_ s; seek_offset := seek_offset s;
     series_id := series_id s; episode_id := episode_id s;
     username := username s; source_id := source_id s |}.

Definition set_seek_offset (t : Q) (s : session) : session :=
  {| dir := dir s; process := process s; started := started s; url := url s;
     is_vod := is_vod s; last_access := last_access s; subtitles := subtitles s;
     duration_ := duration_ s; seek_offset := t;
     series_id := series_id s; episode_id := episode_id s;
     username := username s; source_id := source_id s |}.

(** *** Cache timeouts and session validity *)

Definition get_vod_cache_timeout (h : host) : Z :=
  default 60 (vod_transcode_cache_mins (get_settings h)) * 60.

Definition get_live_cache_timeout (h : host) : Z :=
  default 0 (live_transcode_cache_secs (get_settings h)).

Definition returncode_is_None (w : world) (p : process_handle) : bool :=
  match p with
  | _DeadProcess => false
  | Process pid =>
      match procs w !! pid with
      | Some Running => true
      | _ => false
      end
  end.

Definition _is_process_alive (w : world) (p : process_handle) : bool :=
  returncode_is_None w p.

Definition cache_timeout_of (h : host) (s : session) : Z :=
  if is_vod s then get_vod_cache_timeout h else get_live_cache_timeout h.

Definition is_session_valid (h : host) (w : world) (now : Q) (s : session) : bool :=
  let time_since_heartbeat := (now - last_access s)%Q in
  if Qlt_bool _HEARTBEAT_TIMEOUT_SEC time_since_heartbeat then false
  else if _is_process_alive w (process s) then true
  else
    let cache_timeout := cache_timeout_of h s in
    if Z.leb cache_timeout 0 then false
    else Qlt_bool time_since_heartbeat (inject_Z cache_timeout).

(** [_kill_process]: SIGTERM, then SIGKILL. The placeholder's [terminate] does
    nothing and its [returncode] is set, so the call reports success; a real
    handle that has already exited raises [ProcessLookupError], which is
    reported as [False]. *)
Definition _kill_process (p : process_handle) (w : world) : bool * world :=
  match p with
  | _DeadProcess => (true, w)
  | Process pid =>
      match procs w !! pid with
      | Some Running =>
          (true,
           with_signalled (signalled w ++ [pid])%list
             (with_procs (<[pid := Terminated]> (procs w)) w))
      | _ => (false, w)
      end
  end.

(** [shutil.rmtree(d, ignore_errors=True)] *)
Definition rmtree (d : string) (w : world) : world :=
  with_dirs (delete d (dirs w)) w.

(** *** Start / stop *)

Definition stop_session (h : host) (now : Q) (session_id : string) (force : bool)
    (w : world) : world :=
  match dict_get session_id (_transcode_sessions w) with
  | None => w
  | Some s =>
      if negb force && Qlt_bool (now - last_access s) 5
      then w
      else
        let w1 := (_kill_process (process s) w).2 in
        let cache_timeout := cache_timeout_of h s in
        if negb force && Z.ltb 0 cache_timeout then
          with_sessions
            (dict_set session_id (set_last_access now s) (_transcode_sessions w1)) w1
        else
          let w2 := with_sessions (dict_pop session_id (_transcode_sessions w1)) w1 in
          let w3 :=
            if truthy (url s)
            then with_index (delete (url s) (_url_to_session w2)) w2
            else w2 in
          rmtree (dir s) w3
  end.

Definition cleanup_expired_sessions (h : host) (now : Q) (w : world) : world :=
  let expired :=
    (filter (λ kv, is_session_valid h w now kv.2 = false) (_transcode_sessions w)).*1 in
  foldl (λ w sid, stop_session h now sid true w) w expired.

(** *** Stream limits *)

(** [sorted(sessions, key=started)]: Python's sort is stable, so sessions with
    equal start times keep their insertion order. *)
Fixpoint insert_by_started (x : string * session) (l : list (string * session))
  : list (string * session) :=
  match l with
  | [] => [x]
  | y :: l' =>
      if Qle_bool (started x.2) (started y.2) then x :: l
      else y :: insert_by_started x l'
  end.

Definition sorted_by_started (l : list (string * session)) : list (string * session) :=
  foldr insert_by_started [] l.

Definition get_user_sessions (w : world) (username_ : string)
  : list (string * session) :=
  sorted_by_started
    (filter (λ kv, username kv.2 = username_) (_transcode_sessions w)).

Definition get_source_sessions (w : world) (source_id_ : string)
  : list (string * session) :=
  sorted_by_started
    (filter (λ kv, source_id kv.2 = source_id_) (_transcode_sessions w)).

(** The outcome of [enforce_stream_limits]: the error message if admission
    is refused, the session each of its two checks logged as stopped, and
    the world. *)
Record limits_outcome := {
  lo_error : option string;
  lo_source_stopped : option string;
  lo_user_stopped : option string;
  lo_world : world;
}.

(** The source-limit check: a hard limit, the caller can only reclaim a slot
    of their own. *)
Inductive source_check :=
| Within
| Reclaim (oldest_sid : string)
| AtCapacity.

Definition check_source_limit (w : world) (username_ : string)
    (source_id_ : option string) (source_max : Z) : source_check :=
  if truthy_opt source_id_ && Z.ltb 0 source_max then
    let source_sessions := get_source_sessions w (default "" source_id_) in
    if Z.leb source_max (Z.of_nat (length source_sessions)) then
      let user_source_sessions :=
        filter (λ kv, username kv.2 = username_) source_sessions in
      match user_source_sessions with
      | (oldest_sid, _) :: _ => Reclaim oldest_sid
      | [] => AtCapacity
      end
    else Within
  else Within.

(** The user-limit check: a soft limit, the oldest session rotates out. *)
Definition user_limit_victim (w : world) (username_ : string) (user_max : Z)
  : option string :=
  if Z.ltb 0 user_max then
    let user_sessions := get_user_sessions w username_ in
    if Z.leb user_max (Z.of_nat (length user_sessions)) then
      match user_sessions with
      | (oldest_sid, _) :: _ => Some oldest_sid
      | [] => None
      end
    else None
  else None.

Definition stop_if (h : host) (now : Q) (victim : option string) (w : world) : world :=
  match victim with
  | Some sid => stop_session h now sid true w
  | None => w
  end.

Definition enforce_stream_limits (h : host) (now : Q) (username_ : string)
    (source_id_ : option string) (user_max source_max : Z) (w : world)
  : limits_outcome :=
  let after_source source_victim :=
    let w1 := stop_if h now source_victim w in
    let user_victim := user_limit_victim w1 username_ user_max in
    {| lo_error := None;
       lo_source_stopped := source_victim;
       lo_user_stopped := user_victim;
       lo_world := stop_if h now user_victim w1 |} in
  match check_source_limit w username_ source_id_ source_max with
  | AtCapacity =>
      {| lo_error := Some ("Source at capacity (" +:+ str source_max +:+ " streams)");
         lo_source_stopped := None; lo_user_stopped := None; lo_world := w |}
  | Reclaim oldest_sid => after_source (Some oldest_sid)
  | Within => after_source None
  end.

(** *** Files of an output directory *)

(** [f"{n:03d}"]: zero-padded to width three, the sign counting. *)
Fixpoint zeros (n : nat) (s : string) : string :=
  match n with
  | O => s
  | S k => String "0"%char (zeros k s)
  end.

Definition zfill (width : nat) (s : string) : string :=
  zeros (width - String.length s) s.

Definition format_03d (n : Z) : string :=
  if Z.ltb n 0 then "-" +:+ zfill 2 (str (- n)) else zfill 3 (str n).

Definition segment_name (n : Z) : string := SEG_PREFIX +:+ format_03d n +:+ ".ts".

(** [fnmatch] against [prefix*suffix]. *)
Definition glob_match (prefix suffix name : string) : bool :=
  String.prefix prefix name && endswith name suffix
  && (String.length prefix + String.length suffix <=? String.length name)%nat.

Fixpoint insert_name (x : string * Z) (l : list (string * Z)) : list (string * Z) :=
  match l with
  | [] => [x]
  | y :: l' => if String.leb x.1 y.1 then x :: l else y :: insert_name x l'
  end.

(** [sorted(output_dir.glob(pattern))]: by name, in code-point order. *)
Definition sorted_glob (prefix suffix : string) (d : dir_state) : list (string * Z) :=
  foldr insert_name []
    (filter (λ kv, glob_match prefix suffix kv.1 = true) (map_to_list (d_files d))).

(** [int(seg_file.stem[len(SEG_PREFIX):])] for a name matched by [seg*.ts];
    [None] is [ValueError]. *)
Definition segment_number (name : string) : option Z :=
  py.int (String.substring (String.length SEG_PREFIX)
            (String.length name - String.length SEG_PREFIX - 3) name).

(** [f"{x:.6f}"] *)
Definition format_6f (x : Q) : string :=
  let scaled := Qfloor (x * 1000000 + (1 # 2))%Q in
  let render (m : Z) :=
    str (m / 1000000) +:+ "." +:+ zfill 6 (str (m mod 1000000)) in
  if Z.ltb scaled 0 then "-" +:+ render (- scaled) else render scaled.

Definition set_playlist (lines : option (list string)) (d : dir_state) : dir_state :=
  {| d_mtime := d_mtime d; d_files := d_files d; d_playlist := lines;
     d_session_json := d_session_json d |}.

Definition set_files (f : gmap string Z) (d : dir_state) : dir_state :=
  {| d_mtime := d_mtime d; d_files := f; d_playlist := d_playlist d;
     d_session_json := d_session_json d |}.

Definition set_session_json (j : option (option session_info)) (d : dir_state) : dir_state :=
  {| d_mtime := d_mtime d; d_files := d_files d; d_playlist := d_playlist d;
     d_session_json := j |}.

(** The segments [_regenerate_playlist] keeps: numbered at or after
    [start_segment] and larger than the size threshold. *)
Definition playlist_segments (d : dir_state) (start_segment : Z) : list (Z * string) :=
  omap (λ '(name, size),
          match segment_number name with
          | Some seg_num =>
              if Z.leb start_segment seg_num && Z.ltb _MIN_SEGMENT_SIZE_BYTES size
              then Some (seg_num, name) else None
          | None => None
          end)
       (sorted_glob SEG_PREFIX ".ts" d).

Definition playlist_lines (start_segment : Z) (segments : list (Z * string)) : list string :=
  (["#EXTM3U";
    "#EXT-X-VERSION:3";
    "#EXT-X-TARGETDURATION:" +:+ str (int_of_float get_hls_segment_duration + 1);
    "#EXT-X-MEDIA-SEQUENCE:" +:+ str start_segment;
    "#EXT-X-PLAYLIST-TYPE:EVENT"]
   ++ concat (map (λ '(_, seg_name),
                     ["#EXTINF:" +:+ format_6f get_hls_segment_duration +:+ ","; seg_name])
                  segments))%list.

(** [_regenerate_playlist] on the directory itself; nothing is written when
    no segment qualifies. *)
Definition regenerate_dir (start_segment : Z) (d : dir_state) : dir_state :=
  match playlist_segments d start_segment with
  | [] => d
  | segments => set_playlist (Some (playlist_lines start_segment segments)) d
  end.

Definition _regenerate_playlist (output_dir : string) (start_segment : Z) (w : world)
  : world :=
  match dirs w !! output_dir with
  | None => w
  | Some d => with_dirs (<[output_dir := regenerate_dir start_segment d]> (dirs w)) w
  end.

(** Reading a playlist back: the number on its [#EXT-X-MEDIA-SEQUENCE] line. *)
Definition media_sequence (lines : list string) : option Z :=
  let tag := "#EXT-X-MEDIA-SEQUENCE:" in
  match filter (λ l, String.prefix tag l = true) lines with
  | l :: _ => py.int (String.substring (String.length tag)
                        (String.length l - String.length tag) l)
  | [] => None
  end.

(** [float(s)] for a run of digits and dots; [None] is [ValueError]. *)
Definition is_digit (c : ascii) : bool :=
  let n := nat_of_ascii c in (48 <=? n)%nat && (n <=? 57)%nat.

Fixpoint float_digits (s : string) (seen_dot : bool) (num den : Z) (ndigits : nat)
  : option Q :=
  match s with
  | EmptyString =>
      if (ndigits =? 0)%nat then None else Some (num # Z.to_pos den)
  | String c rest =>
      if Ascii.eqb c "."%char then
        if seen_dot then None else float_digits rest true num den ndigits
      else if is_digit c then
        let dgt := Z.of_nat (nat_of_ascii c - 48) in
        float_digits rest seen_dot (num * 10 + dgt)
          (if seen_dot then den * 10 else den) (S ndigits)
      else None
  end.

Definition float_of_string (s : string) : option Q := float_digits s false 0 1 0.

(** The longest prefix of digits and dots: what [[\d.]+] captures. *)
Fixpoint digit_run (s : string) : string :=
  match s with
  | String c rest =>
      if is_digit c || Ascii.eqb c "."%char then String c (digit_run rest) else ""
  | EmptyString => ""
  end.

(** [re.findall(r"#EXTINF:([\d.]+)", line)] *)
Fixpoint findall_extinf (line : string) : list string :=
  let here :=
    if String.prefix "#EXTINF:" line then
      match digit_run (String.substring 8 (String.length line - 8) line) with
      | "" => []
      | run => [run]
      end
    else [] in
  match line with
  | EmptyString => here
  | String _ rest => (here ++ findall_extinf rest)%list
  end.

(** [_calc_hls_duration]: the sum of the playlist's segment durations, or an
    estimate from the segment count when there is no playlist or it lists
    nothing. An unreadable duration raises [ValueError]. *)
Definition _calc_hls_duration (d : option dir_state) (segment_count : nat) : result Q :=
  let estimate := Ok (inject_Z (Z.of_nat segment_count) * get_hls_segment_duration)%Q in
  match d ≫= d_playlist with
  | None => estimate
  | Some lines =>
      match concat (map findall_extinf lines) with
      | [] => estimate
      | durations =>
          foldl (λ acc s,
                   bind acc (λ total,
                     match float_of_string s with
                     | Some x => Ok (total + x)%Q
                     | None => Raise (ValueError ("could not convert string to float: " +:+ s))
                     end))
                (Ok 0%Q) durations
      end
  end.


(** *** Recovery sweep *)

Definition recovered_session (path : string) (now mtime : Q) (info : session_info)
  : session :=
  {| dir := path;
     process := _DeadProcess;
     started := default mtime (info_started info);
     url := info_url info;
     is_vod := true;
     last_access := now;
     subtitles := match info_subtitles info with [] => None | l => Some l end;
     duration_ := info_duration info;
     seek_offset := info_seek_offset info;
     series_id := info_series_id info;
     episode_id := info_episode_id info;
     username := info_username info;
     source_id := info_source_id info |}.

(** The locked block of the sweep: register the recovered session, then
    decide whether the URL index moves to it. *)
Definition register_recovered (path : string) (now mtime : Q) (info : session_info)
    (w : world) : world :=
  let session_id := info_session_id info in
  let url_ := info_url info in
  let new_seek := info_seek_offset info in
  let w1 :=
    with_sessions
      (dict_set session_id (recovered_session path now mtime info) (_transcode_sessions w))
      w in
  let claim := with_index (<[url_ := session_id]> (_url_to_session w1)) w1 in
  match _url_to_session w1 !! url_ with
  | Some existing_id =>
      if truthy existing_id then
        let existing := dict_get existing_id (_transcode_sessions w1) in
        let existing_seek := default 0%Q (seek_offset <$> existing) in
        let existing_mtime := default 0%Q (last_access <$> existing) in
        if (Qlt_bool 0 new_seek && Qeq_bool existing_seek 0)
           || (Qeq_bool existing_seek 0 && Qeq_bool new_seek 0
               && Qlt_bool existing_mtime mtime)
        then claim else w1
      else claim
  | None => claim
  end.

Definition media_info_of_descriptor (info : session_info) (p : probe_info) : MediaInfo :=
  {| video_codec := pi_video_codec p;
     audio_codec := pi_audio_codec p;
     pix_fmt := pi_pix_fmt p;
     audio_channels := pi_audio_channels p;
     audio_sample_rate := pi_audio_sample_rate p;
     audio_profile := "";
     subtitle_codecs := pi_subtitle_codecs p;
     duration := info_duration info;
     height := pi_height p;
     video_bitrate := pi_video_bitrate p;
     interlaced := pi_interlaced p;
     is_10bit := false;
     is_hdr := false;
     is_hls := false |}.

Definition stream_of_sub (s : sub_info) : SubtitleStream :=
  {| sub_index := si_index s; sub_lang := si_lang s; sub_name := si_name s |}.

Definition sub_of_stream (s : SubtitleStream) : sub_info :=
  {| si_index := sub_index s; si_lang := sub_lang s; si_name := sub_name s |}.

(** The body of the sweep's loop for one candidate directory. *)
Definition recover_dir (h : host) (now : Q) (w : world) (path : string) : world :=
  match dirs w !! path with
  | None => rmtree path w
  | Some d =>
      match d_session_json d with
      | None => rmtree path w
      | Some descriptor =>
          if Qlt_bool (inject_Z (get_vod_cache_timeout h)) (now - d_mtime d) then
            rmtree path w
          else
            match sorted_glob SEG_PREFIX ".ts" d with
            | [] => rmtree path w
            | _ =>
                match descriptor with
                | None => rmtree path w
                | Some info =>
                    if negb (info_is_vod info && truthy (info_url info)) then rmtree path w
                    else
                      let w1 := register_recovered path now (d_mtime d) info w in
                      match info_probe info with
                      | None => w1
                      | Some p =>
                          with_probe
                            (restore_probe_cache_entry now (info_url info)
                               (media_info_of_descriptor info p)
                               (map stream_of_sub (info_subtitles info))
                               (info_series_id info) (info_episode_id info) (probe w1))
                            w1
                      end
                end
            end
      end
  end.

(** [cleanup_and_recover_sessions]; [candidates] is what
    [glob("netv_transcode_*")] yields, in the order it yields it. *)
Definition cleanup_and_recover_sessions (h : host) (now : Q) (candidates : list string)
    (w : world) : world :=
  foldl (recover_dir h now) w candidates.

(** *** Process monitoring *)

(** The process ends by itself with [returncode]; a process this program
    signalled keeps its [Terminated] status. *)
Definition record_exit (pid : nat) (returncode : Z) (w : world) : world :=
  match procs w !! pid with
  | Some Running => with_procs (<[pid := Exited returncode]> (procs w)) w
  | _ => w
  end.

(** [_monitor_resume_ffmpeg], from the moment its process has ended with
    [returncode], [elapsed] seconds after the monitor started. *)
Definition _monitor_resume_ffmpeg (pid : nat) (returncode : Z) (elapsed : Q)
    (session_id url_ : string) (w : world) : world :=
  let w0 := record_exit pid returncode w in
  if negb (Z.eqb returncode 0) then
    if Qlt_bool elapsed _QUICK_FAILURE_THRESHOLD_SEC then
      let w1 := with_index (delete url_ (_url_to_session w0)) w0 in
      let session := dict_get session_id (_transcode_sessions w1) in
      let w2 := with_sessions (dict_pop session_id (_transcode_sessions w1)) w1 in
      match session with
      | Some s => rmtree (dir s) w2
      | None => w2
      end
    else w0
  else w0.


(** The return code a monitor reads once its process has ended: the one on
    record if the exit was already observed, else the one it ends with now. *)
Definition observed_returncode (pid : nat) (returncode : Z) (w : world) : Z :=
  match procs w !! pid with
  | Some (Exited rc) => rc
  | _ => returncode
  end.

(** The [i]-th background task finishes and leaves the task set: a resume
    monitor handles the exit of its process, the other two only log. *)
Definition task_done (i : nat) (returncode : Z) (elapsed : Q) (w : world) : world :=
  match _background_tasks w !! i with
  | None => w
  | Some t =>
      let w1 := with_tasks (delete i (_background_tasks w)) w in
      match t with
      | MonitorResume pid session_id url_ =>
          _monitor_resume_ffmpeg pid (observed_returncode pid returncode w1) elapsed
            session_id url_ w1
      | MonitorSeek pid _ => record_exit pid returncode w1
      | MonitorStderr _ _ => w1
      end
  end.

(** *** Spawning and waiting *)

(** What happened while the orchestrator waited on a process: whether the
    wait reported readiness, and the return code if the process ended by
    itself meanwhile. Files the transcoder writes during a wait are not
    tracked inside an operation. *)
Record wait_outcome := {
  wo_ready : bool;
  wo_exit : option Z;
}.

Definition after_wait (pid : nat) (o : wait_outcome) (w : world) : world :=
  match wo_exit o with
  | Some rc => record_exit pid rc w
  | None => w
  end.

(** [asyncio.create_subprocess_exec] on [cmd]; [pid] is the handle it returns. *)
Definition spawn (pid : nat) (cmd : list arg) (w : world) : world :=
  with_spawned (spawned w ++ [(pid, cmd)])%list
    (with_procs (<[pid := Running]> (procs w)) w).

Definition is_lit (s : string) (a : arg) : bool :=
  match a with
  | Lit s' => String.eqb s' s
  | Flt _ => false
  end.

(** [cmd.index(s)]; [None] is [ValueError]. *)
Fixpoint index_of (s : string) (cmd : list arg) : option nat :=
  match cmd with
  | [] => None
  | a :: rest => if is_lit s a then Some O else S <$> index_of s rest
  end.

(** [cmd.insert(i, a)] *)
Definition insert_at (i : nat) (a : arg) (cmd : list arg) : list arg :=
  (take i cmd ++ a :: drop i cmd)%list.

(** [cmd.insert(i, value); cmd.insert(i, flag)] in front of the first [anchor]. *)
Definition insert_before (anchor : string) (flag : string) (value : arg) (cmd : list arg)
  : result (list arg) :=
  match index_of anchor cmd with
  | Some i => Ok (insert_at i (Lit flag) (insert_at i value cmd))
  | None => Raise (ValueError ("'" +:+ anchor +:+ "' is not in list"))
  end.

(** *** Seek *)

Inductive seek_response :=
| SmartSeek (session_id playlist : string)
| SeekDone (segment : Z) (time : Q).

Record seek_env := {
  sk_pid : nat;
  sk_wait : wait_outcome;
}.

(** The deletions of a restarting seek: the playlist, every segment numbered
    at or after the target, and the extracted subtitle files. *)
Definition unlinked_by_seek (segment_num : Z) (name : string) : bool :=
  (glob_match SEG_PREFIX ".ts" name
   && match segment_number name with
      | Some seg_num => Z.leb segment_num seg_num
      | None => false
      end)
  || glob_match "sub" ".vtt" name.

Definition clear_for_seek (segment_num : Z) (d : dir_state) : dir_state :=
  set_playlist None
    (set_files
       (filter (λ kv, unlinked_by_seek segment_num kv.1 = false) (d_files d))
       d).

(** [_update_seek_session] *)
Definition _update_seek_session (session_id url_ : string) (p : process_handle)
    (seek_time : Q) (w : world) : bool * world :=
  match dict_get session_id (_transcode_sessions w) with
  | None => (false, w)
  | Some s =>
      let w1 :=
        with_sessions
          (dict_set session_id (set_seek_offset seek_time (set_process p s))
             (_transcode_sessions w)) w in
      (true,
       if truthy url_ then with_index (<[url_ := session_id]> (_url_to_session w1)) w1
       else w1)
  end.

Definition set_info_seek_offset (t : Q) (i : session_info) : session_info :=
  {| info_session_id := info_session_id i; info_url := info_url i;
     info_is_vod := info_is_vod i; info_started := info_started i;
     info_subtitles := info_subtitles i; info_duration := info_duration i;
     info_seek_offset := t; info_series_id := info_series_id i;
     info_episode_id := info_episode_id i; info_username := info_username i;
     info_source_id := info_source_id i; info_probe := info_probe i |}.

(** The "Persist seek_offset" block: rewrite [session.json] if it exists and
    parses. *)
Definition persist_seek_offset (output_dir : string) (seek_time : Q) (w : world) : world :=
  match dirs w !! output_dir with
  | Some d =>
      match d_session_json d with
      | Some (Some info) =>
          with_dirs
            (<[output_dir :=
                 set_session_json (Some (Some (set_info_seek_offset seek_time info))) d]>
               (dirs w)) w
      | _ => w
      end
  | None => w
  end.

Definition is_truthy_id (x : option Z) : bool :=
  match x with Some n => negb (Z.eqb n 0) | None => false end.

(** The target segment of a seek is on disk and larger than the threshold. *)
Definition segment_materialized (w : world) (output_dir : string) (segment_num : Z) : bool :=
  match dirs w !! output_dir ≫= λ d, d_files d !! segment_name segment_num with
  | Some size => Z.ltb _MIN_SEGMENT_SIZE_BYTES size
  | None => false
  end.

(** Smart seek: only the recorded offset and the playlist change. *)
Definition smart_seek (session_id : string) (info : session) (seek_time : Q)
    (segment_num : Z) (w : world) : result seek_response * world :=
  let w1 :=
    with_sessions
      (dict_set session_id (set_seek_offset seek_time info) (_transcode_sessions w)) w in
  (Ok (SmartSeek session_id ("/transcode/" +:+ session_id +:+ "/stream.m3u8")),
   _regenerate_playlist (dir info) segment_num w1).

(** Restarting seek, first part: stop the transcoder, clear the playlist,
    the segments from the target on and the subtitle files, and probe again
    if the settings ask for it. *)
Definition seek_prepare (h : host) (now : Q) (info : session) (segment_num : Z)
    (w : world) : option MediaInfo * world :=
  let w1 := (_kill_process (process info) w).2 in
  let w2 :=
    match dirs w1 !! dir info with
    | Some d => with_dirs (<[dir info := clear_for_seek segment_num d]> (dirs w1)) w1
    | None => w1
    end in
  let st := get_settings h in
  let do_probe :=
    default false
      (if is_truthy_id (series_id info) then probe_series st else probe_movies st) in
  if do_probe then
    let '(r, p) :=
      probe_media h now (url info) (series_id info) (episode_id info) "" (probe w2) in
    (r.1, with_probe p w2)
  else (None, w2).

(** Restarting seek, second part: the command line, with the source-side
    offset, the output timestamp shift and the first segment number. *)
Definition seek_command (h : host) (info : session) (media_info : option MediaInfo)
    (seek_time : Q) (segment_num : Z) : result (list arg) :=
  let st := get_settings h in
  let subtitles_ := map stream_of_sub (default [] (subtitles info)) in
  bind (build_hls_ffmpeg_cmd h (url info) (default "software" (transcode_hw st))
          (dir info) true
          (match subtitles_ with [] => None | l => Some l end)
          media_info (default "1080p" (max_resolution st)) (default "high" (quality st))
          (get_user_agent h) None)
    (λ cmd,
       bind (insert_before "-i" "-ss" (Flt seek_time) (map Lit cmd))
         (λ cmd,
            bind (insert_before "-f" "-output_ts_offset" (Flt (- seek_time)) cmd)
              (λ cmd, Ok (cmd ++ [Lit "-start_number"; Lit (str segment_num)])%list))).

(** Restarting seek, third part: spawn, update the session, persist the
    offset, wait for the playlist. *)
Definition seek_respawn (env : seek_env) (session_id : string) (info : session)
    (seek_time : Q) (segment_num : Z) (cmd : list arg) (w : world)
  : result seek_response * world :=
  let w4 := spawn (sk_pid env) cmd w in
  let p := Process (sk_pid env) in
  let '(updated, w5) := _update_seek_session session_id (url info) p seek_time w4 in
  if negb updated then
    (Raise (HTTPException 404 "Session disappeared during seek"), (_kill_process p w5).2)
  else
    let w6 :=
      _spawn_background_task (MonitorSeek (sk_pid env) session_id)
        (persist_seek_offset (dir info) seek_time w5) in
    let w7 := after_wait (sk_pid env) (sk_wait env) w6 in
    if negb (wo_ready (sk_wait env)) then
      (Raise (HTTPException 500 "Seek transcode timed out waiting for playlist"), w7)
    else (Ok (SeekDone segment_num seek_time), w7).

Definition seek_transcode (h : host) (now : Q) (env : seek_env)
    (session_id : string) (seek_time : Q) (w : world) : result seek_response * world :=
  match dict_get session_id (_transcode_sessions w) with
  | None => (Raise (HTTPException 404 "Session not found or not VOD"), w)
  | Some info =>
      if negb (is_vod info) then
        (Raise (HTTPException 404 "Session not found or not VOD"), w)
      else
        let segment_num := int_of_float (seek_time / get_hls_segment_duration) in
        if segment_materialized w (dir info) segment_num then
          smart_seek session_id info seek_time segment_num w
        else
          let '(media_info, w3) := seek_prepare h now info segment_num w in
          match seek_command h info media_info seek_time segment_num with
          | Raise e => (Raise e, w3)
          | Ok cmd => seek_respawn env session_id info seek_time segment_num cmd w3
          end
  end.

(** *** Responses and snapshots *)

Record subtitle_track := {
  track_url : string;
  track_lang : string;
  track_label : string;
  track_default : bool;
}.

Record response := {
  r_session_id : string;
  r_playlist : string;
  r_subtitles : list subtitle_track;
  r_duration : Q;
  r_seek_offset : Q;
  r_transcoded_duration : option Q;
}.

Definition _build_subtitle_tracks (session_id : string) (subs : list sub_info)
  : list subtitle_track :=
  imap (λ i s,
          {| track_url := "/subs/" +:+ session_id +:+ "/sub" +:+ str (Z.of_nat i) +:+ ".vtt";
             track_lang := si_lang s;
             track_label := si_name s;
             track_default := (i =? 0)%nat |})
       subs.

Record _SessionSnapshot := {
  snap_output_dir : string;
  snap_process : process_handle;
  snap_seek_offset : Q;
  snap_subtitles : list sub_info;
  snap_duration : Q;
}.

(** [_get_session_snapshot]: also refreshes [last_access]. *)
Definition _get_session_snapshot (now : Q) (session_id : string) (w : world)
  : option _SessionSnapshot * world :=
  match dict_get session_id (_transcode_sessions w) with
  | None => (None, w)
  | Some s =>
      (Some {| snap_output_dir := dir s;
               snap_process := process s;
               snap_seek_offset := seek_offset s;
               snap_subtitles := default [] (subtitles s);
               snap_duration := duration_ s |},
       with_sessions
         (dict_set session_id (set_last_access now s) (_transcode_sessions w)) w)
  end.

Definition _update_session_process (session_id : string) (p : process_handle) (w : world)
  : bool * world :=
  match dict_get session_id (_transcode_sessions w) with
  | None => (false, w)
  | Some s =>
      (true,
       with_sessions (dict_set session_id (set_process p s) (_transcode_sessions w)) w)
  end.

Definition segment_files (w : world) (output_dir : string) : list (string * Z) :=
  match dirs w !! output_dir with
  | Some d => sorted_glob SEG_PREFIX ".ts" d
  | None => []
  end.

Definition _build_session_response (session_id : string) (snap : _SessionSnapshot)
    (w : world) : result response :=
  bind (_calc_hls_duration (dirs w !! snap_output_dir snap)
          (length (segment_files w (snap_output_dir snap))))
    (λ transcoded,
       Ok {| r_session_id := session_id;
             r_playlist := "/transcode/" +:+ session_id +:+ "/stream.m3u8";
             r_subtitles := _build_subtitle_tracks session_id (snap_subtitles snap);
             r_duration := snap_duration snap;
             r_seek_offset := snap_seek_offset snap;
             r_transcoded_duration := Some transcoded |}).

(** *** Existing sessions *)

(** [_get_existing_session]: [(session_id, is_valid, seek_offset)]. *)
Definition _get_existing_session (h : host) (now : Q) (url_ : string) (w : world)
  : option string * bool * Q :=
  match _url_to_session w !! url_ with
  | None => (None, false, 0%Q)
  | Some existing_id =>
      if negb (truthy existing_id) then (None, false, 0%Q)
      else
        match dict_get existing_id (_transcode_sessions w) with
        | None => (None, false, 0%Q)
        | Some s => (Some existing_id, is_session_valid h w now s, seek_offset s)
        end
  end.

Record resume_env := {
  re_pid : nat;
  re_wait_active : wait_outcome;
  re_wait_segment : wait_outcome;
  re_wait_playlist : wait_outcome;
}.

(** [cmd[cmd.index("-hls_flags") + 1] += "+append_list"], or the flag added
    at the end when the command has none. *)
Fixpoint append_list_flag (cmd : list arg) : list arg :=
  match cmd with
  | [] => [Lit "-hls_flags"; Lit "append_list"]
  | a :: rest =>
      if is_lit "-hls_flags" a then
        match rest with
        | Lit v :: rest' => a :: Lit (v +:+ "+append_list") :: rest'
        | _ => cmd
        end
      else a :: append_list_flag rest
  end.

Definition process_pid (p : process_handle) : option nat :=
  match p with Process pid => Some pid | _DeadProcess => None end.

(** Resume, the command line: the plan of a fresh start without subtitles,
    seeking to where the playlist ends, appending to the playlist and
    numbering segments from the count on disk. *)
Definition resume_command (h : host) (url_ hw output_dir : string)
    (media_info : option MediaInfo) (max_resolution_ quality_ : string)
    (hls_duration : Q) (segment_count : nat) : result (list arg) :=
  bind (build_hls_ffmpeg_cmd h url_ hw output_dir true None
          media_info max_resolution_ quality_ (get_user_agent h) None)
    (λ cmd,
       bind (insert_before "-i" "-ss" (Flt hls_duration) (map Lit cmd))
         (λ cmd,
            Ok (append_list_flag cmd
                ++ [Lit "-start_number"; Lit (str (Z.of_nat segment_count))])%list)).

(** Resume, after planning: spawn, hand the process to the session, start
    its monitor, and wait for the next segment and the playlist. *)
Definition resume_respawn (env : resume_env) (existing_id url_ : string)
    (snap : _SessionSnapshot) (cmd : list arg) (w : world)
  : result (option response) * world :=
  let w2 := spawn (re_pid env) cmd w in
  let p := Process (re_pid env) in
  let '(updated, w3) := _update_session_process existing_id p w2 in
  if negb updated then (Ok None, (_kill_process p w3).2)
  else
    let w4 :=
      after_wait (re_pid env) (re_wait_segment env)
        (_spawn_background_task (MonitorResume (re_pid env) existing_id url_) w3) in
    match wo_exit (re_wait_segment env) with
    | Some _ => (Ok None, w4)
    | None =>
        let w5 := after_wait (re_pid env) (re_wait_playlist env) w4 in
        (bind (_build_session_response existing_id snap w5) (λ r, Ok (Some r)), w5)
    end.

(** Resume, case 4 of [_handle_existing_vod_session]: a dead session with
    segments and no seek offset gets a new transcoder appended to them. *)
Definition resume_append (h : host) (now : Q) (env : resume_env)
    (existing_id url_ hw : string) (do_probe : bool) (max_resolution_ quality_ : string)
    (snap : _SessionSnapshot) (segment_count : nat) (w : world)
  : result (option response) * world :=
  match _calc_hls_duration (dirs w !! snap_output_dir snap) segment_count with
  | Raise e => (Raise e, w)
  | Ok hls_duration =>
      let '(media_info, w1) :=
        if do_probe then
          let '(r, p) := probe_media h now url_ None None "" (probe w) in
          (r.1, with_probe p w)
        else (None, w) in
      match resume_command h url_ hw (snap_output_dir snap) media_info
              max_resolution_ quality_ hls_duration segment_count with
      | Raise e => (Raise e, w1)
      | Ok cmd => resume_respawn env existing_id url_ snap cmd w1
      end
  end.

(** [_handle_existing_vod_session]: reuse an active session, replay a cached
    one, or restart the transcoder appended to the existing segments.
    [None] asks the caller for a fresh start. *)
Definition _handle_existing_vod_session (h : host) (now : Q) (env : resume_env)
    (existing_id url_ hw : string) (do_probe : bool) (max_resolution_ quality_ : string)
    (w : world) : result (option response) * world :=
  match _get_session_snapshot now existing_id w with
  | (None, w0) => (Ok None, w0)
  | (Some snap, w0) =>
      let segments := segment_files w0 (snap_output_dir snap) in
      if returncode_is_None w0 (snap_process snap) then
        (* Case 1: active session *)
        let w1 :=
          match process_pid (snap_process snap) with
          | Some pid => after_wait pid (re_wait_active env) w0
          | None => w0
          end in
        (bind (_build_session_response existing_id snap w1) (λ r, Ok (Some r)), w1)
      else
        match segments with
        | [] =>
            (* Case 2: dead session with no segments *)
            let w1 := stop_session h now existing_id true w0 in
            (Ok None, with_index (delete url_ (_url_to_session w1)) w1)
        | _ =>
            if Qlt_bool 0 (snap_seek_offset snap) then
              (* Case 3: dead session with a seek offset: cached content *)
              (bind (_build_session_response existing_id snap w0) (λ r, Ok (Some r)), w0)
            else
              (* Case 4: dead session, no seek offset: append *)
              resume_append h now env existing_id url_ hw do_probe
                max_resolution_ quality_ snap (length segments) w0
        end
  end.

Definition probe_setting_for (content_type : string) (with_live : bool) (st : Settings)
  : bool :=
  if String.eqb content_type "movie" then default false (probe_movies st)
  else if String.eqb content_type "series" then default false (probe_series st)
  else if with_live && String.eqb content_type "live" then default false (probe_live st)
  else false.

Definition _try_reuse_session (h : host) (now : Q) (env : resume_env)
    (existing_id url_ : string) (is_vod_ : bool) (content_type : string) (w : world)
  : result (option response) * world :=
  if is_vod_ then
    let st := get_settings h in
    _handle_existing_vod_session h now env existing_id url_
      (default "software" (transcode_hw st))
      (probe_setting_for content_type false st)
      (default "1080p" (max_resolution st))
      (default "high" (quality st)) w
  else
    match _get_session_snapshot now existing_id w with
    | (None, w0) => (Ok None, w0)
    | (Some snap, w0) =>
        (bind (_build_session_response existing_id snap w0) (λ r, Ok (Some r)), w0)
    end.

Definition _cleanup_invalid_session (h : host) (now : Q) (url_ session_id : string)
    (w : world) : world :=
  stop_session h now session_id true (with_index (delete url_ (_url_to_session w)) w).


(** *** Fresh start *)

(** What the outside decides during one [_do_start_transcode]: the uuid, the
    directory [mkdtemp] creates, the process handle, the three readings of
    the clock that stamp the session and its descriptor, how the wait for
    the playlist ends, and how long it all took until the failure is
    handled. The readings and the elapsed time are in seconds after the
    call: [time.time()] is read once for the session's ["started"], once
    for its ["last_access"], and once more for the descriptor's
    ["started"]. *)
Record start_env := {
  se_session_id : string;
  se_output_dir : string;
  se_pid : nat;
  se_clock_started : Q;
  se_clock_last_access : Q;
  se_clock_descriptor : Q;
  se_wait : wait_outcome;
  se_elapsed : Q;
}.

Definition empty_dir (mtime : Q) : dir_state :=
  {| d_mtime := mtime; d_files := ∅; d_playlist := None; d_session_json := None |}.

Definition probe_info_of (mi : MediaInfo) : probe_info :=
  {| pi_video_codec := video_codec mi;
     pi_audio_codec := audio_codec mi;
     pi_pix_fmt := pix_fmt mi;
     pi_audio_channels := audio_channels mi;
     pi_audio_sample_rate := audio_sample_rate mi;
     pi_subtitle_codecs := subtitle_codecs mi;
     pi_height := height mi;
     pi_video_bitrate := video_bitrate mi;
     pi_interlaced := interlaced mi |}.

Definition write_session_json (output_dir : string) (info : session_info) (w : world)
  : world :=
  match dirs w !! output_dir with
  | Some d =>
      with_dirs (<[output_dir := set_session_json (Some (Some info)) d]> (dirs w)) w
  | None => w
  end.

Definition is_vod_content (content_type : string) : bool :=
  str_in content_type ["movie"; "series"].

(** Fresh start, first part: create the output directory and probe the
    source if the settings ask for it. *)
Definition start_prepare (h : host) (now : Q) (env : start_env)
    (url_ content_type : string) (series_id_ episode_id_ : option Z) (series_name : string)
    (w : world) : option MediaInfo * list SubtitleStream * world :=
  let w0 := with_dirs (<[se_output_dir env := empty_dir now]> (dirs w)) w in
  if probe_setting_for content_type true (get_settings h) then
    let '(r, p) := probe_media h now url_ series_id_ episode_id_ series_name (probe w0) in
    (r.1, r.2, with_probe p w0)
  else (None, [], w0).

(** Fresh start, second part: the command line, with a source-side offset
    when a previous session for the URL had one. *)
Definition start_command (h : host) (env : start_env) (url_ content_type : string)
    (media_info : option MediaInfo) (subtitles_ : list SubtitleStream)
    (old_seek_offset : Q) (deinterlace_fallback : bool) : result (list arg) :=
  let st := get_settings h in
  bind (build_hls_ffmpeg_cmd h url_ (default "software" (transcode_hw st))
          (se_output_dir env) (is_vod_content content_type) (Some subtitles_) media_info
          (default "1080p" (max_resolution st)) (default "high" (quality st))
          (get_user_agent h) (Some deinterlace_fallback))
    (λ cmd,
       if Qlt_bool 0 old_seek_offset
       then insert_before "-i" "-ss" (Flt old_seek_offset) (map Lit cmd)
       else Ok (map Lit cmd)).

Definition total_duration_of (media_info : option MediaInfo) : Q :=
  match media_info with Some mi => duration mi | None => 0%Q end.

(** Fresh start, third part: spawn, register the session under the lock, and
    write the descriptor of an on-demand session. The session's ["started"]
    and ["last_access"] and the descriptor's ["started"] are three separate
    readings of the clock. *)
Definition start_register (now : Q) (env : start_env) (url_ content_type : string)
    (series_id_ episode_id_ : option Z) (old_seek_offset : Q)
    (username_ source_id_ : string) (media_info : option MediaInfo)
    (subtitles_ : list SubtitleStream) (cmd : list arg) (w : world) : world :=
  let session_id := se_session_id env in
  let output_dir := se_output_dir env in
  let is_vod_ := is_vod_content content_type in
  let w2 :=
    _spawn_background_task (MonitorStderr (se_pid env) session_id)
      (spawn (se_pid env) cmd w) in
  let sub_info_ := map sub_of_stream subtitles_ in
  let total_duration := total_duration_of media_info in
  let new_session :=
    {| dir := output_dir;
       process := Process (se_pid env);
       started := (now + se_clock_started env)%Q;
       url := url_;
       is_vod := is_vod_;
       last_access := (now + se_clock_last_access env)%Q;
       subtitles := Some sub_info_;
       duration_ := total_duration;
       seek_offset := old_seek_offset;
       series_id := series_id_;
       episode_id := episode_id_;
       username := username_;
       source_id := source_id_ |} in
  let w3 :=
    with_index (<[url_ := session_id]> (_url_to_session w2))
      (with_sessions (dict_set session_id new_session (_transcode_sessions w2)) w2) in
  if is_vod_ then
    write_session_json output_dir
      {| info_session_id := session_id;
         info_url := url_;
         info_is_vod := true;
         info_started := Some (now + se_clock_descriptor env)%Q;
         info_subtitles := sub_info_;
         info_duration := total_duration;
         info_seek_offset := old_seek_offset;
         info_series_id := series_id_;
         info_episode_id := episode_id_;
         info_username := username_;
         info_source_id := source_id_;
         info_probe := probe_info_of <$> media_info |} w3
  else w3.

(** Fresh start, last part: wait for two segments; on failure stop the
    session (not forced) and raise. *)
Definition start_await (h : host) (now : Q) (env : start_env)
    (old_seek_offset : Q) (media_info : option MediaInfo)
    (subtitles_ : list SubtitleStream) (w : world) : result response * world :=
  let session_id := se_session_id env in
  let w5 := after_wait (se_pid env) (se_wait env) w in
  if negb (wo_ready (se_wait env)) then
    (Raise (HTTPException 500 "Transcode failed - check server logs for details"),
     stop_session h (now + se_elapsed env) session_id false w5)
  else
    (Ok {| r_session_id := session_id;
           r_playlist := "/transcode/" +:+ session_id +:+ "/stream.m3u8";
           r_subtitles := _build_subtitle_tracks session_id (map sub_of_stream subtitles_);
           r_duration := total_duration_of media_info;
           r_seek_offset := old_seek_offset;
           r_transcoded_duration := None |},
     w5).

(** [_do_start_transcode]: the core of a fresh start. *)
Definition _do_start_transcode (h : host) (now : Q) (env : start_env)
    (url_ content_type : string) (series_id_ episode_id_ : option Z)
    (old_seek_offset : Q) (series_name : string) (deinterlace_fallback : bool)
    (username_ source_id_ : string) (w : world) : result response * world :=
  let '(media_info, subtitles_, w1) :=
    start_prepare h now env url_ content_type series_id_ episode_id_ series_name w in
  match start_command h env url_ content_type media_info subtitles_ old_seek_offset
          deinterlace_fallback with
  | Raise e => (Raise e, w1)
  | Ok cmd =>
      start_await h now env old_seek_offset media_info subtitles_
        (start_register now env url_ content_type series_id_ episode_id_ old_seek_offset
           username_ source_id_ media_info subtitles_ cmd w1)
  end.

(** What the outside decides during one [start_transcode]. *)
Record transcode_env := {
  te_resume : resume_env;
  te_first : start_env;
  te_retry : start_env;
}.

(** How a [start_transcode] call went, next to what it returned. *)
Record start_outcome := {
  so_result : result response;
  so_attempts : nat;
  so_world : world;
}.

(** The last block of [start_transcode]: a fresh start, tried again once
    after clearing the episode's probe cache when a series id was given and
    the first try raised [HTTPException]. [so_attempts] counts the calls of
    [_do_start_transcode]. *)
Definition start_fresh (h : host) (now : Q) (env : transcode_env)
    (url_ content_type : string) (series_id_ episode_id_ : option Z)
    (old_seek_offset : Q) (series_name : string) (deinterlace_fallback : bool)
    (username_ source_id_ : string) (w : world) : start_outcome :=
  let attempt e t :=
    _do_start_transcode h t e url_ content_type series_id_ episode_id_
      old_seek_offset series_name deinterlace_fallback username_ source_id_ in
  match attempt (te_first env) now w with
  | (Raise (HTTPException c d), w3) =>
      match series_id_ with
      | None =>
          {| so_result := Raise (HTTPException c d); so_attempts := 1; so_world := w3 |}
      | Some sid =>
          let w4 :=
            with_probe (invalidate_series_probe_cache sid episode_id_ (probe w3)) w3 in
          let '(r, w5) :=
            attempt (te_retry env) (now + se_elapsed (te_first env))%Q w4 in
          {| so_result := r; so_attempts := 2; so_world := w5 |}
      end
  | (r, w3) => {| so_result := r; so_attempts := 1; so_world := w3 |}
  end.

(** The reuse block of [start_transcode]: try the session the URL index
    names, if it is still valid. *)
Definition start_reuse (h : host) (now : Q) (env : transcode_env)
    (url_ content_type : string) (existing_id : option string) (is_valid : bool)
    (w : world) : result (option response) * world :=
  match existing_id with
  | Some eid =>
      if is_valid
      then _try_reuse_session h now (te_resume env) eid url_
             (is_vod_content content_type) content_type w
      else (Ok None, w)
  | None => (Ok None, w)
  end.

(** [start_transcode]: admission, reuse of an existing session, else a fresh
    start. *)
Definition start_transcode (h : host) (now : Q) (env : transcode_env)
    (url_ content_type : string) (series_id_ episode_id_ : option Z)
    (series_name : string) (deinterlace_fallback : bool) (username_ source_id_ : string)
    (user_max_streams source_max_streams : Z) (w : world) : start_outcome :=
  let admission :=
    if truthy username_ then
      enforce_stream_limits h now username_ (Some source_id_)
        user_max_streams source_max_streams w
    else {| lo_error := None; lo_source_stopped := None; lo_user_stopped := None;
            lo_world := w |} in
  match lo_error admission with
  | Some error =>
      {| so_result := Raise (HTTPException 429 error); so_attempts := 0;
         so_world := lo_world admission |}
  | None =>
      let w0 := lo_world admission in
      let '(existing_id, is_valid, old_seek_offset) := _get_existing_session h now url_ w0 in
      match start_reuse h now env url_ content_type existing_id is_valid w0 with
      | (Raise e, w1) => {| so_result := Raise e; so_attempts := 0; so_world := w1 |}
      | (Ok (Some r), w1) => {| so_result := Ok r; so_attempts := 0; so_world := w1 |}
      | (Ok None, w1) =>
          let w2 :=
            match existing_id with
            | Some eid => _cleanup_invalid_session h now url_ eid w1
            | None => w1
            end in
          start_fresh h now env url_ content_type series_id_ episode_id_
            old_seek_offset series_name deinterlace_fallback username_ source_id_ w2
      end
  end.

(** *** Shutdown *)

(** [shutdown]: every session's process is killed, in table order, and the
    table is cleared. *)
Definition shutdown (w : world) : world :=
  with_sessions []
    (foldl (λ w kv, (_kill_process (process kv.2) w).2) w (_transcode_sessions w)).

(** *** Session query / update *)

(** [get_session]: a copy of the session dict. *)
Definition get_session (session_id : string) (w : world) : option session :=
  dict_get session_id (_transcode_sessions w).

(** [touch_session]: the heartbeat. *)
Definition touch_session (now : Q) (session_id : string) (w : world) : bool * world :=
  match dict_get session_id (_transcode_sessions w) with
  | Some s =>
      (true,
       with_sessions
         (dict_set session_id (set_last_access now s) (_transcode_sessions w)) w)
  | None => (false, w)
  end.

(** [{"segment_count": ..., "duration": ...}] *)
Record progress := {
  segment_count : nat;
  progress_duration : Q;
}.

(** [sum(float(d) for d in durations)]; a string [float] rejects raises
    [ValueError]. *)
Definition sum_floats (durations : list string) : result Q :=
  foldl (λ acc s,
           bind acc (λ total,
             match float_of_string s with
             | Some x => Ok (total + x)%Q
             | None => Raise (ValueError ("could not convert string to float: " +:+ s))
             end))
        (Ok 0%Q) durations.

(** [get_session_progress]: a heartbeat, then the segments the playlist
    lists and their total duration. *)
Definition get_session_progress (now : Q) (session_id : string) (w : world)
  : result (option progress) * world :=
  let w1 := (touch_session now session_id w).2 in
  match get_session session_id w1 with
  | None => (Ok None, w1)
  | Some s =>
      match dirs w1 !! dir s ≫= d_playlist with
      | None => (Ok (Some {| segment_count := 0; progress_duration := 0 |}), w1)
      | Some lines =>
          let durations := concat (map findall_extinf lines) in
          (bind (sum_floats durations)
             (λ total,
                Ok (Some {| segment_count := length durations;
                            progress_duration := total |})),
           w1)
      end
  end.

(** [clear_url_session]: [_url_to_session.pop(url, None)]. *)
Definition clear_url_session (url_ : string) (w : world) : option string * world :=
  (_url_to_session w !! url_, with_index (delete url_ (_url_to_session w)) w).

End ffmpeg_session.

Import ffmpeg_command ffmpeg_session.

(** ** Example data *)

Definition default_settings : Settings :=
  {| transcode_hw := None; max_resolution := None; quality := None;
     probe_movies := None; probe_series := None; probe_live := None;
     vod_transcode_cache_mins := None; live_transcode_cache_secs := None;
     live_dvr_mins := None; user_agent_preset := None; user_agent_custom := None |}.

(** A host without any detected GPU, on default settings, where the
    inspector fails on every URL. *)
Definition plain_host : host :=
  {| VAAPI_DEVICE := None; gpu_nvdec_codecs := []; has_libplacebo := false;
     settings := default_settings; ffprobe := λ _ _, None |}.

Definition with_hw (hw : string) (st : Settings) : Settings :=
  {| transcode_hw := Some hw; max_resolution := max_resolution st; quality := quality st;
     probe_movies := probe_movies st; probe_series := probe_series st;
     probe_live := probe_live st;
     vod_transcode_cache_mins := vod_transcode_cache_mins st;
     live_transcode_cache_secs := live_transcode_cache_secs st;
     live_dvr_mins := live_dvr_mins st; user_agent_preset := user_agent_preset st;
     user_agent_custom := user_agent_custom st |}.

(** An H.264 4:2:0 stream at 720 lines with stereo AAC: nothing to convert. *)
Definition h264_720p : MediaInfo :=
  {| video_codec := "h264"; audio_codec := "aac"; pix_fmt := "yuv420p";
     audio_channels := 2; audio_sample_rate := 48000; audio_profile := "LC";
     subtitle_codecs := None; duration := 5400; height := 720; video_bitrate := 0;
     interlaced := false; is_10bit := false; is_hdr := false; is_hls := false |}.

Definition hevc_1080p : MediaInfo :=
  {| video_codec := "hevc"; audio_codec := "aac"; pix_fmt := "yuv420p10le";
     audio_channels := 2; audio_sample_rate := 48000; audio_profile := "LC";
     subtitle_codecs := None; duration := 5400; height := 1080; video_bitrate := 0;
     interlaced := false; is_10bit := true; is_hdr := false; is_hls := false |}.

Definition example_session (dir_ url_ user : string) (t : Q) : session :=
  {| dir := dir_; process := Process 1; started := t; url := url_; is_vod := false;
     last_access := t; subtitles := Some []; duration_ := 0; seek_offset := 0;
     series_id := None; episode_id := None; username := user; source_id := "" |}.

Definition one_session_world : world :=
  {| _transcode_sessions := [("s1", example_session "/tmp/netv_transcode_s1" "http://live/1" "alice" 100)];
     _url_to_session := {["http://live/1" := "s1"]};
     _background_tasks := [];
     dirs := {["/tmp/netv_transcode_s1" := empty_dir 100]};
     procs := {[1%nat := Running]};
     spawned := []; signalled := []; probe := empty_probe_state |}.

(** A video stream that reports no usable height. *)
Definition broken_video_stream : ff_stream :=
  {| st_codec_name := "h264"; st_codec_type := "video"; st_pix_fmt := "yuv420p";
     st_height := Some 0; st_field_order := "progressive"; st_color_transfer := "";
     st_bit_rate := Absent; st_channels := 0; st_sample_rate := 0; st_profile := "";
     st_index := Some 0; st_tag_language := None; st_tag_name := None;
     st_tag_title := None |}.

Definition broken_probe : ff_data :=
  {| ff_streams := [broken_video_stream];
     ff_format_ := {| fmt_format_name := "matroska,webm"; fmt_duration := Absent;
                      fmt_bit_rate := Absent |} |}.

Definition broken_probe_host : host :=
  {| VAAPI_DEVICE := None; gpu_nvdec_codecs := []; has_libplacebo := false;
     settings := default_settings; ffprobe := λ _ _, Some broken_probe |}.

(** A source with a single audio stream and no video. *)
Definition audio_stream : ff_stream :=
  {| st_codec_name := "aac"; st_codec_type := "audio"; st_pix_fmt := "";
     st_height := None; st_field_order := ""; st_color_transfer := "";
     st_bit_rate := Absent; st_channels := 2; st_sample_rate := 48000; st_profile := "LC";
     st_index := Some 0; st_tag_language := None; st_tag_name := None;
     st_tag_title := None |}.

Definition audio_only_probe : ff_data :=
  {| ff_streams := [audio_stream];
     ff_format_ := {| fmt_format_name := "mov,mp4,m4a"; fmt_duration := Absent;
                      fmt_bit_rate := Absent |} |}.

Definition audio_only_host : host :=
  {| VAAPI_DEVICE := None; gpu_nvdec_codecs := []; has_libplacebo := false;
     settings := default_settings; ffprobe := λ _ _, Some audio_only_probe |}.

(** ** Vocabulary of the statements *)

(** The selected hardware policy needs a VAAPI device: its encoder or its
    fallback is ['vaapi']. *)
Definition requires_vaapi (hw : string) : Prop :=
  (_parse_hw hw).1 = "vaapi" ∨ (_parse_hw hw).2 = "vaapi".

(** No VAAPI device was detected on the host. *)
Definition no_vaapi_device (h : host) : Prop := truthy_opt (VAAPI_DEVICE h) = false.

(** A call of [probe_media] gets as far as running the inspector: neither
    the series cache nor the URL cache answers it. *)
Definition probe_cache_miss (now : Q) (url_ : string) (series_id_ episode_id_ : option Z)
    (p : probe_state) : Prop :=
  (series_cache_lookup now series_id_ episode_id_ p).1 = None
  ∧ url_cache_lookup now url_ p = None.

(** Session ids are the keys of a dict: no id occurs twice in the table. *)
Definition unique_ids (w : world) : Prop := NoDup (_transcode_sessions w).*1.

(** Reading an unsigned decimal numeral, leading zeros allowed. *)
Definition parse_u (s : string) : option Z := Z.of_uint <$> NilEmpty.uint_of_string s.

(** ** More example data *)

Definition movie_url : string := "http://vod/movie.mp4".
Definition movie_dir : string := "/tmp/netv_transcode_v1_k3".

Definition movie_descriptor (sid : string) (seek : Q) : session_info :=
  {| info_session_id := sid; info_url := movie_url; info_is_vod := true;
     info_started := Some 100%Q; info_subtitles := []; info_duration := 5400;
     info_seek_offset := seek; info_series_id := None; info_episode_id := None;
     info_username := "alice"; info_source_id := "src1"; info_probe := None |}.

(** A directory holding four full segments, a playlist and a descriptor. *)
Definition movie_dir_state (sid : string) (mtime seek : Q) : dir_state :=
  {| d_mtime := mtime;
     d_files := list_to_map [("seg000.ts", 200000); ("seg001.ts", 200000);
                             ("seg002.ts", 200000); ("seg003.ts", 200000)];
     d_playlist := Some (playlist_lines 0 [(0, "seg000.ts"); (1, "seg001.ts");
                                           (2, "seg002.ts"); (3, "seg003.ts")]);
     d_session_json := Some (Some (movie_descriptor sid seek)) |}.

Definition movie_session : session :=
  {| dir := movie_dir; process := Process 1; started := 100; url := movie_url;
     is_vod := true; last_access := 100; subtitles := Some []; duration_ := 5400;
     seek_offset := 0; series_id := None; episode_id := None; username := "alice";
     source_id := "src1" |}.

(** One on-demand session whose transcoder is running. *)
Definition movie_world : world :=
  {| _transcode_sessions := [("v1", movie_session)];
     _url_to_session := {[movie_url := "v1"]};
     _background_tasks := [];
     dirs := {[movie_dir := movie_dir_state "v1" 100 0]};
     procs := {[1%nat := Running]};
     spawned := []; signalled := []; probe := empty_probe_state |}.

(** Two leftover directories of the same movie, neither with a seek offset;
    the second was modified more recently. *)
Definition two_leftovers : world :=
  {| _transcode_sessions := []; _url_to_session := ∅; _background_tasks := [];
     dirs := {[ "/tmp/netv_transcode_a" := movie_dir_state "a" 100 0;
                "/tmp/netv_transcode_b" := movie_dir_state "b" 200 0 ]};
     procs := ∅; spawned := []; signalled := []; probe := empty_probe_state |}.

(** A live start whose transcoder exits at once. *)
Definition failing_start : start_env :=
  {| se_session_id := "s1"; se_output_dir := "/tmp/netv_transcode_s1_x9";
     se_pid := 1;
     se_clock_started := 0; se_clock_last_access := 0; se_clock_descriptor := 0;
     se_wait := {| wo_ready := false; wo_exit := Some 1 |};
     se_elapsed := 12 # 10 |}.

Definition failing_retry : start_env :=
  {| se_session_id := "s2"; se_output_dir := "/tmp/netv_transcode_s2_p4";
     se_pid := 2;
     se_clock_started := 0; se_clock_last_access := 0; se_clock_descriptor := 0;
     se_wait := {| wo_ready := false; wo_exit := Some 1 |};
     se_elapsed := 12 # 10 |}.

Definition idle_resume : resume_env :=
  {| re_pid := 9; re_wait_active := {| wo_ready := true; wo_exit := None |};
     re_wait_segment := {| wo_ready := true; wo_exit := None |};
     re_wait_playlist := {| wo_ready := true; wo_exit := None |} |}.

Definition failing_transcode : transcode_env :=
  {| te_resume := idle_resume; te_first := failing_start; te_retry := failing_retry |}.

Definition ready_seek : seek_env :=
  {| sk_pid := 2; sk_wait := {| wo_ready := true; wo_exit := None |} |}.

(** [sid] is the oldest session of [table] that satisfies [P]: every
    qualifying session inserted before it started strictly later, and every
    qualifying session inserted after it started no earlier. *)
Definition oldest_qualifying (P : string * session → Prop)
    (table : list (string * session)) (sid : string) : Prop :=
  ∃ earlier s later,
    table = earlier ++ (sid, s) :: later
    ∧ P (sid, s)
    ∧ (∀ kv, kv ∈ earlier → P kv → (started s < started kv.2)%Q)
    ∧ (∀ kv, kv ∈ later → P kv → (started s <= started kv.2)%Q).

Definition by_user (user : string) (kv : string * session) : Prop :=
  username kv.2 = user.

Definition by_user_on_source (user src : string) (kv : string * session) : Prop :=
  username kv.2 = user ∧ source_id kv.2 = src.

(** Ascending start times, each element against all later ones. *)
Definition started_le (x y : string * session) : Prop :=
  (started x.2 <= started y.2)%Q.

Definition alice_session (t : Q) : session :=
  example_session "/tmp/netv_transcode_x" "http://live/1" "alice" t.

Definition two_alice_sessions : world :=
  {| _transcode_sessions := [("s2", alice_session 2); ("s1", alice_session 1)];
     _url_to_session := ∅; _background_tasks := []; dirs := ∅; procs := ∅;
     spawned := []; signalled := []; probe := empty_probe_state |}.

(** The table with the stopped session, if any, removed. *)
Definition without_stopped (stopped : option string) (table : list (string * session))
  : list (string * session) :=
  match stopped with
  | Some sid => dict_pop sid table
  | None => table
  end.

(** The specified registry invariant: every URL index entry names a session
    that is in the table. *)
Definition index_sound (w : world) : Prop :=
  ∀ u sid, _url_to_session w !! u = Some sid →
    is_Some (dict_get sid (_transcode_sessions w)).

(** What the code maintains about the index: an entry is filed under the
    (non-empty) URL of the session it names. *)
Definition tight (table : list (string * session)) (index : gmap string string) : Prop :=
  ∀ u sid, index !! u = Some sid →
    truthy u = true ∧ ∃ s, dict_get sid table = Some s ∧ url s = u.

(** A monitor task started for [(sid, u)] watches a session filed under
    [u], if the session is still there. *)
Definition filed_under (sid u : string) (table : list (string * session)) : Prop :=
  ∀ s, dict_get sid table = Some s → url s = u.

Definition monitors_ok (table : list (string * session)) (tasks : list task) : Prop :=
  ∀ pid sid u, MonitorResume pid sid u ∈ tasks → filed_under sid u table.

(** The inductive invariant: the table is a dict (no key twice), the index
    is tight, and every pending resume monitor carries the URL of the
    session it watches. *)
Definition registry_ok (w : world) : Prop :=
  NoDup (_transcode_sessions w).*1
  ∧ tight (_transcode_sessions w) (_url_to_session w)
  ∧ monitors_ok (_transcode_sessions w) (_background_tasks w).

(** No session is registered under [sid], and no pending resume monitor was
    started for it. *)
Definition unused_id (sid : string) (w : world) : Prop :=
  dict_get sid (_transcode_sessions w) = None
  ∧ ∀ pid u, MonitorResume pid sid u ∉ _background_tasks w.

(** A step of the registry that keeps the invariant and registers no new
    id. *)
Definition evolves (w w' : world) : Prop :=
  (registry_ok w → registry_ok w') ∧ (∀ sid, unused_id sid w → unused_id sid w').

(** A step that registers at most the session [sid]. *)
Definition registers (sid : string) (w w' : world) : Prop :=
  (registry_ok w → registry_ok w')
  ∧ (∀ sid', sid' ≠ sid → unused_id sid' w → unused_id sid' w').

(** The mutating operations of the registry, with what the caller and the
    outside world supply to each. [OpTaskDone] is the end of a background
    task, among them the resume monitor with its clean-up. *)
Inductive op :=
| OpStart (now : Q) (env : transcode_env) (url_ content_type : string)
    (series_id_ episode_id_ : option Z) (series_name : string)
    (deinterlace_fallback : bool) (username_ source_id_ : string)
    (user_max_streams source_max_streams : Z)
| OpStop (now : Q) (session_id : string) (force : bool)
| OpSeek (now : Q) (env : seek_env) (session_id : string) (seek_time : Q)
| OpTaskDone (i : nat) (returncode : Z) (elapsed : Q)
| OpAdmit (now : Q) (username_ : string) (source_id_ : option string)
    (user_max source_max : Z)
| OpRecover (now : Q) (candidates : list string)
| OpCleanupExpired (now : Q).

Definition run_op (h : host) (o : op) (w : world) : world :=
  match o with
  | OpStart now env url_ content_type series_id_ episode_id_ series_name
      deinterlace_fallback username_ source_id_ user_max_streams source_max_streams =>
      so_world (start_transcode h now env url_ content_type series_id_ episode_id_
                  series_name deinterlace_fallback username_ source_id_
                  user_max_streams source_max_streams w)
  | OpStop now session_id force => stop_session h now session_id force w
  | OpSeek now env session_id seek_time =>
      (seek_transcode h now env session_id seek_time w).2
  | OpTaskDone i returncode elapsed => task_done i returncode elapsed w
  | OpAdmit now username_ source_id_ user_max source_max =>
      lo_world (enforce_stream_limits h now username_ source_id_ user_max source_max w)
  | OpRecover now candidates => cleanup_and_recover_sessions h now candidates w
  | OpCleanupExpired now => cleanup_expired_sessions h now w
  end.

(** Every descriptor the sweep comes across names a session id that is not
    registered at that point: descriptors carry distinct ids. *)
Fixpoint distinct_descriptors (h : host) (now : Q) (candidates : list string) (w : world)
  : Prop :=
  match candidates with
  | [] => True
  | path :: rest =>
      (∀ d info, dirs w !! path = Some d → d_session_json d = Some (Some info) →
         unused_id (info_session_id info) w)
      ∧ distinct_descriptors h now rest (recover_dir h now w path)
  end.

(** What the environment guarantees to an operation: source URLs are not
    empty, generated session ids are new, and recovered descriptors carry
    distinct ids. *)
Definition op_ok (h : host) (o : op) (w : world) : Prop :=
  match o with
  | OpStart _ env url_ _ _ _ _ _ _ _ _ _ =>
      truthy url_ = true
      ∧ unused_id (se_session_id (te_first env)) w
      ∧ unused_id (se_session_id (te_retry env)) w
      ∧ se_session_id (te_first env) ≠ se_session_id (te_retry env)
  | OpRecover now candidates => distinct_descriptors h now candidates w
  | OpStop _ _ _ | OpSeek _ _ _ _ | OpTaskDone _ _ _ | OpAdmit _ _ _ _ _
  | OpCleanupExpired _ => True
  end.

(** The worlds the registry can be in: the empty one at process start, and
    whatever an operation makes of a reachable world. *)
Inductive reachable (h : host) : world → Prop :=
| reach_empty : reachable h empty_world
| reach_step (w : world) (o : op) :
    reachable h w → op_ok h o w → reachable h (run_op h o w).

(** A start with an empty URL, then the forced stop of that session. *)
Definition empty_url_start : op :=
  OpStart 1000 failing_transcode "" "live" None None "" true "alice" "" 0 0.

(** The encoder names [_build_video_args] has a branch for. *)
Definition known_encoder (enc : string) : bool :=
  str_in enc ["nvenc"; "amf"; "vaapi"; "qsv"; "software"].

(** A progressive H.264 video stream at 720 lines. *)
Definition good_video_stream : ff_stream :=
  {| st_codec_name := "H264"; st_codec_type := "video"; st_pix_fmt := "yuv420p";
     st_height := Some 720; st_field_order := "progressive"; st_color_transfer := "";
     st_bit_rate := Absent; st_channels := 0; st_sample_rate := 0; st_profile := "";
     st_index := Some 0; st_tag_language := None; st_tag_name := None;
     st_tag_title := None |}.

Definition good_probe : ff_data :=
  {| ff_streams := [good_video_stream];
     ff_format_ := {| fmt_format_name := "matroska,webm"; fmt_duration := Absent;
                      fmt_bit_rate := Absent |} |}.

(** A host whose inspector succeeds on every URL. *)
Definition good_probe_host : host :=
  {| VAAPI_DEVICE := None; gpu_nvdec_codecs := []; has_libplacebo := false;
     settings := default_settings; ffprobe := λ _ _, Some good_probe |}.


(** An on-demand start that becomes ready: the session is stamped one
    second after the call, its descriptor two seconds after it. *)
Definition movie_start : start_env :=
  {| se_session_id := "m1"; se_output_dir := "/tmp/netv_transcode_m1_q7";
     se_pid := 3;
     se_clock_started := 1; se_clock_last_access := 1; se_clock_descriptor := 2;
     se_wait := {| wo_ready := true; wo_exit := None |};
     se_elapsed := 3 |}.

Definition english_subtitle : SubtitleStream :=
  {| sub_index := 2; sub_lang := "eng"; sub_name := "English" |}.

(** The output directory of [movie_start] as a later run finds it: one
    segment next to the descriptor of a start called at time 100 (and
    stamped at 102) for alice on source ["src1"], with one subtitle track
    and no probe. *)
Definition movie_leftover : world :=
  {| _transcode_sessions := []; _url_to_session := ∅; _background_tasks := [];
     dirs :=
       {[ "/tmp/netv_transcode_m1_q7" :=
            {| d_mtime := 160;
               d_files := {[ "seg000.ts" := 200000 ]};
               d_playlist := None;
               d_session_json :=
                 Some (Some {| info_session_id := "m1"; info_url := movie_url;
                               info_is_vod := true; info_started := Some (100 + 2)%Q;
                               info_subtitles :=
                                 [{| si_index := 2; si_lang := "eng"; si_name := "English" |}];
                               info_duration := 0; info_seek_offset := 0;
                               info_series_id := None; info_episode_id := None;
                               info_username := "alice"; info_source_id := "src1";
                               info_probe := None |}) |} ]};
     procs := ∅; spawned := []; signalled := []; probe := empty_probe_state |}.

(** What the recovery sweep keeps: a directory whose descriptor parses and
    names on-demand content with a URL, that holds at least one segment, and
    whose age is within the on-demand cache timeout. *)
Definition recoverable (h : host) (now : Q) (d : dir_state) : bool :=
  match d_session_json d with
  | Some (Some info) =>
      negb (Qlt_bool (inject_Z (get_vod_cache_timeout h)) (now - d_mtime d))
      && negb (bool_decide (sorted_glob SEG_PREFIX ".ts" d = []))
      && (info_is_vod info && truthy (info_url info))
  | _ => false
  end.

(** ** Facts about the builtins *)

Lemma Qlt_bool_iff (a b : Q) : Qlt_bool a b = true ↔ (a < b)%Q.
Proof.
  unfold Qlt_bool. rewrite negb_true_iff.
  split.
  - intros H. apply Qnot_le_lt. intros Hle.
    apply Qle_bool_iff in Hle. congruence.
  - intros H. destruct (Qle_bool b a) eqn:E; [|reflexivity].
    apply Qle_bool_iff in E. exfalso. apply (Qlt_not_le _ _ H E).
Qed.

Lemma Qlt_bool_false_iff (a b : Q) : Qlt_bool a b = false ↔ (b <= a)%Q.
Proof.
  unfold Qlt_bool. rewrite negb_false_iff. apply Qle_bool_iff.
Qed.

(** ** Non-forced stop of a recently used session *)

(** C10. A non-forced [stop_session] on a registered session whose
    [last_access] is less than five seconds old changes nothing: the session
    table, the URL index, the processes, the signal log and the directory
    tree are all as before. *)
Theorem stop_session_recent_is_noop (h : host) (now : Q) (session_id : string)
    (s : session) (w : world) :
  dict_get session_id (_transcode_sessions w) = Some s →
  (now - last_access s < 5)%Q →
  stop_session h now session_id false w = w.
Proof.
  intros Hget Hrecent. unfold stop_session. rewrite Hget.
  apply Qlt_bool_iff in Hrecent. rewrite Hrecent. reflexivity.
Qed.

Lemma stop_session_recent_is_noop_witness :
  dict_get "s1" (_transcode_sessions one_session_world)
    = Some (example_session "/tmp/netv_transcode_s1" "http://live/1" "alice" 100)
  ∧ (103 - 100 < 5)%Q
  ∧ stop_session plain_host 103 "s1" false one_session_world = one_session_world.
Proof.
  split; [reflexivity|]. split; [reflexivity|].
  apply (stop_session_recent_is_noop plain_host 103 "s1"
           (example_session "/tmp/netv_transcode_s1" "http://live/1" "alice" 100)).
  - reflexivity.
  - reflexivity.
Defined.

(** ** Pipeline planning without a VAAPI device *)

Lemma planning_error_message (h : host) (copy_video : bool) (hw : string)
    (deinterlace use_hw : bool) (max_res q : string) (hdr : bool) :
  requires_vaapi hw → no_vaapi_device h → copy_video = false →
  _build_video_args h copy_video hw deinterlace use_hw max_res q hdr
  = Raise (RuntimeError
      ("Hardware acceleration '" +:+ hw +:+
       "' requires VAAPI but no Intel/AMD GPU was detected. " +:+
       "Select a different hardware option in settings.")).
Proof.
  intros Hreq Hdev ->. unfold _build_video_args, requires_vaapi, no_vaapi_device in *.
  destruct (_parse_hw hw) as [enc fb]. simpl in Hreq.
  rewrite Hdev. simpl negb.
  destruct Hreq as [-> | ->].
  - reflexivity.
  - rewrite String.eqb_refl, orb_true_r. reflexivity.
Qed.

(** C8, restricted to transcoded video. Whenever the video is not
    stream-copied, a planning call whose hardware policy has ['vaapi'] as
    encoder or fallback, on a host where no VAAPI device was detected,
    raises [RuntimeError] and returns no argument list. *)
Theorem planning_without_vaapi_device_fails (h : host)
    (input_url hw output_dir : string) (is_vod_ : bool)
    (subs : option (list SubtitleStream)) (media_info : option MediaInfo)
    (max_res q : string) (user_agent : option string) (deint_fallback : option bool) :
  requires_vaapi hw →
  no_vaapi_device h →
  copy_video_of media_info max_res = false →
  build_hls_ffmpeg_cmd h input_url hw output_dir is_vod_ subs media_info max_res q
    user_agent deint_fallback
  = Raise (RuntimeError
      ("Hardware acceleration '" +:+ hw +:+
       "' requires VAAPI but no Intel/AMD GPU was detected. " +:+
       "Select a different hardware option in settings.")).
Proof.
  intros Hreq Hdev Hcopy. unfold build_hls_ffmpeg_cmd.
  rewrite (planning_error_message h _ hw _ _ max_res q _ Hreq Hdev Hcopy).
  reflexivity.
Qed.

Lemma planning_without_vaapi_device_fails_witness :
  requires_vaapi "nvenc+vaapi"
  ∧ no_vaapi_device plain_host
  ∧ copy_video_of (Some hevc_1080p) "1080p" = false
  ∧ build_hls_ffmpeg_cmd plain_host "http://vod/movie.mkv" "nvenc+vaapi" "/tmp/out" true
      None (Some hevc_1080p) "1080p" "high" None None
    = Raise (RuntimeError
        "Hardware acceleration 'nvenc+vaapi' requires VAAPI but no Intel/AMD GPU was detected. Select a different hardware option in settings.").
Proof.
  split; [right; reflexivity|]. split; [reflexivity|]. split; [reflexivity|].
  apply (planning_without_vaapi_device_fails plain_host "http://vod/movie.mkv"
           "nvenc+vaapi" "/tmp/out" true None (Some hevc_1080p) "1080p" "high" None None).
  - right; reflexivity.
  - reflexivity.
  - reflexivity.
Defined.

(** The specification's statement fails when the source can be
    stream-copied: with policy ['vaapi'] and no device, an H.264 4:2:0
    source at 720 lines is planned as a plain copy and no error is raised. *)
Lemma planning_vaapi_copy_succeeds :
  requires_vaapi "vaapi"
  ∧ no_vaapi_device plain_host
  ∧ build_hls_ffmpeg_cmd plain_host "http://vod/movie.mp4" "vaapi" "/tmp/out" true
      None (Some h264_720p) "1080p" "high" None None
    = Ok ["ffmpeg"; "-hide_banner"; "-loglevel"; "error"; "-noautorotate";
          "-fflags"; "+discardcorrupt+genpts"; "-err_detect"; "ignore_err";
          "-reconnect"; "1"; "-reconnect_streamed"; "1";
          "-reconnect_on_network_error"; "1"; "-reconnect_on_http_error";
          "4xx,5xx"; "-reconnect_delay_max"; "30"; "-i";
          "http://vod/movie.mp4"; "-map"; "0:v:0"; "-map"; "0:a:0"; "-c:v";
          "copy"; "-c:a"; "copy"; "-max_delay"; "5000000"; "-f"; "hls";
          "-hls_time"; "3"; "-hls_list_size"; "0"; "-hls_segment_filename";
          "/tmp/out/seg%03d.ts"; "-hls_init_time"; "2"; "-hls_flags";
          "independent_segments"; "-hls_playlist_type"; "event";
          "/tmp/out/stream.m3u8"].
Proof.
  split; [left; reflexivity|]. split; reflexivity.
Qed.

(** ** Probes with an invalid height *)

Lemma series_cache_miss_keeps_state (now : Q) (sid eid : option Z) (p : probe_state) :
  (series_cache_lookup now sid eid p).1 = None →
  (series_cache_lookup now sid eid p).2 = p.
Proof.
  unfold series_cache_lookup. intros H.
  repeat (case_match; simpl in *; try congruence; try reflexivity).
Qed.

(** C4, with the proviso the code makes. When a [probe_media] call runs the
    inspector and the resolution height it extracts is at most zero, the
    call leaves the URL-keyed cache and the series/episode cache (and its
    file) exactly as they were. If the probe found a video codec, the
    metadata built from it, invalid height included, is what the caller
    gets; if it found none, the caller gets no metadata and no subtitles. *)
Theorem invalid_probe_returned_not_cached (h : host) (now : Q) (url_ : string)
    (series_id_ episode_id_ : option Z) (series_name : string) (p : probe_state)
    (data : ff_data) (is_hls_ : bool) :
  probe_cache_miss now url_ series_id_ episode_id_ p →
  run_probe h url_ = Some (data, is_hls_) →
  (x_height (extract_streams data) ≤ 0)%Z →
  (probe_media h now url_ series_id_ episode_id_ series_name p).2 = p
  ∧ (truthy (x_video_codec (extract_streams data)) = true →
     (probe_media h now url_ series_id_ episode_id_ series_name p).1
     = (Some (build_media_info data is_hls_), x_subtitles (extract_streams data))
     ∧ height (build_media_info data is_hls_) = x_height (extract_streams data))
  ∧ (x_video_codec (extract_streams data) = "" →
     (probe_media h now url_ series_id_ episode_id_ series_name p).1 = (None, [])).
Proof.
  intros [Hseries Hurl] Hrun Hheight.
  unfold probe_media.
  pose proof (series_cache_miss_keeps_state now series_id_ episode_id_ p Hseries) as Hkeep.
  destruct (series_cache_lookup now series_id_ episode_id_ p) as [hit p'].
  simpl in Hseries, Hkeep. subst hit p'.
  rewrite Hurl. unfold probe_uncached. rewrite Hrun.
  apply Z.leb_le in Hheight. rewrite Hheight.
  split; [|split].
  - destruct (negb _); reflexivity.
  - intros ->. split; reflexivity.
  - intros ->. reflexivity.
Qed.

Lemma invalid_probe_returned_not_cached_witness :
  probe_cache_miss 50 "http://vod/x.mkv" (Some 7%Z) (Some 3%Z) empty_probe_state
  ∧ (x_height (extract_streams broken_probe) ≤ 0)%Z
  ∧ (probe_media broken_probe_host 50 "http://vod/x.mkv" (Some 7%Z) (Some 3%Z) "Show"
       empty_probe_state).2 = empty_probe_state
  ∧ (probe_media broken_probe_host 50 "http://vod/x.mkv" (Some 7%Z) (Some 3%Z) "Show"
       empty_probe_state).1 = (Some (build_media_info broken_probe false), []).
Proof.
  split; [split; reflexivity|]. split; [discriminate|].
  destruct (invalid_probe_returned_not_cached broken_probe_host 50 "http://vod/x.mkv"
              (Some 7%Z) (Some 3%Z) "Show" empty_probe_state broken_probe false)
    as (Hstate & Hresult & _).
  - split; reflexivity.
  - reflexivity.
  - discriminate.
  - split; [exact Hstate|]. apply Hresult. reflexivity.
Defined.

(** The specification's statement has the invalid metadata returned whenever
    the height is at most zero. A source without a video stream has height
    zero as well, and for it [probe_media] returns nothing: the check for a
    video codec comes before the metadata is built. *)
Lemma audio_only_probe_returns_nothing :
  probe_cache_miss 50 "http://radio/a.m4a" None None empty_probe_state
  ∧ run_probe audio_only_host "http://radio/a.m4a" = Some (audio_only_probe, false)
  ∧ x_height (extract_streams audio_only_probe) = 0
  ∧ x_audio_codec (extract_streams audio_only_probe) = "aac"
  ∧ probe_media audio_only_host 50 "http://radio/a.m4a" None None "" empty_probe_state
    = ((None, []), empty_probe_state).
Proof.
  split; [split; reflexivity|]. repeat split.
Qed.

(** ** The insertion-ordered session table *)

Lemma dict_get_set_eq {V} (k : string) (v : V) (d : list (string * V)) :
  dict_get k (dict_set k v d) = Some v.
Proof.
  induction d as [|[k0 v0] d IH]; simpl.
  - rewrite String.eqb_refl. reflexivity.
  - destruct (String.eqb_spec k0 k) as [->|Hne]; simpl.
    + rewrite String.eqb_refl. reflexivity.
    + destruct (String.eqb_spec k0 k); [contradiction|exact IH].
Qed.

Lemma dict_get_set_ne {V} (k k' : string) (v : V) (d : list (string * V)) :
  k ≠ k' → dict_get k' (dict_set k v d) = dict_get k' d.
Proof.
  intros Hne. induction d as [|[k0 v0] d IH]; simpl.
  - destruct (String.eqb_spec k k'); [contradiction|reflexivity].
  - destruct (String.eqb_spec k0 k) as [->|Hk0]; simpl.
    + destruct (String.eqb_spec k k'); [contradiction|reflexivity].
    + rewrite IH. reflexivity.
Qed.

Lemma dict_get_pop_ne {V} (k k' : string) (d : list (string * V)) :
  k ≠ k' → dict_get k' (dict_pop k d) = dict_get k' d.
Proof.
  intros Hne. induction d as [|[k0 v0] d IH]; simpl; [reflexivity|].
  destruct (String.eqb_spec k0 k) as [->|Hk0].
  - destruct (String.eqb_spec k k'); [contradiction|reflexivity].
  - simpl. rewrite IH. reflexivity.
Qed.

Lemma dict_get_None_notin {V} (k : string) (d : list (string * V)) :
  dict_get k d = None ↔ k ∉ d.*1.
Proof.
  induction d as [|[k0 v0] d IH]; simpl.
  - split; [intros _; apply not_elem_of_nil|reflexivity].
  - rewrite not_elem_of_cons. destruct (String.eqb_spec k0 k) as [->|Hne].
    + split; [discriminate|intros [? _]; contradiction].
    + rewrite IH. split; [intros ?; split; [congruence|assumption]|intros [_ ?]; assumption].
Qed.

Lemma dict_get_pop_eq {V} (k : string) (d : list (string * V)) :
  NoDup d.*1 → dict_get k (dict_pop k d) = None.
Proof.
  induction d as [|[k0 v0] d IH]; simpl; [reflexivity|].
  intros Hnd. apply NoDup_cons in Hnd as [Hnotin Hnd].
  destruct (String.eqb_spec k0 k) as [->|Hne].
  - apply dict_get_None_notin. exact Hnotin.
  - simpl. destruct (String.eqb_spec k0 k); [contradiction|]. apply IH, Hnd.
Qed.

(** ** Quick failure of a resume *)

(** C7, restricted to failing exits. When a resumed transcoder ends with a
    non-zero return code within the quick-failure threshold of ten seconds,
    the monitor removes the session and the URL index entry, and deletes the
    session's output directory. *)
Theorem quick_resume_failure_tears_down (pid : nat) (returncode : Z) (elapsed : Q)
    (session_id url_ : string) (w : world) :
  unique_ids w →
  returncode ≠ 0 →
  (elapsed < _QUICK_FAILURE_THRESHOLD_SEC)%Q →
  let w' := _monitor_resume_ffmpeg pid returncode elapsed session_id url_ w in
  dict_get session_id (_transcode_sessions w') = None
  ∧ _url_to_session w' !! url_ = None
  ∧ ∀ s, dict_get session_id (_transcode_sessions w) = Some s → dirs w' !! dir s = None.
Proof.
  intros Hids Hrc Helapsed. unfold _monitor_resume_ffmpeg.
  apply Z.eqb_neq in Hrc. rewrite Hrc. simpl negb.
  apply Qlt_bool_iff in Helapsed. rewrite Helapsed.
  assert (Hsess : _transcode_sessions (record_exit pid returncode w) = _transcode_sessions w).
  { unfold record_exit. destruct (procs w !! pid) as [[]|]; reflexivity. }
  cbv zeta. simpl _transcode_sessions. rewrite Hsess.
  destruct (dict_get session_id (_transcode_sessions w)) as [s|] eqn:Hget; simpl.
  - split; [apply dict_get_pop_eq, Hids|].
    split; [apply lookup_delete_eq|].
    intros s' [= <-]. apply lookup_delete_eq.
  - split; [apply dict_get_pop_eq, Hids|].
    split; [apply lookup_delete_eq|]. intros s' [=].
Qed.

Lemma quick_resume_failure_tears_down_witness :
  unique_ids movie_world
  ∧ (3 < _QUICK_FAILURE_THRESHOLD_SEC)%Q
  ∧ dict_get "v1" (_transcode_sessions
                     (_monitor_resume_ffmpeg 1 1 3 "v1" movie_url movie_world)) = None
  ∧ _url_to_session (_monitor_resume_ffmpeg 1 1 3 "v1" movie_url movie_world) !! movie_url
    = None
  ∧ dirs (_monitor_resume_ffmpeg 1 1 3 "v1" movie_url movie_world) !! movie_dir = None.
Proof.
  assert (Hids : unique_ids movie_world).
  { unfold unique_ids. simpl. apply NoDup_singleton. }
  split; [exact Hids|]. split; [reflexivity|].
  destruct (quick_resume_failure_tears_down 1 1 3 "v1" movie_url movie_world Hids)
    as (Hsession & Hindex & Hdir).
  - discriminate.
  - reflexivity.
  - split; [exact Hsession|]. split; [exact Hindex|].
    apply (Hdir movie_session). reflexivity.
Defined.

(** The specification's statement covers every exit within the threshold;
    the code tears down only on a non-zero return code. A resumed
    transcoder that ends normally after three seconds leaves the session,
    its index entry and its directory in place. *)
Lemma quick_clean_exit_keeps_session :
  (3 < _QUICK_FAILURE_THRESHOLD_SEC)%Q
  ∧ dict_get "v1" (_transcode_sessions
                     (_monitor_resume_ffmpeg 1 0 3 "v1" movie_url movie_world))
    = Some movie_session
  ∧ _url_to_session (_monitor_resume_ffmpeg 1 0 3 "v1" movie_url movie_world) !! movie_url
    = Some "v1"
  ∧ dirs (_monitor_resume_ffmpeg 1 0 3 "v1" movie_url movie_world) !! movie_dir
    = Some (movie_dir_state "v1" 100 0).
Proof.
  split; [reflexivity|]. split; [reflexivity|]. split; reflexivity.
Qed.

(** ** Seek and the persisted descriptor *)

Lemma kill_frame (p : process_handle) (w : world) :
  let w' := (_kill_process p w).2 in
  _transcode_sessions w' = _transcode_sessions w
  ∧ _url_to_session w' = _url_to_session w
  ∧ dirs w' = dirs w
  ∧ spawned w' = spawned w
  ∧ probe w' = probe w
  ∧ _background_tasks w' = _background_tasks w.
Proof.
  unfold _kill_process. destruct p as [|pid]; simpl; [tauto|].
  destruct (procs w !! pid) as [[]|]; simpl; tauto.
Qed.

Lemma after_wait_frame (pid : nat) (o : wait_outcome) (w : world) :
  let w' := after_wait pid o w in
  _transcode_sessions w' = _transcode_sessions w
  ∧ _url_to_session w' = _url_to_session w
  ∧ dirs w' = dirs w
  ∧ spawned w' = spawned w
  ∧ signalled w' = signalled w
  ∧ probe w' = probe w
  ∧ _background_tasks w' = _background_tasks w.
Proof.
  unfold after_wait, record_exit. destruct (wo_exit o); simpl; [|tauto].
  destruct (procs w !! pid) as [[]|]; simpl; tauto.
Qed.

Lemma seek_prepare_frame (h : host) (now : Q) (info : session) (n : Z) (w : world) :
  let w' := (seek_prepare h now info n w).2 in
  _transcode_sessions w' = _transcode_sessions w
  ∧ _url_to_session w' = _url_to_session w
  ∧ spawned w' = spawned w
  ∧ dirs w' !! dir info = clear_for_seek n <$> dirs w !! dir info
  ∧ _background_tasks w' = _background_tasks w.
Proof.
  unfold seek_prepare.
  destruct (kill_frame (process info) w) as (Hs & Hi & Hd & Hsp & _ & Htasks).
  set (w1 := (_kill_process (process info) w).2) in *.
  assert (Hw2 : ∀ w2,
    w2 = match dirs w1 !! dir info with
         | Some d => with_dirs (<[dir info := clear_for_seek n d]> (dirs w1)) w1
         | None => w1
         end →
    _transcode_sessions w2 = _transcode_sessions w
    ∧ _url_to_session w2 = _url_to_session w
    ∧ spawned w2 = spawned w
    ∧ dirs w2 !! dir info = clear_for_seek n <$> dirs w !! dir info
    ∧ _background_tasks w2 = _background_tasks w).
  { intros w2 ->. rewrite Hd.
    destruct (dirs w !! dir info) as [d|] eqn:Hdir; simpl.
    - rewrite lookup_insert_eq. tauto.
    - rewrite Hd, Hdir. tauto. }
  cbv zeta.
  destruct (default false _).
  - destruct (probe_media _ _ _ _ _ _ _) as [r p]. simpl. apply Hw2. reflexivity.
  - simpl. apply Hw2. reflexivity.
Qed.

(** The path that does persist. A seek that restarts the transcoder, on a
    session whose descriptor file exists and parses, rewrites the
    descriptor: its seek offset is [seek_time] afterwards, and its other
    fields are as before. *)
Lemma restarting_seek_persists_offset (h : host) (now : Q) (env : seek_env)
    (session_id : string) (seek_time : Q) (w : world) (s : session) (d : dir_state)
    (info : session_info) :
  dict_get session_id (_transcode_sessions w) = Some s →
  dirs w !! dir s = Some d →
  d_session_json d = Some (Some info) →
  spawned (seek_transcode h now env session_id seek_time w).2 ≠ spawned w →
  ∃ d', dirs (seek_transcode h now env session_id seek_time w).2 !! dir s = Some d'
        ∧ d_session_json d'
          = Some (Some {| info_session_id := info_session_id info;
                          info_url := info_url info;
                          info_is_vod := info_is_vod info;
                          info_started := info_started info;
                          info_subtitles := info_subtitles info;
                          info_duration := info_duration info;
                          info_seek_offset := seek_time;
                          info_series_id := info_series_id info;
                          info_episode_id := info_episode_id info;
                          info_username := info_username info;
                          info_source_id := info_source_id info;
                          info_probe := info_probe info |}).
Proof.
  intros Hget Hdir Hjson Hspawn. unfold seek_transcode in *. rewrite Hget in *.
  destruct (negb (is_vod s)); [contradiction|].
  set (n := int_of_float (seek_time / get_hls_segment_duration)) in *.
  destruct (segment_materialized w (dir s) n).
  { exfalso. apply Hspawn. unfold smart_seek, _regenerate_playlist. simpl.
    destruct (dirs w !! dir s); reflexivity. }
  pose proof (seek_prepare_frame h now s n w) as (Hs & Hi & Hsp & Hd & _).
  destruct (seek_prepare h now s n w) as [media_info w3]. simpl in Hs, Hi, Hsp, Hd.
  destruct (seek_command h s media_info seek_time n) as [cmd|e];
    [|simpl in Hspawn; congruence].
  unfold seek_respawn in *. unfold _update_seek_session in *.
  simpl _transcode_sessions in *. rewrite Hs, Hget in *.
  set (w5 := if truthy (url s) then _ else _) in *.
  assert (Hd5 : dirs w5 = dirs w3) by (subst w5; destruct (truthy (url s)); reflexivity).
  simpl negb in *. cbv iota in *.
  assert (Hfinal : ∀ w7,
    dirs w7 = dirs (persist_seek_offset (dir s) seek_time w5) →
    ∃ d', dirs w7 !! dir s = Some d'
          ∧ d_session_json d'
            = Some (Some {| info_session_id := info_session_id info;
                            info_url := info_url info;
                            info_is_vod := info_is_vod info;
                            info_started := info_started info;
                            info_subtitles := info_subtitles info;
                            info_duration := info_duration info;
                            info_seek_offset := seek_time;
                            info_series_id := info_series_id info;
                            info_episode_id := info_episode_id info;
                            info_username := info_username info;
                            info_source_id := info_source_id info;
                            info_probe := info_probe info |})).
  { intros w7 ->. unfold persist_seek_offset. rewrite Hd5, Hd, Hdir. simpl.
    rewrite Hjson. simpl. rewrite lookup_insert_eq. eexists. split; [reflexivity|].
    reflexivity. }
  destruct (negb (wo_ready (sk_wait env))); simpl; apply Hfinal;
    rewrite (proj1 (proj2 (proj2 (after_wait_frame (sk_pid env) (sk_wait env) _))));
    reflexivity.
Qed.


(** C9. Against the claim, only a restarting seek persists the offset. Take
    a seek on an on-demand session whose descriptor exists and parses. When
    the target segment is on disk (a smart seek), nothing is spawned, the
    session in memory has [seek_time] as its seek offset afterwards, and
    [session.json] is what it was, so a descriptor that recorded another
    offset still records it. When the seek spawns a transcoder, the
    descriptor afterwards records [seek_time]. The block that persists the
    offset is on the restarting path only. *)
Theorem smart_seek_skips_descriptor (h : host) (now : Q) (env : seek_env)
    (session_id : string) (seek_time : Q) (w : world) (s : session) (d : dir_state)
    (info : session_info) :
  dict_get session_id (_transcode_sessions w) = Some s →
  is_vod s = true →
  dirs w !! dir s = Some d →
  d_session_json d = Some (Some info) →
  let n := int_of_float (seek_time / get_hls_segment_duration) in
  let out := seek_transcode h now env session_id seek_time w in
  (segment_materialized w (dir s) n = true →
   spawned out.2 = spawned w
   ∧ (∃ s', dict_get session_id (_transcode_sessions out.2) = Some s'
            ∧ seek_offset s' = seek_time)
   ∧ (∃ d', dirs out.2 !! dir s = Some d' ∧ d_session_json d' = Some (Some info))
   ∧ (¬ (info_seek_offset info == seek_time)%Q →
      ∃ s' d' info',
        dict_get session_id (_transcode_sessions out.2) = Some s'
        ∧ dirs out.2 !! dir s = Some d'
        ∧ d_session_json d' = Some (Some info')
        ∧ ¬ (info_seek_offset info' == seek_offset s')%Q))
  ∧ (spawned out.2 ≠ spawned w →
     ∃ d' info', dirs out.2 !! dir s = Some d'
                 ∧ d_session_json d' = Some (Some info')
                 ∧ info_seek_offset info' = seek_time).
Proof.
  intros Hget Hvod Hdir Hjson n out. split.
  - intros Hmat. subst out.
    unfold seek_transcode. rewrite Hget, Hvod. simpl negb. cbv iota.
    fold n. rewrite Hmat. unfold smart_seek, _regenerate_playlist. simpl.
    rewrite Hdir. simpl. rewrite lookup_insert_eq.
    assert (Hkept : d_session_json (regenerate_dir n d) = Some (Some info)).
    { unfold regenerate_dir. destruct (playlist_segments d n); exact Hjson. }
    split; [reflexivity|].
    split; [eexists; split; [apply dict_get_set_eq|reflexivity]|].
    split; [eexists; split; [reflexivity|exact Hkept]|].
    intros Hne. eexists. eexists. exists info.
    split; [apply dict_get_set_eq|]. split; [reflexivity|]. split; [exact Hkept|].
    exact Hne.
  - intros Hspawn.
    destruct (restarting_seek_persists_offset h now env session_id seek_time w s d info
                Hget Hdir Hjson Hspawn) as (d' & Hd' & Hjson').
    exists d'. eexists. split; [exact Hd'|]. split; [exact Hjson'|reflexivity].
Qed.

Lemma smart_seek_skips_descriptor_witness :
  (seek_transcode plain_host 120 ready_seek "v1" 9 movie_world).1
  = Ok (SmartSeek "v1" "/transcode/v1/stream.m3u8")
  ∧ (seek_offset <$> dict_get "v1"
       (_transcode_sessions (seek_transcode plain_host 120 ready_seek "v1" 9 movie_world).2))
    = Some 9%Q
  ∧ (d_session_json <$>
       dirs (seek_transcode plain_host 120 ready_seek "v1" 9 movie_world).2 !! movie_dir)
    = Some (Some (Some (movie_descriptor "v1" 0)))
  ∧ info_seek_offset (movie_descriptor "v1" 0) = 0%Q
  ∧ spawned (seek_transcode plain_host 120 ready_seek "v1" 30 movie_world).2
    ≠ spawned movie_world
  ∧ ∃ d' info',
      dirs (seek_transcode plain_host 120 ready_seek "v1" 30 movie_world).2 !! movie_dir
      = Some d'
      ∧ d_session_json d' = Some (Some info')
      ∧ info_seek_offset info' = 30%Q.
Proof.
  split; [reflexivity|].
  destruct (smart_seek_skips_descriptor plain_host 120 ready_seek "v1" 9 movie_world
              movie_session (movie_dir_state "v1" 100 0) (movie_descriptor "v1" 0)
              eq_refl eq_refl eq_refl eq_refl) as [Hsmart _].
  destruct (Hsmart eq_refl) as (_ & (s' & Hs' & Hoffset) & (d' & Hd' & Hjson) & _).
  split; [rewrite Hs'; simpl; f_equal; exact Hoffset|].
  split.
  { change (dir movie_session) with movie_dir in Hd'. rewrite Hd'. simpl.
    rewrite Hjson. reflexivity. }
  split; [reflexivity|].
  assert (Hspawn : spawned (seek_transcode plain_host 120 ready_seek "v1" 30 movie_world).2
                   ≠ spawned movie_world) by (vm_compute; discriminate).
  split; [exact Hspawn|].
  destruct (smart_seek_skips_descriptor plain_host 120 ready_seek "v1" 30 movie_world
              movie_session (movie_dir_state "v1" 100 0) (movie_descriptor "v1" 0)
              eq_refl eq_refl eq_refl eq_refl) as [_ Hrestart].
  exact (Hrestart Hspawn).
Defined.

(** ** Decimal rendering and parsing *)

Lemma int_str (n : Z) : py.int (py.str n) = Some n.
Proof.
  unfold py.int, py.str.
  destruct n as [|p|p].
  - reflexivity.
  - rewrite NilZero.isi.
    + simpl. f_equal. apply (DecimalZ.of_to (Z.pos p)).
    + simpl. intros [= H]. 
      pose proof (DecimalPos.Unsigned.to_uint_nonnil p). congruence.
    + discriminate.
  - rewrite NilZero.isi.
    + simpl. f_equal. apply (DecimalZ.of_to (Z.neg p)).
    + discriminate.
    + simpl. intros [= H].
      pose proof (DecimalPos.Unsigned.to_uint_nonnil p). congruence.
Qed.

Lemma parse_u_zeros (k : nat) (s : string) : parse_u (zeros k s) = parse_u s.
Proof.
  induction k as [|k IH]; [reflexivity|].
  unfold parse_u in *. simpl zeros. simpl NilEmpty.uint_of_string.
  rewrite <- IH. destruct (NilEmpty.uint_of_string (zeros k s)); reflexivity.
Qed.

Lemma parse_u_str (n : Z) : 0 ≤ n → parse_u (py.str n) = Some n.
Proof.
  intros Hn. unfold parse_u, py.str.
  destruct n as [|p|p]; [reflexivity| |lia].
  simpl. unfold NilZero.string_of_uint.
  pose proof (DecimalPos.Unsigned.to_uint_nonnil p) as Hnn.
  destruct (Pos.to_uint p) eqn:E; [congruence|..];
    rewrite <- E, NilEmpty.usu; simpl; f_equal; apply (DecimalZ.of_to (Z.pos p)).
Qed.

Lemma int_unsigned (s : string) (n : Z) :
  s ≠ "" → parse_u s = Some n → String.prefix "-" s = false → py.int s = Some n.
Proof.
  unfold parse_u, py.int, NilZero.int_of_string.
  destruct s as [|c s]; [contradiction|].
  intros _ Hparse Hminus.
  destruct (Ascii.eqb_spec c "-"%char) as [->|_].
  { simpl in Hminus. destruct s; discriminate. }
  unfold NilZero.uint_of_string.
  destruct (NilEmpty.uint_of_string (String c s)); [|discriminate].
  simpl in *. exact Hparse.
Qed.

Lemma str_no_minus (n : Z) : 0 ≤ n → String.prefix "-" (py.str n) = false.
Proof.
  intros Hn. unfold py.str. destruct n as [|p|p]; [reflexivity| |lia].
  simpl. unfold NilZero.string_of_uint.
  destruct (Pos.to_uint p); reflexivity.
Qed.

Lemma zeros_no_minus (k : nat) (s : string) :
  String.prefix "-" s = false → String.prefix "-" (zeros k s) = false.
Proof. destruct k; [trivial|reflexivity]. Qed.

Lemma str_nonempty (n : Z) : py.str n ≠ "".
Proof.
  unfold py.str. destruct n as [|p|p]; simpl; try discriminate.
  unfold NilZero.string_of_uint.
  pose proof (DecimalPos.Unsigned.to_uint_nonnil p) as Hnn.
  destruct (Pos.to_uint p); try congruence; discriminate.
Qed.

Lemma zeros_nonempty (k : nat) (s : string) : s ≠ "" → zeros k s ≠ "".
Proof. destruct k; [trivial|discriminate]. Qed.

Lemma int_format_03d (n : Z) : 0 ≤ n → py.int (format_03d n) = Some n.
Proof.
  intros Hn. unfold format_03d.
  destruct (Z.ltb_spec n 0); [lia|].
  apply int_unsigned.
  - apply zeros_nonempty, str_nonempty.
  - unfold zfill. rewrite parse_u_zeros. apply parse_u_str, Hn.
  - unfold zfill. apply zeros_no_minus, str_no_minus, Hn.
Qed.

(** ** Strings *)

Lemma substring_all (s : string) : String.substring 0 (String.length s) s = s.
Proof. induction s; simpl; [reflexivity|]. rewrite IHs. reflexivity. Qed.

Lemma substring_head (a b : string) :
  String.substring 0 (String.length a) (a +:+ b) = a.
Proof.
  induction a; simpl.
  - destruct b; reflexivity.
  - rewrite IHa. reflexivity.
Qed.

Lemma substring_tail (a b : string) :
  String.substring (String.length a) (String.length b) (a +:+ b) = b.
Proof. induction a; simpl; [apply substring_all|exact IHa]. Qed.

Lemma length_append (a b : string) :
  String.length (a +:+ b) = (String.length a + String.length b)%nat.
Proof. induction a; simpl; [reflexivity|]. rewrite IHa. reflexivity. Qed.

Lemma prefix_append (a b : string) : String.prefix a (a +:+ b) = true.
Proof.
  induction a; simpl.
  - destruct b; reflexivity.
  - rewrite IHa. destruct (ascii_dec a a); [reflexivity|contradiction].
Qed.

Lemma append_assoc (a b c : string) : (a +:+ b) +:+ c = a +:+ (b +:+ c).
Proof.
  induction a as [|x a IH]; [reflexivity|].
  change (String x ((a +:+ b) +:+ c) = String x (a +:+ (b +:+ c))).
  f_equal. exact IH.
Qed.

Lemma endswith_append (a b : string) : endswith (a +:+ b) b = true.
Proof.
  unfold endswith. rewrite length_append.
  replace (String.length a + String.length b - String.length b)%nat
    with (String.length a) by lia.
  rewrite substring_tail, String.eqb_refl, andb_true_r.
  apply Nat.leb_le. lia.
Qed.

Lemma segment_name_matches (n : Z) : glob_match SEG_PREFIX ".ts" (segment_name n) = true.
Proof.
  unfold glob_match, segment_name.
  rewrite prefix_append.
  rewrite <- (append_assoc SEG_PREFIX (format_03d n) ".ts"), endswith_append.
  rewrite !length_append. apply Nat.leb_le. simpl String.length. lia.
Qed.

Lemma segment_number_name (n : Z) : 0 ≤ n → segment_number (segment_name n) = Some n.
Proof.
  intros Hn. unfold segment_number, segment_name.
  rewrite !length_append. simpl String.length.
  replace (3 + (String.length (format_03d n) + 3) - 3 - 3)%nat
    with (String.length (format_03d n)) by lia.
  change (String.substring 3 (String.length (format_03d n))
            (SEG_PREFIX +:+ format_03d n +:+ ".ts"))
    with (String.substring 0 (String.length (format_03d n)) (format_03d n +:+ ".ts")).
  rewrite substring_head. apply int_format_03d, Hn.
Qed.

(** ** Sorting by name *)

Lemma elem_of_insert_name (x y : string * Z) (l : list (string * Z)) :
  x ∈ insert_name y l ↔ x = y ∨ x ∈ l.
Proof.
  induction l as [|z l IH]; simpl.
  - rewrite list_elem_of_singleton, elem_of_nil. tauto.
  - destruct (String.leb y.1 z.1).
    + rewrite elem_of_cons. tauto.
    + rewrite !elem_of_cons, IH. tauto.
Qed.

Lemma elem_of_sorted_glob (prefix suffix : string) (d : dir_state) (name : string) (size : Z) :
  (name, size) ∈ sorted_glob prefix suffix d
  ↔ d_files d !! name = Some size ∧ glob_match prefix suffix name = true.
Proof.
  unfold sorted_glob.
  assert (H : ∀ l x, x ∈ foldr insert_name [] l ↔ x ∈ l).
  { induction l as [|y l IH]; intros x; simpl; [reflexivity|].
    rewrite elem_of_insert_name, elem_of_cons, IH. reflexivity. }
  rewrite H, list_elem_of_filter, elem_of_map_to_list. simpl. tauto.
Qed.

Lemma playlist_segments_target (d : dir_state) (n size : Z) :
  0 ≤ n →
  d_files d !! segment_name n = Some size →
  _MIN_SEGMENT_SIZE_BYTES < size →
  (n, segment_name n) ∈ playlist_segments d n.
Proof.
  intros Hn Hfile Hsize. unfold playlist_segments.
  apply list_elem_of_omap. exists (segment_name n, size). split.
  - apply elem_of_sorted_glob. split; [exact Hfile|apply segment_name_matches].
  - simpl. rewrite segment_number_name by exact Hn.
    rewrite Z.leb_refl. apply Z.ltb_lt in Hsize. rewrite Hsize. reflexivity.
Qed.

(** ** The regenerated playlist *)

Lemma media_sequence_playlist_lines (n : Z) (segments : list (Z * string)) :
  media_sequence (playlist_lines n segments) = Some n.
Proof.
  unfold media_sequence, playlist_lines.
  set (tag := "#EXT-X-MEDIA-SEQUENCE:").
  cbn [app].
  rewrite filter_cons_False by (simpl; discriminate).
  rewrite filter_cons_False by (simpl; discriminate).
  rewrite filter_cons_False by (vm_compute; discriminate).
  rewrite filter_cons_True by apply prefix_append.
  rewrite length_append.
  replace (String.length tag + String.length (py.str n) - String.length tag)%nat
    with (String.length (py.str n)) by lia.
  rewrite substring_tail. apply int_str.
Qed.

(** ** Smart seek *)

Lemma segment_of_nonnegative_time (t : Q) :
  (0 <= t)%Q →
  int_of_float (t / get_hls_segment_duration) = Qfloor (t / 3).
Proof.
  intros Ht. unfold int_of_float, get_hls_segment_duration, _HLS_SEGMENT_DURATION_SEC.
  assert (H : Qlt_bool (t / 3) 0 = false).
  { apply Qlt_bool_false_iff. apply Qle_shift_div_l; [reflexivity|]. lra. }
  rewrite H. reflexivity.
Qed.

(** C3. A seek on an on-demand session to a non-negative time whose
    target segment [seg{N}.ts], [N = floor(seek_time / 3)], is on disk and
    larger than 1000 bytes spawns no process and signals none. The session
    afterwards has [seek_time] as its seek offset and every other field,
    the process among them, as before; the other sessions are as before.
    The directory afterwards has a playlist whose [#EXT-X-MEDIA-SEQUENCE]
    is [N] and the same files as before, so every segment, before [N] or
    after, stays; its descriptor is as before, and so are the other
    directories. *)
Theorem smart_seek_keeps_process (h : host) (now : Q) (env : seek_env)
    (session_id : string) (seek_time : Q) (w : world) (s : session) (d : dir_state)
    (size : Z) :
  dict_get session_id (_transcode_sessions w) = Some s →
  is_vod s = true →
  (0 <= seek_time)%Q →
  dirs w !! dir s = Some d →
  d_files d !! segment_name (Qfloor (seek_time / 3)) = Some size →
  _MIN_SEGMENT_SIZE_BYTES < size →
  let n := Qfloor (seek_time / 3) in
  let out := seek_transcode h now env session_id seek_time w in
  let s' :=
    {| dir := dir s; process := process s; started := started s; url := url s;
       is_vod := is_vod s; last_access := last_access s; subtitles := subtitles s;
       duration_ := duration_ s; seek_offset := seek_time;
       series_id := series_id s; episode_id := episode_id s;
       username := username s; source_id := source_id s |} in
  out.1 = Ok (SmartSeek session_id ("/transcode/" +:+ session_id +:+ "/stream.m3u8"))
  ∧ spawned out.2 = spawned w
  ∧ signalled out.2 = signalled w
  ∧ procs out.2 = procs w
  ∧ _transcode_sessions out.2 = dict_set session_id s' (_transcode_sessions w)
  ∧ dict_get session_id (_transcode_sessions out.2) = Some s'
  ∧ (∀ sid, sid ≠ session_id →
       dict_get sid (_transcode_sessions out.2) = dict_get sid (_transcode_sessions w))
  ∧ _url_to_session out.2 = _url_to_session w
  ∧ probe out.2 = probe w
  ∧ ∃ lines,
      let d' :=
        {| d_mtime := d_mtime d; d_files := d_files d; d_playlist := Some lines;
           d_session_json := d_session_json d |} in
      dirs out.2 = <[dir s := d']> (dirs w)
      ∧ dirs out.2 !! dir s = Some d'
      ∧ (∀ other, other ≠ dir s → dirs out.2 !! other = dirs w !! other)
      ∧ media_sequence lines = Some n.
Proof.
  intros Hget Hvod Ht Hdir Hfile Hsize n out s'. subst out.
  unfold seek_transcode. rewrite Hget, Hvod. simpl negb. cbv iota.
  rewrite (segment_of_nonnegative_time seek_time Ht). fold n.
  assert (Hmat : segment_materialized w (dir s) n = true).
  { unfold segment_materialized. rewrite Hdir. simpl. fold n in Hfile. rewrite Hfile.
    apply Z.ltb_lt, Hsize. }
  rewrite Hmat. unfold smart_seek, _regenerate_playlist. simpl.
  rewrite Hdir. simpl. change (set_seek_offset seek_time s) with s'.
  do 5 (split; [reflexivity|]).
  split; [apply dict_get_set_eq|].
  split; [intros sid Hsid; apply dict_get_set_ne; congruence|].
  do 2 (split; [reflexivity|]).
  unfold regenerate_dir.
  pose proof (playlist_segments_target d n size) as Hin.
  assert (Hn : 0 ≤ n).
  { subst n. change 0 with (Qfloor 0). apply Qfloor_resp_le.
    apply Qle_shift_div_l; [reflexivity|]. lra. }
  specialize (Hin Hn Hfile Hsize).
  destruct (playlist_segments d n) as [|seg segs] eqn:Hsegs.
  { apply elem_of_nil in Hin. contradiction. }
  eexists. cbv zeta. split; [reflexivity|].
  split; [apply lookup_insert_eq|].
  split; [intros other Hother; apply lookup_insert_ne; congruence|].
  apply media_sequence_playlist_lines.
Qed.

Lemma smart_seek_keeps_process_witness :
  dict_get "v1" (_transcode_sessions movie_world) = Some movie_session
  ∧ d_files (movie_dir_state "v1" 100 0) !! segment_name (Qfloor (9 / 3)) = Some 200000
  ∧ (seek_transcode plain_host 120 ready_seek "v1" 9 movie_world).1
    = Ok (SmartSeek "v1" "/transcode/v1/stream.m3u8")
  ∧ spawned (seek_transcode plain_host 120 ready_seek "v1" 9 movie_world).2 = []
  ∧ signalled (seek_transcode plain_host 120 ready_seek "v1" 9 movie_world).2 = []
  ∧ (seek_offset <$> dict_get "v1"
       (_transcode_sessions (seek_transcode plain_host 120 ready_seek "v1" 9 movie_world).2))
    = Some 9%Q
  ∧ (process <$> dict_get "v1"
       (_transcode_sessions (seek_transcode plain_host 120 ready_seek "v1" 9 movie_world).2))
    = Some (Process 1)
  ∧ ∃ lines,
      (d_playlist <$>
         dirs (seek_transcode plain_host 120 ready_seek "v1" 9 movie_world).2 !! movie_dir)
      = Some (Some lines)
      ∧ (d_files <$>
           dirs (seek_transcode plain_host 120 ready_seek "v1" 9 movie_world).2 !! movie_dir)
        = Some (d_files (movie_dir_state "v1" 100 0))
      ∧ media_sequence lines = Some 3.
Proof.
  split; [reflexivity|]. split; [reflexivity|].
  destruct (smart_seek_keeps_process plain_host 120 ready_seek "v1" 9 movie_world
              movie_session (movie_dir_state "v1" 100 0) 200000)
    as (Hres & Hspawn & Hsig & _ & _ & Hsession & _ & _ & _ & lines & _ & Hdir & _ & Hseq).
  - reflexivity.
  - reflexivity.
  - discriminate.
  - reflexivity.
  - reflexivity.
  - reflexivity.
  - split; [exact Hres|]. split; [exact Hspawn|]. split; [exact Hsig|].
    split; [rewrite Hsession; reflexivity|]. split; [rewrite Hsession; reflexivity|].
    exists lines. change (dir movie_session) with movie_dir in Hdir.
    split; [rewrite Hdir; reflexivity|]. split; [rewrite Hdir; reflexivity|exact Hseq].
Defined.

(** ** Recovery: which session the URL index keeps *)

(** The index decision of the sweep, for a descriptor that arrives when the
    URL is already indexed: a positive seek offset displaces an indexed
    session without one. *)
Lemma recovery_prefers_seek_offset (path : string) (now mtime : Q) (info : session_info)
    (w : world) (existing_id : string) (existing : session) :
  _url_to_session w !! info_url info = Some existing_id →
  truthy existing_id = true →
  existing_id ≠ info_session_id info →
  dict_get existing_id (_transcode_sessions w) = Some existing →
  (seek_offset existing == 0)%Q →
  (0 < info_seek_offset info)%Q →
  _url_to_session (register_recovered path now mtime info w) !! info_url info
  = Some (info_session_id info).
Proof.
  intros Hidx Htruthy Hne Hget Hzero Hpos. unfold register_recovered. simpl.
  rewrite Hidx, Htruthy.
  assert (Hget' : dict_get existing_id
            (dict_set (info_session_id info) (recovered_session path now mtime info)
               (_transcode_sessions w)) = Some existing).
  { clear - Hne Hget. induction (_transcode_sessions w) as [|[k v] l IH]; simpl in *.
    - discriminate.
    - destruct (String.eqb_spec k (info_session_id info)) as [->|Hk]; simpl.
      + destruct (String.eqb_spec (info_session_id info) existing_id); [congruence|].
        destruct (String.eqb_spec (info_session_id info) existing_id); [congruence|].
        exact Hget.
      + destruct (String.eqb_spec k existing_id); [exact Hget|]. apply IH, Hget. }
  rewrite Hget'. simpl.
  apply Qlt_bool_iff in Hpos. rewrite Hpos.
  apply Qeq_bool_iff in Hzero. rewrite Hzero. simpl.
  apply lookup_insert_eq.
Qed.

(** C5. Both leftover directories carry a zero seek offset and the second
    one processed was modified more recently (200 against 100), yet after
    the sweep the index points at the first: the sweep compares the new
    directory's modification time with the [last_access] of the indexed
    session, which it has just set to the time of the sweep. *)
Theorem recovery_keeps_first_processed :
  let w := cleanup_and_recover_sessions plain_host 1000
             ["/tmp/netv_transcode_a"; "/tmp/netv_transcode_b"] two_leftovers in
  d_mtime <$> dirs two_leftovers !! "/tmp/netv_transcode_a" = Some 100%Q
  ∧ d_mtime <$> dirs two_leftovers !! "/tmp/netv_transcode_b" = Some 200%Q
  ∧ (_transcode_sessions w).*1 = ["a"; "b"]
  ∧ seek_offset <$> dict_get "a" (_transcode_sessions w) = Some 0%Q
  ∧ seek_offset <$> dict_get "b" (_transcode_sessions w) = Some 0%Q
  ∧ _url_to_session w !! movie_url = Some "a".
Proof.
  vm_compute. repeat split; reflexivity.
Qed.

(** In the other processing order the same rule keeps the newer directory:
    the outcome depends on the order in which the directories are listed. *)
Lemma recovery_order_dependent :
  _url_to_session
    (cleanup_and_recover_sessions plain_host 1000
       ["/tmp/netv_transcode_b"; "/tmp/netv_transcode_a"] two_leftovers) !! movie_url
  = Some "b".
Proof. vm_compute. reflexivity. Qed.

(** ** Failure of a fresh start *)

(** C6. A live start whose transcoder exits at once fails with status 500
    after a single attempt, and the failed session is still registered: the
    table holds it, the URL index points at it, and its directory exists.
    The stop requested on failure is not forced, and the session was used
    1.2 seconds ago. *)
Theorem failed_start_stays_registered :
  let out := start_transcode plain_host 1000 failing_transcode "http://live/ch1" "live"
               None None "" true "alice" "" 0 0 empty_world in
  so_result out = Raise (HTTPException 500 "Transcode failed - check server logs for details")
  ∧ so_attempts out = 1%nat
  ∧ (_transcode_sessions (so_world out)).*1 = ["s1"]
  ∧ _url_to_session (so_world out) !! "http://live/ch1" = Some "s1"
  ∧ is_Some (dirs (so_world out) !! "/tmp/netv_transcode_s1_x9").
Proof.
  vm_compute. repeat split; try reflexivity. eexists. reflexivity.
Qed.

(** The same in general: when the wait for the playlist fails while the
    session's last access is under five seconds old, the unforced stop is
    ignored, and the failed attempt keeps its session, its index entry and
    its directory. *)
Lemma unready_start_leaves_registry (h : host) (now : Q) (env : start_env) (old_seek : Q)
    (media_info : option MediaInfo) (subs : list SubtitleStream) (w : world) (s : session) :
  wo_ready (se_wait env) = false →
  dict_get (se_session_id env) (_transcode_sessions w) = Some s →
  (now + se_elapsed env - last_access s < 5)%Q →
  let out := start_await h now env old_seek media_info subs w in
  out.1 = Raise (HTTPException 500 "Transcode failed - check server logs for details")
  ∧ _transcode_sessions out.2 = _transcode_sessions w
  ∧ _url_to_session out.2 = _url_to_session w
  ∧ dirs out.2 = dirs w.
Proof.
  intros Hready Hget Hrecent. unfold start_await. rewrite Hready. simpl.
  split; [reflexivity|].
  destruct (after_wait_frame (se_pid env) (se_wait env) w) as (Hs & Hi & Hd & _).
  unfold stop_session. rewrite Hs, Hget. simpl negb. rewrite andb_true_l.
  apply Qlt_bool_iff in Hrecent. rewrite Hrecent. auto.
Qed.

(** The retry half of C6: [_do_start_transcode] runs a second time exactly
    when the first run raised [HTTPException] and a series id was given,
    and never a third time; the second run sees the probe state with that
    episode's entry invalidated. *)
Lemma fresh_start_retries_once_for_series (h : host) (now : Q) (env : transcode_env)
    (url_ content_type : string) (series_id_ episode_id_ : option Z) (old_seek : Q)
    (series_name : string) (deint : bool) (user src : string) (w : world) :
  let first :=
    _do_start_transcode h now (te_first env) url_ content_type series_id_ episode_id_
      old_seek series_name deint user src w in
  let out :=
    start_fresh h now env url_ content_type series_id_ episode_id_ old_seek series_name
      deint user src w in
  (so_attempts out = 1%nat ∨ so_attempts out = 2%nat)
  ∧ (so_attempts out = 2%nat ↔
     (∃ c d, first.1 = Raise (HTTPException c d)) ∧ is_Some series_id_)
  ∧ (so_attempts out = 1%nat → so_result out = first.1 ∧ so_world out = first.2)
  ∧ (∀ sid, series_id_ = Some sid → so_attempts out = 2%nat →
       (so_result out, so_world out)
       = _do_start_transcode h (now + se_elapsed (te_first env)) (te_retry env) url_
           content_type series_id_ episode_id_ old_seek series_name deint user src
           (with_probe (invalidate_series_probe_cache sid episode_id_ (probe first.2))
              first.2)).
Proof.
  intros first out. subst out. unfold start_fresh. cbv zeta. fold first.
  destruct first as [r w3]. simpl.
  destruct r as [resp|[msg|msg|c d]]; simpl.
  1-3: (split; [left; reflexivity|]; split;
        [split; [discriminate|intros [(c & d & [=]) _]]|]; split;
        [intros _; split; reflexivity|intros sid _ [=]]).
  destruct series_id_ as [sid|]; simpl.
  - destruct (_do_start_transcode _ _ (te_retry env) _ _ _ _ _ _ _ _ _ _) as [r' w5] eqn:Hretry.
    simpl. split; [right; reflexivity|]. split.
    + split; [intros _; split; [exists c, d; reflexivity|eexists; reflexivity]|reflexivity].
    + split; [discriminate|]. intros sid' [= <-] _. rewrite Hretry. reflexivity.
  - split; [left; reflexivity|]. split.
    + split; [discriminate|intros [_ [? [=]]]].
    + split; [intros _; split; reflexivity|intros sid [=]].
Qed.

(** ** Stable sort by start time *)

Lemma length_insert_by_started (x : string * session) (l : list (string * session)) :
  length (insert_by_started x l) = S (length l).
Proof.
  induction l as [|y l IH]; simpl; [reflexivity|].
  destruct (Qle_bool _ _); simpl; [reflexivity|]. rewrite IH. reflexivity.
Qed.

Lemma length_sorted_by_started (l : list (string * session)) :
  length (sorted_by_started l) = length l.
Proof.
  induction l as [|x l IH]; simpl; [reflexivity|].
  rewrite length_insert_by_started, IH. reflexivity.
Qed.

(** The head of the sorted list, located in the unsorted one. *)
Lemma sorted_head_split (l : list (string * session)) (x : string * session)
    (rest : list (string * session)) :
  sorted_by_started l = x :: rest →
  ∃ l1 l2, l = l1 ++ x :: l2
    ∧ (∀ y, y ∈ l1 → (started x.2 < started y.2)%Q)
    ∧ (∀ y, y ∈ l2 → (started x.2 <= started y.2)%Q).
Proof.
  revert x rest. induction l as [|a l IH]; intros x rest Hsort; [discriminate|].
  simpl in Hsort.
  destruct (sorted_by_started l) as [|m r] eqn:Hl.
  - assert (l = []) as ->.
    { apply length_zero_iff_nil. rewrite <- length_sorted_by_started, Hl. reflexivity. }
    simpl in Hsort. injection Hsort as <- <-.
    exists [], []. split; [reflexivity|].
    split; intros y Hy; apply elem_of_nil in Hy; contradiction.
  - destruct (IH m r eq_refl) as (l1 & l2 & -> & Hbefore & Hafter).
    simpl in Hsort.
    destruct (Qle_bool (started a.2) (started m.2)) eqn:Hle.
    + injection Hsort as <- <-. apply Qle_bool_iff in Hle.
      exists [], (l1 ++ m :: l2). split; [reflexivity|].
      split; [intros y Hy; apply elem_of_nil in Hy; contradiction|].
      intros y Hy. apply elem_of_app in Hy as [Hy|Hy].
      * specialize (Hbefore y Hy). lra.
      * apply elem_of_cons in Hy as [->|Hy]; [exact Hle|].
        specialize (Hafter y Hy). lra.
    + injection Hsort as <- <-.
      assert (Hlt : (started m.2 < started a.2)%Q).
      { apply Qnot_le_lt. intros Hc. apply Qle_bool_iff in Hc. congruence. }
      exists (a :: l1), l2. split; [reflexivity|].
      split; [|exact Hafter].
      intros y Hy. apply elem_of_cons in Hy as [->|Hy]; [exact Hlt|].
      apply Hbefore, Hy.
Qed.

Lemma filter_split {A} (P : A → Prop) `{∀ x, Decision (P x)} (l f1 f2 : list A) (x : A) :
  filter P l = f1 ++ x :: f2 →
  ∃ l1 l2, l = l1 ++ x :: l2 ∧ filter P l1 = f1 ∧ filter P l2 = f2 ∧ P x.
Proof.
  revert f1. induction l as [|a l IH]; intros f1 Hf.
  - destruct f1; discriminate.
  - destruct (decide (P a)) as [Ha|Ha].
    + rewrite filter_cons_True in Hf by exact Ha.
      destruct f1 as [|b f1]; simpl in Hf.
      * injection Hf as -> <-. exists [], l.
        split; [reflexivity|]. split; [reflexivity|]. split; [reflexivity|exact Ha].
      * injection Hf as <- Hf. destruct (IH f1 Hf) as (l1 & l2 & -> & <- & <- & Hx).
        exists (a :: l1), l2. split; [reflexivity|].
        split; [apply filter_cons_True, Ha|]. split; [reflexivity|exact Hx].
    + rewrite filter_cons_False in Hf by exact Ha.
      destruct (IH f1 Hf) as (l1 & l2 & -> & <- & <- & Hx).
      exists (a :: l1), l2. split; [reflexivity|].
      split; [apply filter_cons_False, Ha|]. split; [reflexivity|exact Hx].
Qed.

(** The head of the sorted qualifying sessions is the oldest qualifying one. *)
Lemma sorted_filter_head (P : string * session → Prop) `{∀ x, Decision (P x)}
    (table : list (string * session)) (sid : string) (s : session)
    (rest : list (string * session)) :
  sorted_by_started (filter P table) = (sid, s) :: rest →
  oldest_qualifying P table sid.
Proof.
  intros Hsort.
  destruct (sorted_head_split _ _ _ Hsort) as (f1 & f2 & Hf & Hbefore & Hafter).
  destruct (filter_split P table f1 f2 (sid, s) Hf) as (l1 & l2 & -> & <- & <- & Hx).
  exists l1, s, l2. split; [reflexivity|]. split; [exact Hx|].
  split; intros kv Hkv HP.
  - apply (Hbefore kv). apply list_elem_of_filter. split; assumption.
  - apply (Hafter kv). apply list_elem_of_filter. split; assumption.
Qed.

(** Insertion keeps a sorted list sorted, and filtering commutes with the
    stable sort. *)
Lemma elem_of_insert_by_started (x y : string * session) (l : list (string * session)) :
  x ∈ insert_by_started y l ↔ x = y ∨ x ∈ l.
Proof.
  induction l as [|z l IH]; simpl.
  - rewrite list_elem_of_singleton, elem_of_nil. tauto.
  - destruct (Qle_bool _ _).
    + rewrite elem_of_cons. tauto.
    + rewrite !elem_of_cons, IH. tauto.
Qed.

Lemma insert_by_started_sorted (x : string * session) (l : list (string * session)) :
  StronglySorted started_le l → StronglySorted started_le (insert_by_started x l).
Proof.
  induction l as [|y l IH]; intros Hs; simpl.
  - repeat constructor.
  - apply StronglySorted_inv in Hs as [Hl Hy].
    destruct (Qle_bool (started x.2) (started y.2)) eqn:Hle.
    + apply Qle_bool_iff in Hle. constructor.
      * constructor; assumption.
      * constructor; [exact Hle|].
        apply Forall_forall. intros z Hz. rewrite Forall_forall in Hy.
        specialize (Hy z Hz). unfold started_le in *. lra.
    + assert (Hlt : (started y.2 < started x.2)%Q).
      { apply Qnot_le_lt. intros Hc. apply Qle_bool_iff in Hc. congruence. }
      constructor; [apply IH, Hl|].
      apply Forall_forall. intros z Hz. apply elem_of_insert_by_started in Hz as [->|Hz].
      * unfold started_le. lra.
      * rewrite Forall_forall in Hy. apply Hy, Hz.
Qed.

Lemma sorted_by_started_sorted (l : list (string * session)) :
  StronglySorted started_le (sorted_by_started l).
Proof.
  induction l as [|x l IH]; simpl; [constructor|].
  apply insert_by_started_sorted, IH.
Qed.

Lemma insert_below_all (x : string * session) (l : list (string * session)) :
  Forall (started_le x) l → insert_by_started x l = x :: l.
Proof.
  destruct l as [|y l]; [reflexivity|]. intros Hall. simpl.
  apply Forall_cons in Hall as [Hxy _]. apply Qle_bool_iff in Hxy. rewrite Hxy. reflexivity.
Qed.

Lemma filter_insert_by_started (P : string * session → Prop) `{∀ x, Decision (P x)}
    (x : string * session) (l : list (string * session)) :
  StronglySorted started_le l →
  filter P (insert_by_started x l)
  = if decide (P x) then insert_by_started x (filter P l) else filter P l.
Proof.
  induction l as [|y l IH]; intros Hs.
  - simpl. destruct (decide (P x)) as [Hx|Hx].
    + rewrite filter_cons_True by exact Hx. reflexivity.
    + rewrite filter_cons_False by exact Hx. reflexivity.
  - apply StronglySorted_inv in Hs as [Hl Hy]. simpl.
    destruct (Qle_bool (started x.2) (started y.2)) eqn:Hle.
    + apply Qle_bool_iff in Hle.
      destruct (decide (P x)) as [Hx|Hx].
      * rewrite filter_cons_True by exact Hx. symmetry. apply insert_below_all.
        apply Forall_forall. intros z Hz. apply list_elem_of_filter in Hz as [_ Hz].
        apply elem_of_cons in Hz as [->|Hz]; [exact Hle|].
        rewrite Forall_forall in Hy. specialize (Hy z Hz). unfold started_le in *. lra.
      * rewrite filter_cons_False by exact Hx. reflexivity.
    + destruct (decide (P y)) as [Hpy|Hpy].
      * rewrite !filter_cons_True by exact Hpy. rewrite (IH Hl).
        destruct (decide (P x)); [|reflexivity]. simpl. rewrite Hle. reflexivity.
      * rewrite !filter_cons_False by exact Hpy. apply IH, Hl.
Qed.

Lemma filter_sorted_by_started (P : string * session → Prop) `{∀ x, Decision (P x)}
    (l : list (string * session)) :
  filter P (sorted_by_started l) = sorted_by_started (filter P l).
Proof.
  induction l as [|x l IH]; [reflexivity|]. simpl.
  rewrite filter_insert_by_started by apply sorted_by_started_sorted.
  destruct (decide (P x)) as [Hx|Hx].
  - rewrite filter_cons_True by exact Hx. simpl. rewrite IH. reflexivity.
  - rewrite filter_cons_False by exact Hx. exact IH.
Qed.


(** ** Admission control *)

Lemma dict_pop_absent {V} (k : string) (d : list (string * V)) :
  dict_get k d = None → dict_pop k d = d.
Proof.
  induction d as [|[k0 v0] d IH]; simpl; [reflexivity|].
  destruct (String.eqb k0 k); [discriminate|]. intros Hd. rewrite IH by exact Hd. reflexivity.
Qed.

Lemma forced_stop_sessions (h : host) (now : Q) (sid : string) (w : world) :
  _transcode_sessions (stop_session h now sid true w) = dict_pop sid (_transcode_sessions w).
Proof.
  unfold stop_session.
  destruct (dict_get sid (_transcode_sessions w)) as [s|] eqn:Hget.
  - simpl negb. cbv iota. simpl andb. cbv iota.
    destruct (kill_frame (process s) w) as (Hs & _).
    destruct (truthy (url s)); simpl; rewrite Hs; reflexivity.
  - symmetry. apply dict_pop_absent, Hget.
Qed.

Lemma source_reclaim_is_oldest (w : world) (user : string) (src : option string)
    (smax : Z) (sid : string) :
  check_source_limit w user src smax = Reclaim sid →
  oldest_qualifying (by_user_on_source user (default "" src)) (_transcode_sessions w) sid.
Proof.
  unfold check_source_limit, get_source_sessions.
  destruct (truthy_opt src && (0 <? smax)); [|discriminate].
  destruct (smax <=? _); [|discriminate].
  rewrite filter_sorted_by_started, list_filter_filter.
  destruct (sorted_by_started _) as [|[sid' s] rest] eqn:Hsort; [discriminate|].
  intros [= ->]. eapply sorted_filter_head. exact Hsort.
Qed.

Lemma user_victim_is_oldest (w : world) (user : string) (umax : Z) (sid : string) :
  user_limit_victim w user umax = Some sid →
  oldest_qualifying (by_user user) (_transcode_sessions w) sid.
Proof.
  unfold user_limit_victim, get_user_sessions.
  destruct (0 <? umax); [|discriminate].
  destruct (umax <=? _); [|discriminate].
  destruct (sorted_by_started _) as [|[sid' s] rest] eqn:Hsort; [discriminate|].
  intros [= ->]. eapply sorted_filter_head. exact Hsort.
Qed.

Lemma source_at_capacity (w : world) (user : string) (src : option string) (smax : Z) :
  truthy_opt src = true →
  0 < smax →
  smax ≤ Z.of_nat (length (filter (λ kv, source_id kv.2 = default "" src)
                             (_transcode_sessions w))) →
  (∀ kv, kv ∈ _transcode_sessions w → ¬ by_user_on_source user (default "" src) kv) →
  check_source_limit w user src smax = AtCapacity.
Proof.
  intros Hsrc Hmax Hfull Hnone. unfold check_source_limit, get_source_sessions.
  rewrite Hsrc. apply Z.ltb_lt in Hmax. rewrite Hmax. simpl.
  rewrite length_sorted_by_started. apply Z.leb_le in Hfull. rewrite Hfull.
  rewrite filter_sorted_by_started, list_filter_filter.
  assert (Hempty : filter (λ a, username a.2 = user ∧ source_id a.2 = default "" src)
                     (_transcode_sessions w) = []).
  { apply elem_of_nil_inv. intros kv Hin. apply list_elem_of_filter in Hin as [HP Hin].
    exact (Hnone kv Hin HP). }
  rewrite Hempty. reflexivity.
Qed.

Lemma two_sessions_oldest_first (sid1 sid2 : string) (s1 s2 : session) :
  (started s1 == 1)%Q → (started s2 == 2)%Q →
  sorted_by_started [(sid1, s1); (sid2, s2)] = [(sid1, s1); (sid2, s2)]
  ∧ sorted_by_started [(sid2, s2); (sid1, s1)] = [(sid1, s1); (sid2, s2)].
Proof.
  intros H1 H2. unfold sorted_by_started. simpl.
  assert (Hle : Qle_bool (started s1) (started s2) = true).
  { apply Qle_bool_iff. rewrite H1, H2. discriminate. }
  assert (Hgt : Qle_bool (started s2) (started s1) = false).
  { destruct (Qle_bool (started s2) (started s1)) eqn:E; [|reflexivity].
    apply Qle_bool_iff in E. rewrite H1, H2 in E. exfalso. apply E. reflexivity. }
  rewrite Hle, Hgt. split; reflexivity.
Qed.

(** C2. Whatever [enforce_stream_limits] stops is the caller's oldest
    qualifying session: for the source cap, the oldest (smallest [started],
    ties by insertion order) of the caller's sessions on that source; for
    the user cap, the oldest of the caller's sessions that remain. Exactly
    the stopped sessions leave the table. When the source cap is reached and
    the caller owns no session on the source, admission is refused with the
    capacity error and nothing changes. With a user cap of 1 and two
    sessions of the caller started at 1 and 2, the one started at 1 is
    stopped. *)
Theorem eviction_targets_oldest (h : host) (now : Q) (user : string)
    (src : option string) (umax smax : Z) (w : world) :
  let out := enforce_stream_limits h now user src umax smax w in
  let w1 := stop_if h now (lo_source_stopped out) w in
  (∀ sid, lo_source_stopped out = Some sid →
     oldest_qualifying (by_user_on_source user (default "" src)) (_transcode_sessions w) sid)
  ∧ (∀ sid, lo_user_stopped out = Some sid →
       oldest_qualifying (by_user user) (_transcode_sessions w1) sid)
  ∧ (lo_error out = None →
       lo_world out = stop_if h now (lo_user_stopped out) w1
       ∧ _transcode_sessions (lo_world out)
         = without_stopped (lo_user_stopped out)
             (without_stopped (lo_source_stopped out) (_transcode_sessions w)))
  ∧ (truthy_opt src = true →
     0 < smax →
     smax ≤ Z.of_nat (length (filter (λ kv, source_id kv.2 = default "" src)
                                (_transcode_sessions w))) →
     (∀ kv, kv ∈ _transcode_sessions w → ¬ by_user_on_source user (default "" src) kv) →
     lo_error out = Some ("Source at capacity (" +:+ str smax +:+ " streams)")
     ∧ lo_source_stopped out = None ∧ lo_user_stopped out = None ∧ lo_world out = w)
  ∧ (∀ sid1 sid2 s1 s2,
       src = None → umax = 1 →
       _transcode_sessions w = [(sid1, s1); (sid2, s2)]
       ∨ _transcode_sessions w = [(sid2, s2); (sid1, s1)] →
       username s1 = user → username s2 = user →
       (started s1 == 1)%Q → (started s2 == 2)%Q →
       lo_source_stopped out = None ∧ lo_user_stopped out = Some sid1).
Proof.
  intros out w1. subst out w1. unfold enforce_stream_limits.
  split; [|split; [|split; [|split]]].
  - intros sid. destruct (check_source_limit w user src smax) eqn:Hc; simpl; try discriminate.
    intros [= ->]. eapply source_reclaim_is_oldest, Hc.
  - intros sid. destruct (check_source_limit w user src smax) eqn:Hc; simpl; try discriminate;
      apply user_victim_is_oldest.
  - destruct (check_source_limit w user src smax) eqn:Hc; simpl; try discriminate;
      intros _; (split; [reflexivity|]).
    + destruct (user_limit_victim w user umax); simpl; [apply forced_stop_sessions|reflexivity].
    + destruct (user_limit_victim _ user umax); simpl;
        rewrite ?forced_stop_sessions; reflexivity.
  - intros Hsrc Hmax Hfull Hnone.
    rewrite (source_at_capacity w user src smax Hsrc Hmax Hfull Hnone). simpl. tauto.
  - intros sid1 sid2 s1 s2 -> -> Htable Hu1 Hu2 Ht1 Ht2.
    unfold check_source_limit. simpl. split; [reflexivity|].
    unfold user_limit_victim, get_user_sessions. simpl.
    destruct (two_sessions_oldest_first sid1 sid2 s1 s2 Ht1 Ht2) as [Ha Hb].
    destruct Htable as [-> | ->].
    + rewrite filter_cons_True by exact Hu1. rewrite filter_cons_True by exact Hu2.
      rewrite filter_nil, Ha. reflexivity.
    + rewrite filter_cons_True by exact Hu2. rewrite filter_cons_True by exact Hu1.
      rewrite filter_nil, Hb. reflexivity.
Qed.

Lemma eviction_targets_oldest_witness :
  _transcode_sessions two_alice_sessions = [("s2", alice_session 2); ("s1", alice_session 1)]
  ∧ lo_user_stopped (enforce_stream_limits plain_host 50 "alice" None 1 0 two_alice_sessions)
    = Some "s1"
  ∧ oldest_qualifying (by_user "alice") (_transcode_sessions two_alice_sessions) "s1"
  ∧ (_transcode_sessions
       (lo_world (enforce_stream_limits plain_host 50 "alice" None 1 0 two_alice_sessions))).*1
    = ["s2"].
Proof.
  split; [reflexivity|].
  destruct (eviction_targets_oldest plain_host 50 "alice" None 1 0 two_alice_sessions)
    as (_ & Huser & Hworld & _ & Hexample).
  destruct (Hexample "s1" "s2" (alice_session 1) (alice_session 2)) as [Hsource Hstopped];
    [reflexivity|reflexivity|right; reflexivity|reflexivity|reflexivity|reflexivity
    |reflexivity|].
  split; [exact Hstopped|].
  split.
  - exact (Huser "s1" Hstopped).
  - destruct (Hworld eq_refl) as [_ Htable]. rewrite Htable, Hstopped, Hsource. reflexivity.
Defined.

(** ** The registry invariant *)

Lemma dict_get_pop_None {V} (k k' : string) (d : list (string * V)) :
  dict_get k' d = None → dict_get k' (dict_pop k d) = None.
Proof.
  induction d as [|[k0 v0] d IH]; simpl; [reflexivity|].
  destruct (String.eqb_spec k0 k') as [->|Hk']; [discriminate|].
  intros Hd. destruct (String.eqb_spec k0 k) as [->|Hk]; [exact Hd|].
  simpl. destruct (String.eqb_spec k0 k'); [contradiction|]. apply IH, Hd.
Qed.

(** *** The table stays a dict *)

Lemma dict_set_keys {V} (k k' : string) (v : V) (d : list (string * V)) :
  k' ∈ (dict_set k v d).*1 → k' = k ∨ k' ∈ d.*1.
Proof.
  induction d as [|[k0 v0] d IH]; simpl.
  - intros Hin. apply list_elem_of_singleton in Hin. left. exact Hin.
  - destruct (String.eqb_spec k0 k) as [->|Hne]; simpl; rewrite !elem_of_cons.
    + intros [->|Hin]; [left; reflexivity|right; right; exact Hin].
    + intros [->|Hin]; [right; left; reflexivity|].
      destruct (IH Hin) as [->|Hd]; [left; reflexivity|right; right; exact Hd].
Qed.

Lemma dict_pop_keys {V} (k k' : string) (d : list (string * V)) :
  k' ∈ (dict_pop k d).*1 → k' ∈ d.*1.
Proof.
  induction d as [|[k0 v0] d IH]; simpl; [auto|].
  destruct (String.eqb k0 k); simpl; rewrite !elem_of_cons; [auto|].
  intros [->|Hin]; [left; reflexivity|right; apply IH, Hin].
Qed.

Lemma dict_set_NoDup {V} (k : string) (v : V) (d : list (string * V)) :
  NoDup d.*1 → NoDup (dict_set k v d).*1.
Proof.
  induction d as [|[k0 v0] d IH]; simpl; intros Hnd; [apply NoDup_singleton|].
  apply NoDup_cons in Hnd as [Hnotin Hnd].
  destruct (String.eqb_spec k0 k) as [->|Hne]; simpl; apply NoDup_cons.
  - split; assumption.
  - split; [|apply IH, Hnd]. intros Hin.
    destruct (dict_set_keys _ _ _ _ Hin) as [->|Hd]; contradiction.
Qed.

Lemma dict_pop_NoDup {V} (k : string) (d : list (string * V)) :
  NoDup d.*1 → NoDup (dict_pop k d).*1.
Proof.
  induction d as [|[k0 v0] d IH]; simpl; intros Hnd; [exact Hnd|].
  apply NoDup_cons in Hnd as [Hnotin Hnd].
  destruct (String.eqb k0 k); [exact Hnd|]. simpl. apply NoDup_cons.
  split; [|apply IH, Hnd]. intros Hin. apply Hnotin, (dict_pop_keys k), Hin.
Qed.

(** *** The index stays tight *)

Lemma tight_sound (w : world) : registry_ok w → index_sound w.
Proof.
  intros (_ & Ht & _) u sid Hu. destruct (Ht u sid Hu) as (_ & s & Hs & _).
  exists s. exact Hs.
Qed.

(** Updating a session in place, its URL unchanged. *)
Lemma tight_update (table : list (string * session)) (index : gmap string string)
    (sid : string) (s s' : session) :
  dict_get sid table = Some s → url s' = url s →
  tight table index → tight (dict_set sid s' table) index.
Proof.
  intros Hget Hurl Ht u sid' Hu. destruct (Ht u sid' Hu) as (Htruthy & s0 & Hs0 & Hu0).
  split; [exact Htruthy|].
  destruct (decide (sid = sid')) as [<-|Hne].
  - exists s'. split; [apply dict_get_set_eq|]. congruence.
  - exists s0. split; [|exact Hu0]. rewrite dict_get_set_ne by exact Hne. exact Hs0.
Qed.

(** Dropping index entries. *)
Lemma tight_delete (table : list (string * session)) (index : gmap string string)
    (u : string) :
  tight table index → tight table (delete u index).
Proof.
  intros Ht u' sid Hu'. apply lookup_delete_Some in Hu' as [_ Hu']. apply Ht, Hu'.
Qed.

(** Removing a session together with the entry filed under its URL. *)
Lemma tight_pop (table : list (string * session)) (index : gmap string string)
    (sid : string) (s : session) :
  dict_get sid table = Some s →
  tight table index →
  tight (dict_pop sid table)
        (if truthy (url s) then delete (url s) index else index).
Proof.
  intros Hget Ht u sid' Hu.
  assert (Hold : index !! u = Some sid' ∧ (truthy (url s) = true → u ≠ url s)).
  { destruct (truthy (url s)).
    - apply lookup_delete_Some in Hu as [Hne Hu]. split; [exact Hu|]. intros _. congruence.
    - split; [exact Hu|discriminate]. }
  destruct Hold as [Hold Hne].
  destruct (Ht u sid' Hold) as (Htruthy & s0 & Hs0 & Hu0).
  split; [exact Htruthy|]. exists s0. split; [|exact Hu0].
  destruct (decide (sid = sid')) as [<-|Hsid].
  - exfalso. assert (s0 = s) as -> by congruence.
    apply Hne; [|symmetry; exact Hu0]. rewrite Hu0. exact Htruthy.
  - rewrite dict_get_pop_ne by exact Hsid. exact Hs0.
Qed.

(** Removing a session together with the entry under the URL it is filed
    under. *)
Lemma tight_pop_filed (table : list (string * session)) (index : gmap string string)
    (sid u : string) :
  filed_under sid u table →
  tight table index → tight (dict_pop sid table) (delete u index).
Proof.
  intros Hfiled Ht u' sid' Hu. apply lookup_delete_Some in Hu as [Hne Hu].
  destruct (Ht u' sid' Hu) as (Htr & s0 & Hs0 & Hu0). split; [exact Htr|].
  exists s0. split; [|exact Hu0].
  rewrite dict_get_pop_ne; [exact Hs0|]. intros <-.
  apply Hne. rewrite <- Hu0. symmetry. apply Hfiled, Hs0.
Qed.

(** Registering a session under a new id and filing it under its URL. *)
Lemma tight_register (table : list (string * session)) (index : gmap string string)
    (sid : string) (s : session) :
  dict_get sid table = None → truthy (url s) = true →
  tight table index →
  tight (dict_set sid s table) (<[url s := sid]> index).
Proof.
  intros Hnew Htruthy Ht u sid' Hu.
  apply lookup_insert_Some in Hu as [[<- <-]|[Hne Hu]].
  - split; [exact Htruthy|]. exists s. split; [apply dict_get_set_eq|reflexivity].
  - destruct (Ht u sid' Hu) as (Htr & s0 & Hs0 & Hu0). split; [exact Htr|].
    exists s0. split; [|exact Hu0].
    rewrite dict_get_set_ne; [exact Hs0|]. intros <-. congruence.
Qed.

(** Registering without touching the index. *)
Lemma tight_add (table : list (string * session)) (index : gmap string string)
    (sid : string) (s : session) :
  dict_get sid table = None →
  tight table index → tight (dict_set sid s table) index.
Proof.
  intros Hnew Ht u sid' Hu.
  destruct (Ht u sid' Hu) as (Htr & s0 & Hs0 & Hu0). split; [exact Htr|].
  exists s0. split; [|exact Hu0].
  rewrite dict_get_set_ne; [exact Hs0|]. intros <-. congruence.
Qed.

(** Filing an existing session under its own URL. *)
Lemma tight_refile (table : list (string * session)) (index : gmap string string)
    (sid : string) (s : session) :
  dict_get sid table = Some s → truthy (url s) = true →
  tight table index → tight table (<[url s := sid]> index).
Proof.
  intros Hget Htruthy Ht u sid' Hu.
  apply lookup_insert_Some in Hu as [[<- <-]|[Hne Hu]].
  - split; [exact Htruthy|]. exists s. split; [exact Hget|reflexivity].
  - apply Ht, Hu.
Qed.

(** *** Resume monitors keep watching the session they were started for *)

Lemma filed_update (table : list (string * session)) (sid sid' u : string)
    (s s' : session) :
  dict_get sid table = Some s → url s' = url s →
  filed_under sid' u table → filed_under sid' u (dict_set sid s' table).
Proof.
  intros Hget Hurl Hfiled s0. destruct (decide (sid = sid')) as [<-|Hne].
  - rewrite dict_get_set_eq. intros [= <-]. rewrite Hurl. apply Hfiled, Hget.
  - rewrite dict_get_set_ne by exact Hne. apply Hfiled.
Qed.

Lemma filed_pop (table : list (string * session)) (sid sid' u : string) :
  NoDup table.*1 →
  filed_under sid' u table → filed_under sid' u (dict_pop sid table).
Proof.
  intros Hnd Hfiled s0. destruct (decide (sid = sid')) as [<-|Hne].
  - rewrite dict_get_pop_eq by exact Hnd. discriminate.
  - rewrite dict_get_pop_ne by exact Hne. apply Hfiled.
Qed.

Lemma monitors_update (table : list (string * session)) (tasks : list task)
    (sid : string) (s s' : session) :
  dict_get sid table = Some s → url s' = url s →
  monitors_ok table tasks → monitors_ok (dict_set sid s' table) tasks.
Proof.
  intros Hget Hurl Hm pid sid' u Hin. eapply filed_update; eauto.
Qed.

Lemma monitors_pop (table : list (string * session)) (tasks : list task) (sid : string) :
  NoDup table.*1 →
  monitors_ok table tasks → monitors_ok (dict_pop sid table) tasks.
Proof. intros Hnd Hm pid sid' u Hin. apply filed_pop; eauto. Qed.

(** Registering a session nobody watches. *)
Lemma monitors_add (table : list (string * session)) (tasks : list task)
    (sid : string) (s : session) :
  (∀ pid u, MonitorResume pid sid u ∉ tasks) →
  monitors_ok table tasks → monitors_ok (dict_set sid s table) tasks.
Proof.
  intros Hfree Hm pid sid' u Hin s0. destruct (decide (sid = sid')) as [<-|Hne].
  - destruct (Hfree pid u Hin).
  - rewrite dict_get_set_ne by exact Hne. apply (Hm pid), Hin.
Qed.

Lemma monitors_spawn (table : list (string * session)) (tasks : list task) (t : task) :
  (∀ pid sid u, t = MonitorResume pid sid u → filed_under sid u table) →
  monitors_ok table tasks → monitors_ok table (tasks ++ [t]).
Proof.
  intros Ht Hm pid sid u Hin. apply elem_of_app in Hin as [Hin|Hin].
  - apply (Hm pid), Hin.
  - apply list_elem_of_singleton in Hin. apply (Ht pid). symmetry. exact Hin.
Qed.

Lemma elem_of_delete_task (i : nat) (t : task) (tasks : list task) :
  t ∈ delete i tasks → t ∈ tasks.
Proof.
  revert i. induction tasks as [|t0 tasks IH]; intros [|i]; simpl;
    rewrite ?elem_of_cons; auto.
  intros [->|Hin]; [left; reflexivity|right; apply (IH i), Hin].
Qed.

Lemma monitors_done (table : list (string * session)) (tasks : list task) (i : nat) :
  monitors_ok table tasks → monitors_ok table (delete i tasks).
Proof. intros Hm pid sid u Hin. apply (Hm pid), (elem_of_delete_task i), Hin. Qed.

(** *** Steps that keep the invariant *)

Lemma evolves_refl (w : world) : evolves w w.
Proof. split; auto. Qed.

Lemma evolves_trans (w1 w2 w3 : world) : evolves w1 w2 → evolves w2 w3 → evolves w1 w3.
Proof. intros [H1 F1] [H2 F2]. split; auto. Qed.

Lemma evolves_same (w w' : world) :
  _transcode_sessions w' = _transcode_sessions w →
  _url_to_session w' = _url_to_session w →
  _background_tasks w' = _background_tasks w →
  evolves w w'.
Proof.
  intros Hs Hi Ht. unfold evolves, registry_ok, unused_id. rewrite Hs, Hi, Ht. auto.
Qed.

Lemma evolves_kill (p : process_handle) (w : world) : evolves w (_kill_process p w).2.
Proof.
  destruct (kill_frame p w) as (Hs & Hi & _ & _ & _ & Ht). apply evolves_same; assumption.
Qed.

Lemma evolves_after_wait (pid : nat) (o : wait_outcome) (w : world) :
  evolves w (after_wait pid o w).
Proof.
  destruct (after_wait_frame pid o w) as (Hs & Hi & _ & _ & _ & _ & Ht).
  apply evolves_same; assumption.
Qed.

Lemma evolves_delete (u : string) (w : world) :
  evolves w (with_index (delete u (_url_to_session w)) w).
Proof.
  split; [|auto]. intros (Hnd & Ht & Hm). split; [exact Hnd|].
  split; [apply tight_delete, Ht|exact Hm].
Qed.

Lemma evolves_update (sid : string) (s s' : session) (w : world) :
  dict_get sid (_transcode_sessions w) = Some s → url s' = url s →
  evolves w (with_sessions (dict_set sid s' (_transcode_sessions w)) w).
Proof.
  intros Hget Hurl. split.
  - intros (Hnd & Ht & Hm). split; [apply dict_set_NoDup, Hnd|].
    split; [eapply tight_update; eassumption|eapply monitors_update; eassumption].
  - intros sid' [Hfree Hwatch]. split; [|exact Hwatch]. simpl.
    rewrite dict_get_set_ne; [exact Hfree|]. intros <-. congruence.
Qed.

(** A background task that is no resume monitor. *)
Lemma evolves_spawn_task (t : task) (w : world) :
  (∀ pid sid u, t ≠ MonitorResume pid sid u) →
  evolves w (_spawn_background_task t w).
Proof.
  intros Hother. split.
  - intros (Hnd & Ht & Hm). split; [exact Hnd|]. split; [exact Ht|].
    apply monitors_spawn; [|exact Hm]. intros pid sid u ->. destruct (Hother pid sid u eq_refl).
  - intros sid [Hfree Hwatch]. split; [exact Hfree|]. intros pid u Hin.
    apply elem_of_app in Hin as [Hin|Hin]; [apply (Hwatch pid u), Hin|].
    apply list_elem_of_singleton in Hin. apply (Hother pid sid u). symmetry. exact Hin.
Qed.

(** A resume monitor for a registered session, carrying the URL the session
    is filed under. *)
Lemma evolves_watch (pid : nat) (sid u : string) (w : world) :
  is_Some (dict_get sid (_transcode_sessions w)) →
  filed_under sid u (_transcode_sessions w) →
  evolves w (_spawn_background_task (MonitorResume pid sid u) w).
Proof.
  intros Hsome Hfiled. split.
  - intros (Hnd & Ht & Hm). split; [exact Hnd|]. split; [exact Ht|].
    apply monitors_spawn; [|exact Hm]. intros pid' sid' u' [= -> -> ->]. exact Hfiled.
  - intros sid' [Hfree Hwatch]. split; [exact Hfree|]. intros pid' u' Hin.
    apply elem_of_app in Hin as [Hin|Hin]; [apply (Hwatch pid' u'), Hin|].
    apply list_elem_of_singleton in Hin. injection Hin as -> -> ->.
    rewrite Hfree in Hsome. destruct Hsome as [? [=]].
Qed.

Lemma evolves_task_leaves (i : nat) (w : world) :
  evolves w (with_tasks (delete i (_background_tasks w)) w).
Proof.
  split.
  - intros (Hnd & Ht & Hm). split; [exact Hnd|]. split; [exact Ht|apply monitors_done, Hm].
  - intros sid [Hfree Hwatch]. split; [exact Hfree|]. intros pid u Hin.
    apply (Hwatch pid u), (elem_of_delete_task i), Hin.
Qed.

Lemma evolves_stop (h : host) (now : Q) (sid : string) (force : bool) (w : world) :
  evolves w (stop_session h now sid force w).
Proof.
  unfold stop_session.
  destruct (dict_get sid (_transcode_sessions w)) as [s|] eqn:Hget; [|apply evolves_refl].
  destruct (negb force && Qlt_bool (now - last_access s) 5); [apply evolves_refl|].
  eapply evolves_trans; [apply (evolves_kill (process s))|].
  destruct (kill_frame (process s) w) as (Hs & Hi & _).
  set (w1 := (_kill_process (process s) w).2) in *.
  assert (Hget1 : dict_get sid (_transcode_sessions w1) = Some s) by (rewrite Hs; exact Hget).
  destruct (negb force && (0 <? cache_timeout_of h s)).
  - apply (evolves_update sid s); [exact Hget1|reflexivity].
  - split.
    + intros (Hnd & Ht & Hm).
      pose proof (tight_pop _ _ sid s Hget1 Ht) as Hpop.
      pose proof (dict_pop_NoDup sid _ Hnd) as Hnd'.
      pose proof (monitors_pop _ _ sid Hnd Hm) as Hm'.
      destruct (truthy (url s)); simpl; (split; [exact Hnd'|split; [exact Hpop|exact Hm']]).
    + intros sid' [Hfree Hwatch].
      destruct (truthy (url s)); simpl;
        (split; [apply dict_get_pop_None, Hfree|exact Hwatch]).
Qed.

Lemma evolves_stop_if (h : host) (now : Q) (victim : option string) (w : world) :
  evolves w (stop_if h now victim w).
Proof. destruct victim; [apply evolves_stop|apply evolves_refl]. Qed.

Lemma evolves_admit (h : host) (now : Q) (user : string) (src : option string)
    (umax smax : Z) (w : world) :
  evolves w (lo_world (enforce_stream_limits h now user src umax smax w)).
Proof.
  unfold enforce_stream_limits.
  destruct (check_source_limit w user src smax); simpl.
  - apply evolves_stop_if.
  - eapply evolves_trans; [apply evolves_stop|apply evolves_stop_if].
  - apply evolves_refl.
Qed.

Lemma evolves_foldl_stop (h : host) (now : Q) (ids : list string) (w : world) :
  evolves w (foldl (λ w sid, stop_session h now sid true w) w ids).
Proof.
  revert w. induction ids as [|sid ids IH]; intros w; simpl; [apply evolves_refl|].
  eapply evolves_trans; [apply evolves_stop|apply IH].
Qed.

Lemma evolves_cleanup_expired (h : host) (now : Q) (w : world) :
  evolves w (cleanup_expired_sessions h now w).
Proof. apply evolves_foldl_stop. Qed.

(** *** Seek keeps the invariant *)

Lemma evolves_regenerate (output_dir : string) (n : Z) (w : world) :
  evolves w (_regenerate_playlist output_dir n w).
Proof.
  unfold _regenerate_playlist. destruct (dirs w !! output_dir); apply evolves_same; reflexivity.
Qed.

Lemma evolves_persist (output_dir : string) (t : Q) (w : world) :
  evolves w (persist_seek_offset output_dir t w).
Proof.
  unfold persist_seek_offset.
  destruct (dirs w !! output_dir) as [d|]; [|apply evolves_refl].
  destruct (d_session_json d) as [[info|]|]; apply evolves_same; reflexivity.
Qed.

Lemma evolves_spawn (pid : nat) (cmd : list arg) (w : world) : evolves w (spawn pid cmd w).
Proof. apply evolves_same; reflexivity. Qed.

Lemma evolves_update_seek (sid : string) (s : session) (p : process_handle) (t : Q)
    (w : world) :
  dict_get sid (_transcode_sessions w) = Some s →
  evolves w (_update_seek_session sid (url s) p t w).2.
Proof.
  intros Hget. unfold _update_seek_session. rewrite Hget.
  set (s' := set_seek_offset t (set_process p s)).
  eapply evolves_trans; [apply (evolves_update sid s s' w Hget); reflexivity|].
  simpl. destruct (truthy (url s)) eqn:Htruthy; [|apply evolves_refl].
  split; [|auto]. intros (Hnd & Ht & Hm). split; [exact Hnd|]. split; [|exact Hm].
  simpl. change (url s) with (url s').
  apply tight_refile; [apply dict_get_set_eq|exact Htruthy|exact Ht].
Qed.

Lemma evolves_seek_prepare (h : host) (now : Q) (info : session) (n : Z) (w : world) :
  evolves w (seek_prepare h now info n w).2.
Proof.
  destruct (seek_prepare_frame h now info n w) as (Hs & Hi & _ & _ & Ht).
  apply evolves_same; assumption.
Qed.

Lemma evolves_seek (h : host) (now : Q) (env : seek_env) (sid : string) (t : Q) (w : world) :
  evolves w (seek_transcode h now env sid t w).2.
Proof.
  unfold seek_transcode.
  destruct (dict_get sid (_transcode_sessions w)) as [s|] eqn:Hget; [|apply evolves_refl].
  destruct (negb (is_vod s)); [apply evolves_refl|].
  set (n := int_of_float _).
  destruct (segment_materialized w (dir s) n).
  - unfold smart_seek. simpl.
    eapply evolves_trans; [|apply evolves_regenerate].
    apply (evolves_update sid s); [exact Hget|reflexivity].
  - pose proof (evolves_seek_prepare h now s n w) as Hprep.
    pose proof (seek_prepare_frame h now s n w) as (Hs & _).
    destruct (seek_prepare h now s n w) as [media_info w3]. simpl in Hprep, Hs.
    destruct (seek_command h s media_info t n) as [cmd|e]; [|exact Hprep].
    eapply evolves_trans; [exact Hprep|].
    unfold seek_respawn.
    assert (Hget4 : dict_get sid (_transcode_sessions (spawn (sk_pid env) cmd w3)) = Some s).
    { simpl. rewrite Hs. exact Hget. }
    pose proof (evolves_update_seek sid s (Process (sk_pid env)) t _ Hget4) as Hupd.
    destruct (_update_seek_session sid (url s) (Process (sk_pid env)) t
                (spawn (sk_pid env) cmd w3)) as [updated w5].
    simpl in Hupd.
    eapply evolves_trans; [apply evolves_spawn|].
    eapply evolves_trans; [exact Hupd|].
    destruct (negb updated).
    + apply evolves_kill.
    + assert (Hrest : evolves w5
                (_spawn_background_task (MonitorSeek (sk_pid env) sid)
                   (persist_seek_offset (dir s) t w5))).
      { eapply evolves_trans; [apply evolves_persist|].
        apply evolves_spawn_task. discriminate. }
      destruct (negb (wo_ready (sk_wait env))); simpl;
        (eapply evolves_trans; [exact Hrest|apply evolves_after_wait]).
Qed.

(** *** The end of a background task keeps the invariant *)

Lemma evolves_record_exit (pid : nat) (rc : Z) (w : world) : evolves w (record_exit pid rc w).
Proof.
  unfold record_exit. destruct (procs w !! pid) as [[]|]; apply evolves_same; reflexivity.
Qed.

Lemma record_exit_sessions (pid : nat) (rc : Z) (w : world) :
  _transcode_sessions (record_exit pid rc w) = _transcode_sessions w.
Proof. unfold record_exit. destruct (procs w !! pid) as [[]|]; reflexivity. Qed.

Lemma evolves_rmtree (d : string) (w : world) : evolves w (rmtree d w).
Proof. apply evolves_same; reflexivity. Qed.

(** The clean-up of a resume monitor whose URL is the one its session is
    filed under. *)
Lemma monitor_keeps_registry (pid : nat) (rc : Z) (elapsed : Q) (sid url_ : string)
    (w : world) :
  filed_under sid url_ (_transcode_sessions w) →
  registry_ok w → registry_ok (_monitor_resume_ffmpeg pid rc elapsed sid url_ w).
Proof.
  intros Hfiled Hok. unfold _monitor_resume_ffmpeg.
  pose proof (proj1 (evolves_record_exit pid rc w) Hok) as Hok0.
  pose proof (record_exit_sessions pid rc w) as Hs.
  set (w0 := record_exit pid rc w) in *.
  destruct (negb (rc =? 0)); [|exact Hok0].
  destruct (Qlt_bool elapsed _QUICK_FAILURE_THRESHOLD_SEC); [|exact Hok0].
  cbv zeta. simpl _transcode_sessions. simpl _url_to_session.
  destruct Hok0 as (Hnd & Ht & Hm).
  assert (Hpop : registry_ok
            (with_sessions (dict_pop sid (_transcode_sessions w0))
               (with_index (delete url_ (_url_to_session w0)) w0))).
  { split; [apply dict_pop_NoDup, Hnd|]. split.
    - apply tight_pop_filed; [rewrite Hs; exact Hfiled|exact Ht].
    - apply monitors_pop; assumption. }
  destruct (dict_get sid (_transcode_sessions w0)); [|exact Hpop].
  apply (proj1 (evolves_rmtree _ _)), Hpop.
Qed.

Lemma monitor_keeps_unused (pid : nat) (rc : Z) (elapsed : Q) (sid url_ sid' : string)
    (w : world) :
  unused_id sid' w → unused_id sid' (_monitor_resume_ffmpeg pid rc elapsed sid url_ w).
Proof.
  intros Hfree. unfold _monitor_resume_ffmpeg.
  pose proof (proj2 (evolves_record_exit pid rc w) sid' Hfree) as Hfree0.
  set (w0 := record_exit pid rc w) in *.
  destruct (negb (rc =? 0)); [|exact Hfree0].
  destruct (Qlt_bool elapsed _QUICK_FAILURE_THRESHOLD_SEC); [|exact Hfree0].
  cbv zeta. simpl _transcode_sessions. simpl _url_to_session.
  destruct Hfree0 as [Hget Hwatch].
  destruct (dict_get sid (_transcode_sessions w0));
    (split; [apply dict_get_pop_None, Hget|exact Hwatch]).
Qed.

Lemma evolves_task_done (i : nat) (rc : Z) (elapsed : Q) (w : world) :
  evolves w (task_done i rc elapsed w).
Proof.
  unfold task_done.
  destruct (_background_tasks w !! i) as [t|] eqn:Hi; [|apply evolves_refl].
  pose proof (evolves_task_leaves i w) as [Hleave Hfree].
  destruct t as [pid sid|pid sid u|pid sid].
  - split; assumption.
  - split.
    + intros Hok. apply monitor_keeps_registry; [|apply Hleave, Hok].
      destruct Hok as (_ & _ & Hm). apply (Hm pid). eapply list_elem_of_lookup_2, Hi.
    + intros sid' Hsid'. apply monitor_keeps_unused, Hfree, Hsid'.
  - eapply evolves_trans; [split; eassumption|apply evolves_record_exit].
Qed.

(** *** The recovery sweep keeps the invariant *)

Lemma registry_register_recovered (path : string) (now mtime : Q) (info : session_info)
    (w : world) :
  unused_id (info_session_id info) w →
  truthy (info_url info) = true →
  registry_ok w → registry_ok (register_recovered path now mtime info w).
Proof.
  intros [Hnew Hwatch] Htruthy (Hnd & Ht & Hm). unfold register_recovered. cbv zeta.
  set (s := recovered_session path now mtime info).
  set (w1 := with_sessions _ w).
  assert (Hnd1 : NoDup (_transcode_sessions w1).*1) by apply dict_set_NoDup, Hnd.
  assert (Hm1 : monitors_ok (_transcode_sessions w1) (_background_tasks w1))
    by (apply monitors_add; assumption).
  assert (H1 : registry_ok w1).
  { split; [exact Hnd1|]. split; [|exact Hm1]. simpl. apply tight_add; assumption. }
  assert (Hclaim : registry_ok
            (with_index (<[info_url info := info_session_id info]> (_url_to_session w1)) w1)).
  { split; [exact Hnd1|]. split; [|exact Hm1]. simpl. change (info_url info) with (url s).
    apply tight_register; assumption. }
  destruct (_url_to_session w1 !! info_url info) as [existing_id|]; [|exact Hclaim].
  destruct (truthy existing_id); [|exact Hclaim].
  destruct (_ || _); [exact Hclaim|exact H1].
Qed.

Lemma registry_recover_dir (h : host) (now : Q) (w : world) (path : string) :
  (∀ d info, dirs w !! path = Some d → d_session_json d = Some (Some info) →
     unused_id (info_session_id info) w) →
  registry_ok w → registry_ok (recover_dir h now w path).
Proof.
  intros Hnew Ht. unfold recover_dir.
  destruct (dirs w !! path) as [d|] eqn:Hd; [|apply evolves_rmtree, Ht].
  destruct (d_session_json d) as [descriptor|] eqn:Hj; [|apply evolves_rmtree, Ht].
  destruct (Qlt_bool _ _); [apply evolves_rmtree, Ht|].
  destruct (sorted_glob SEG_PREFIX ".ts" d); [apply evolves_rmtree, Ht|].
  destruct descriptor as [info|]; [|apply evolves_rmtree, Ht].
  destruct (info_is_vod info && truthy (info_url info)) eqn:Hok; simpl negb; cbv iota;
    [|apply evolves_rmtree, Ht].
  apply andb_true_iff in Hok as [_ Htruthy].
  pose proof (registry_register_recovered path now (d_mtime d) info w
                (Hnew d info eq_refl Hj) Htruthy Ht) as Hreg.
  destruct (info_probe info); [|exact Hreg]. exact Hreg.
Qed.

Lemma registry_recover (h : host) (now : Q) (candidates : list string) (w : world) :
  distinct_descriptors h now candidates w →
  registry_ok w → registry_ok (cleanup_and_recover_sessions h now candidates w).
Proof.
  unfold cleanup_and_recover_sessions. revert w.
  induction candidates as [|path rest IH]; intros w Hd Ht; simpl; [exact Ht|].
  destruct Hd as [Hnew Hrest]. apply IH; [exact Hrest|].
  apply registry_recover_dir; assumption.
Qed.

(** *** Reuse of an existing session keeps the invariant *)

Lemma evolves_snapshot (now : Q) (sid : string) (w : world) :
  evolves w (_get_session_snapshot now sid w).2.
Proof.
  unfold _get_session_snapshot.
  destruct (dict_get sid (_transcode_sessions w)) as [s|] eqn:Hget; [|apply evolves_refl].
  apply (evolves_update sid s); [exact Hget|reflexivity].
Qed.

Lemma filed_snapshot (now : Q) (sid sid' u : string) (w : world) :
  filed_under sid' u (_transcode_sessions w) →
  filed_under sid' u (_transcode_sessions (_get_session_snapshot now sid w).2).
Proof.
  unfold _get_session_snapshot.
  destruct (dict_get sid (_transcode_sessions w)) as [s|] eqn:Hget; [|auto].
  apply (filed_update _ sid sid' u s); [exact Hget|reflexivity].
Qed.

Lemma evolves_update_process (sid : string) (p : process_handle) (w : world) :
  evolves w (_update_session_process sid p w).2.
Proof.
  unfold _update_session_process.
  destruct (dict_get sid (_transcode_sessions w)) as [s|] eqn:Hget; [|apply evolves_refl].
  apply (evolves_update sid s); [exact Hget|reflexivity].
Qed.

(** After a successful [_update_session_process] the session is there, filed
    as before. *)
Lemma update_process_filed (sid u : string) (p : process_handle) (w : world) :
  filed_under sid u (_transcode_sessions w) →
  (_update_session_process sid p w).1 = true →
  is_Some (dict_get sid (_transcode_sessions (_update_session_process sid p w).2))
  ∧ filed_under sid u (_transcode_sessions (_update_session_process sid p w).2).
Proof.
  unfold _update_session_process.
  destruct (dict_get sid (_transcode_sessions w)) as [s|] eqn:Hget; [|discriminate].
  intros Hfiled _. simpl. split.
  - rewrite dict_get_set_eq. eexists. reflexivity.
  - apply (filed_update _ sid sid u s); [exact Hget|reflexivity|exact Hfiled].
Qed.

Lemma evolves_resume_respawn (env : resume_env) (sid url_ : string)
    (snap : _SessionSnapshot) (cmd : list arg) (w : world) :
  filed_under sid url_ (_transcode_sessions w) →
  evolves w (resume_respawn env sid url_ snap cmd w).2.
Proof.
  intros Hfiled. unfold resume_respawn.
  eapply evolves_trans; [apply (evolves_spawn (re_pid env) cmd)|].
  pose proof (evolves_update_process sid (Process (re_pid env))
                (spawn (re_pid env) cmd w)) as Hupd.
  pose proof (update_process_filed sid url_ (Process (re_pid env))
                (spawn (re_pid env) cmd w) Hfiled) as Hafter.
  destruct (_update_session_process sid (Process (re_pid env)) (spawn (re_pid env) cmd w))
    as [updated w3]. simpl in Hupd, Hafter.
  eapply evolves_trans; [exact Hupd|].
  destruct updated; simpl negb; cbv iota; [|apply evolves_kill].
  destruct (Hafter eq_refl) as [Hsome Hfiled3].
  pose proof (evolves_watch (re_pid env) sid url_ w3 Hsome Hfiled3) as Hwatch.
  destruct (wo_exit (re_wait_segment env)); simpl.
  - eapply evolves_trans; [exact Hwatch|apply evolves_after_wait].
  - eapply evolves_trans; [exact Hwatch|].
    eapply evolves_trans; apply evolves_after_wait.
Qed.

Lemma evolves_with_probe (p : probe_state) (w : world) : evolves w (with_probe p w).
Proof. apply evolves_same; reflexivity. Qed.

Lemma evolves_resume_append (h : host) (now : Q) (env : resume_env)
    (sid url_ hw : string) (do_probe : bool) (max_res q : string)
    (snap : _SessionSnapshot) (count : nat) (w : world) :
  filed_under sid url_ (_transcode_sessions w) →
  evolves w (resume_append h now env sid url_ hw do_probe max_res q snap count w).2.
Proof.
  intros Hfiled. unfold resume_append.
  destruct (_calc_hls_duration _ _) as [hls_duration|e]; [|apply evolves_refl].
  assert (Hprobe : ∀ mw : option MediaInfo * world,
            mw = (if do_probe
                  then let '(r, p) := probe_media h now url_ None None "" (probe w) in
                       (r.1, with_probe p w)
                  else (None, w)) →
            evolves w mw.2 ∧ _transcode_sessions mw.2 = _transcode_sessions w).
  { intros mw ->. destruct do_probe; [|split; [apply evolves_refl|reflexivity]].
    destruct (probe_media _ _ _ _ _ _ _) as [r p].
    split; [apply evolves_with_probe|reflexivity]. }
  specialize (Hprobe _ eq_refl).
  destruct (if do_probe then _ else _) as [media_info w1]. simpl in Hprobe.
  destruct Hprobe as [Hprobe Hs].
  destruct (resume_command _ _ _ _ _ _ _ _ _) as [cmd|e]; [|exact Hprobe].
  eapply evolves_trans; [exact Hprobe|].
  apply evolves_resume_respawn. rewrite Hs. exact Hfiled.
Qed.

Lemma evolves_handle_existing (h : host) (now : Q) (env : resume_env)
    (sid url_ hw : string) (do_probe : bool) (max_res q : string) (w : world) :
  filed_under sid url_ (_transcode_sessions w) →
  evolves w (_handle_existing_vod_session h now env sid url_ hw do_probe max_res q w).2.
Proof.
  intros Hfiled. unfold _handle_existing_vod_session.
  pose proof (evolves_snapshot now sid w) as Hsnap.
  pose proof (filed_snapshot now sid sid url_ w Hfiled) as Hfiled0.
  destruct (_get_session_snapshot now sid w) as [[snap|] w0]; simpl in Hsnap, Hfiled0;
    [|exact Hsnap].
  eapply evolves_trans; [exact Hsnap|].
  destruct (returncode_is_None w0 (snap_process snap)).
  - simpl. destruct (process_pid (snap_process snap));
      [apply evolves_after_wait|apply evolves_refl].
  - destruct (segment_files w0 (snap_output_dir snap)) as [|seg segs].
    + simpl. eapply evolves_trans; [apply evolves_stop|apply evolves_delete].
    + destruct (Qlt_bool 0 (snap_seek_offset snap)); [apply evolves_refl|].
      apply evolves_resume_append, Hfiled0.
Qed.

Lemma evolves_try_reuse (h : host) (now : Q) (env : resume_env) (sid url_ : string)
    (is_vod_ : bool) (content_type : string) (w : world) :
  filed_under sid url_ (_transcode_sessions w) →
  evolves w (_try_reuse_session h now env sid url_ is_vod_ content_type w).2.
Proof.
  intros Hfiled. unfold _try_reuse_session.
  destruct is_vod_; [apply evolves_handle_existing, Hfiled|].
  pose proof (evolves_snapshot now sid w) as Hsnap.
  destruct (_get_session_snapshot now sid w) as [[snap|] w0]; exact Hsnap.
Qed.

Lemma evolves_start_reuse (h : host) (now : Q) (env : transcode_env)
    (url_ content_type : string) (existing_id : option string) (is_valid : bool)
    (w : world) :
  (∀ eid, existing_id = Some eid → filed_under eid url_ (_transcode_sessions w)) →
  evolves w (start_reuse h now env url_ content_type existing_id is_valid w).2.
Proof.
  intros Hfiled. unfold start_reuse. destruct existing_id as [eid|]; [|apply evolves_refl].
  destruct is_valid; [apply evolves_try_reuse, Hfiled; reflexivity|apply evolves_refl].
Qed.

Lemma evolves_cleanup_invalid (h : host) (now : Q) (url_ sid : string) (w : world) :
  evolves w (_cleanup_invalid_session h now url_ sid w).
Proof.
  unfold _cleanup_invalid_session.
  eapply evolves_trans; [apply evolves_delete|apply evolves_stop].
Qed.

(** The session [_get_existing_session] finds for a URL is filed under that
    URL. *)
Lemma existing_session_filed (h : host) (now : Q) (url_ eid : string) (w : world) :
  registry_ok w →
  (_get_existing_session h now url_ w).1.1 = Some eid →
  filed_under eid url_ (_transcode_sessions w).
Proof.
  intros (_ & Ht & _). unfold _get_existing_session.
  destruct (_url_to_session w !! url_) as [existing_id|] eqn:Hu; [|discriminate].
  destruct (negb (truthy existing_id)); [discriminate|].
  destruct (dict_get existing_id (_transcode_sessions w)) as [s|] eqn:Hget; [|discriminate].
  simpl. intros [= <-].
  destruct (Ht url_ existing_id Hu) as (_ & s0 & Hs0 & Hu0).
  intros s' Hs'. congruence.
Qed.

(** *** A fresh start keeps the invariant *)

Lemma evolves_registers (sid : string) (w w' : world) : evolves w w' → registers sid w w'.
Proof. intros [Ht Hf]. split; auto. Qed.

Lemma registers_then_evolves (sid : string) (w1 w2 w3 : world) :
  registers sid w1 w2 → evolves w2 w3 → registers sid w1 w3.
Proof. intros [H1 F1] [H2 F2]. split; auto. Qed.

Lemma evolves_then_registers (sid : string) (w1 w2 w3 : world) :
  evolves w1 w2 → (unused_id sid w2 → registers sid w2 w3) →
  unused_id sid w1 → registers sid w1 w3.
Proof.
  intros [H1 F1] H23 Hnew. destruct (H23 (F1 sid Hnew)) as [H2 F2]. split; auto.
Qed.

Lemma evolves_write_json (output_dir : string) (info : session_info) (w : world) :
  evolves w (write_session_json output_dir info w).
Proof.
  unfold write_session_json. destruct (dirs w !! output_dir); apply evolves_same; reflexivity.
Qed.

(** Registering a new session under a non-empty URL. *)
Lemma registers_new (sid : string) (s : session) (w : world) :
  truthy (url s) = true →
  unused_id sid w →
  registers sid w
    (with_index (<[url s := sid]> (_url_to_session w))
       (with_sessions (dict_set sid s (_transcode_sessions w)) w)).
Proof.
  intros Htruthy [Hnew Hwatch]. split.
  - intros (Hnd & Ht & Hm). split; [apply dict_set_NoDup, Hnd|]. split.
    + apply tight_register; assumption.
    + apply monitors_add; assumption.
  - intros sid' Hne [Hfree Hwatch']. split; [|exact Hwatch']. simpl.
    rewrite dict_get_set_ne by congruence. exact Hfree.
Qed.

Lemma registers_start_register (now : Q) (env : start_env) (url_ content_type : string)
    (series_id_ episode_id_ : option Z) (old_seek : Q) (user src : string)
    (media_info : option MediaInfo) (subs : list SubtitleStream) (cmd : list arg)
    (w : world) :
  truthy url_ = true →
  unused_id (se_session_id env) w →
  registers (se_session_id env) w
    (start_register now env url_ content_type series_id_ episode_id_ old_seek user src
       media_info subs cmd w).
Proof.
  intros Htruthy Hnew. unfold start_register. cbv zeta.
  set (w2 := _spawn_background_task _ (spawn (se_pid env) cmd w)).
  set (s := {| dir := se_output_dir env; url := url_ |}).
  assert (H2 : evolves w w2).
  { eapply evolves_trans; [apply evolves_spawn|]. apply evolves_spawn_task. discriminate. }
  set (w3 := with_index _ _).
  assert (H3 : registers (se_session_id env) w w3).
  { apply (evolves_then_registers _ w w2); [exact H2| |exact Hnew].
    intros Hnew2. apply (registers_new (se_session_id env) s w2); assumption. }
  destruct (is_vod_content content_type); [|exact H3].
  eapply registers_then_evolves; [exact H3|apply evolves_write_json].
Qed.

Lemma evolves_start_prepare (h : host) (now : Q) (env : start_env)
    (url_ content_type : string) (series_id_ episode_id_ : option Z) (series_name : string)
    (w : world) :
  evolves w
    (start_prepare h now env url_ content_type series_id_ episode_id_ series_name w).2.
Proof.
  unfold start_prepare. destruct (probe_setting_for content_type true _).
  - destruct (probe_media _ _ _ _ _ _ _) as [r p]. apply evolves_same; reflexivity.
  - apply evolves_same; reflexivity.
Qed.

Lemma evolves_start_await (h : host) (now : Q) (env : start_env) (old_seek : Q)
    (media_info : option MediaInfo) (subs : list SubtitleStream) (w : world) :
  evolves w (start_await h now env old_seek media_info subs w).2.
Proof.
  unfold start_await. destruct (negb (wo_ready (se_wait env))); simpl.
  - eapply evolves_trans; [apply evolves_after_wait|apply evolves_stop].
  - apply evolves_after_wait.
Qed.

Lemma registers_do_start (h : host) (now : Q) (env : start_env)
    (url_ content_type : string) (series_id_ episode_id_ : option Z) (old_seek : Q)
    (series_name : string) (deint : bool) (user src : string) (w : world) :
  truthy url_ = true →
  unused_id (se_session_id env) w →
  registers (se_session_id env) w
    (_do_start_transcode h now env url_ content_type series_id_ episode_id_ old_seek
       series_name deint user src w).2.
Proof.
  intros Htruthy Hnew. unfold _do_start_transcode.
  pose proof (evolves_start_prepare h now env url_ content_type series_id_ episode_id_
                series_name w) as Hprep.
  destruct (start_prepare _ _ _ _ _ _ _ _ _) as [[media_info subs] w1]. simpl in Hprep.
  destruct (start_command _ _ _ _ _ _ _ _) as [cmd|e].
  - apply (evolves_then_registers _ w w1); [exact Hprep| |exact Hnew].
    intros Hnew1.
    apply (registers_then_evolves _ w1
             (start_register now env url_ content_type series_id_ episode_id_ old_seek
                user src media_info subs cmd w1)).
    + apply registers_start_register; assumption.
    + apply evolves_start_await.
  - simpl. apply evolves_registers, Hprep.
Qed.

Lemma registry_start_fresh (h : host) (now : Q) (env : transcode_env)
    (url_ content_type : string) (series_id_ episode_id_ : option Z) (old_seek : Q)
    (series_name : string) (deint : bool) (user src : string) (w : world) :
  truthy url_ = true →
  unused_id (se_session_id (te_first env)) w →
  unused_id (se_session_id (te_retry env)) w →
  se_session_id (te_first env) ≠ se_session_id (te_retry env) →
  registry_ok w →
  registry_ok
    (so_world (start_fresh h now env url_ content_type series_id_ episode_id_ old_seek
                 series_name deint user src w)).
Proof.
  intros Htruthy Hnew1 Hnew2 Hne Ht. unfold start_fresh. cbv zeta.
  pose proof (registers_do_start h now (te_first env) url_ content_type series_id_
                episode_id_ old_seek series_name deint user src w Htruthy Hnew1)
    as [Hfirst Hfree].
  destruct (_do_start_transcode h now (te_first env) _ _ _ _ _ _ _ _ _ w) as [r w3].
  simpl in Hfirst, Hfree.
  destruct r as [resp|[msg|msg|c d]]; simpl; try (apply Hfirst, Ht).
  destruct series_id_ as [sid|]; simpl; [|apply Hfirst, Ht].
  set (w4 := with_probe _ w3).
  assert (Hnew4 : unused_id (se_session_id (te_retry env)) w4).
  { apply (Hfree _); [congruence|exact Hnew2]. }
  pose proof (registers_do_start h (now + se_elapsed (te_first env)) (te_retry env) url_
                content_type (Some sid) episode_id_ old_seek series_name deint user src w4
                Htruthy Hnew4) as [Hretry _].
  destruct (_do_start_transcode _ _ (te_retry env) _ _ _ _ _ _ _ _ _ w4) as [r' w5].
  simpl in *. apply Hretry, Hfirst, Ht.
Qed.

Lemma registry_start (h : host) (now : Q) (env : transcode_env)
    (url_ content_type : string) (series_id_ episode_id_ : option Z)
    (series_name : string) (deint : bool) (user src : string) (umax smax : Z) (w : world) :
  truthy url_ = true →
  unused_id (se_session_id (te_first env)) w →
  unused_id (se_session_id (te_retry env)) w →
  se_session_id (te_first env) ≠ se_session_id (te_retry env) →
  registry_ok w →
  registry_ok
    (so_world (start_transcode h now env url_ content_type series_id_ episode_id_
                 series_name deint user src umax smax w)).
Proof.
  intros Htruthy Hnew1 Hnew2 Hne Ht. unfold start_transcode. cbv zeta.
  assert (Hadmit : ∀ a, a = (if truthy user
                             then enforce_stream_limits h now user (Some src) umax smax w
                             else {| lo_error := None; lo_source_stopped := None;
                                     lo_user_stopped := None; lo_world := w |}) →
                        evolves w (lo_world a)).
  { intros a ->. destruct (truthy user); [apply evolves_admit|apply evolves_refl]. }
  specialize (Hadmit _ eq_refl).
  destruct (if truthy user then _ else _) as [err sv uv w0]. simpl in *.
  destruct err as [error|]; simpl; [apply Hadmit, Ht|].
  pose proof (λ eid, existing_session_filed h now url_ eid w0 (proj1 Hadmit Ht)) as Hfiled.
  destruct (_get_existing_session h now url_ w0) as [[existing_id is_valid] old_seek].
  simpl in Hfiled.
  pose proof (evolves_start_reuse h now env url_ content_type existing_id is_valid w0 Hfiled)
    as Hreuse.
  destruct (start_reuse h now env url_ content_type existing_id is_valid w0) as [r w1].
  simpl in Hreuse.
  pose proof (evolves_trans _ _ _ Hadmit Hreuse) as [H1 F1].
  destruct r as [[resp|]|e]; simpl; try (apply H1, Ht).
  assert (Hclean : ∀ w2, w2 = match existing_id with
                              | Some eid => _cleanup_invalid_session h now url_ eid w1
                              | None => w1
                              end → evolves w1 w2).
  { intros w2 ->. destruct existing_id; [apply evolves_cleanup_invalid|apply evolves_refl]. }
  specialize (Hclean _ eq_refl) as [H2 F2].
  apply registry_start_fresh; auto.
Qed.

Lemma reachable_registry_ok (h : host) (w : world) : reachable h w → registry_ok w.
Proof.
  induction 1 as [|w o Hreach IH Hok].
  - split; [apply NoDup_nil_2|]. split.
    + intros u sid Hu. unfold empty_world in Hu. simpl in Hu.
      rewrite lookup_empty in Hu. discriminate.
    + intros pid sid u Hin. apply elem_of_nil in Hin. destruct Hin.
  - destruct o; simpl in *.
    + destruct Hok as (Htruthy & Hnew1 & Hnew2 & Hne). apply registry_start; assumption.
    + apply evolves_stop, IH.
    + apply evolves_seek, IH.
    + apply evolves_task_done, IH.
    + apply evolves_admit, IH.
    + apply registry_recover; assumption.
    + apply evolves_cleanup_expired, IH.
Qed.

(** C1, with its proviso. Starting from the empty registry, after any
    sequence of starts (fresh or reusing), stops, seeks, ends of background
    tasks (among them the resume monitor's clean-up), admission evictions,
    recovery sweeps and expiry clean-ups, every URL index entry names a
    session that is in the table, provided source URLs are never empty and
    session ids are never reused. *)
Theorem index_never_dangles (h : host) (w : world) : reachable h w → index_sound w.
Proof. intros Hreach. apply tight_sound, (reachable_registry_ok h), Hreach. Qed.

Lemma index_never_dangles_witness :
  reachable plain_host
    (run_op plain_host (OpStop 1040 "s1" true)
       (run_op plain_host
          (OpStart 1000 failing_transcode "http://live/ch1" "live" None None "" true
             "alice" "" 0 0)
          empty_world))
  ∧ index_sound
      (run_op plain_host (OpStop 1040 "s1" true)
         (run_op plain_host
            (OpStart 1000 failing_transcode "http://live/ch1" "live" None None "" true
               "alice" "" 0 0)
            empty_world)).
Proof.
  assert (Hreach : reachable plain_host
    (run_op plain_host (OpStop 1040 "s1" true)
       (run_op plain_host
          (OpStart 1000 failing_transcode "http://live/ch1" "live" None None "" true
             "alice" "" 0 0)
          empty_world))).
  { apply reach_step; [|exact I].
    apply reach_step; [apply reach_empty|].
    assert (Hfree : ∀ sid, unused_id sid empty_world).
    { intros sid. split; [reflexivity|]. intros pid u Hin. apply elem_of_nil in Hin.
      destruct Hin. }
    split; [reflexivity|]. split; [apply Hfree|]. split; [apply Hfree|]. discriminate. }
  split; [exact Hreach|].
  apply (index_never_dangles plain_host). exact Hreach.
Defined.

(** The specification's statement has no proviso. A start with the empty
    string as URL registers a session and files it under the empty string;
    the forced stop of that session removes it from the table, but
    [stop_session] prunes the index only [if url:], so the entry stays and
    names a session that is gone. *)
Lemma empty_url_leaves_dangling_entry :
  let w := run_op plain_host (OpStop 1040 "s1" true)
             (run_op plain_host empty_url_start empty_world) in
  _url_to_session w !! "" = Some "s1"
  ∧ dict_get "s1" (_transcode_sessions w) = None
  ∧ ¬ index_sound w.
Proof.
  split; [reflexivity|]. split; [reflexivity|].
  intros Hsound. destruct (Hsound "" "s1" eq_refl) as [s Hs]. discriminate Hs.
Qed.

(** ** The pipeline planner *)

Lemma append_cons (c : ascii) (s t : string) : String c s +:+ t = String c (s +:+ t).
Proof. reflexivity. Qed.

Lemma contains_plus_cons (c : ascii) (s : string) :
  contains "+" (String c s) = Ascii.eqb c "+" || contains "+" s.
Proof.
  change (contains "+" (String c s))
    with ((if ascii_dec "+" c then String.prefix "" s else false) || contains "+" s).
  destruct (ascii_dec "+" c) as [<-|Hne].
  - destruct s; reflexivity.
  - destruct (Ascii.eqb_spec c "+"%char) as [->|_]; [contradiction|reflexivity].
Qed.

(** [_parse_hw] splits at the first plus sign: an encoder name that holds
    none is recovered together with everything after the sign, and a policy
    without a plus sign falls back to software. *)
Theorem parse_hw_splits_at_first_plus (enc fallback : string) :
  contains "+" enc = false →
  _parse_hw (enc +:+ "+" +:+ fallback) = (enc, fallback)
  ∧ _parse_hw enc = (enc, "software").
Proof.
  intros Hnone. unfold _parse_hw. rewrite Hnone. split; [|reflexivity].
  assert (Hhas : contains "+" (enc +:+ "+" +:+ fallback) = true).
  { clear Hnone. induction enc as [|c enc IH].
    - change ("" +:+ "+" +:+ fallback) with (String "+" fallback).
      rewrite contains_plus_cons. reflexivity.
    - rewrite append_cons, contains_plus_cons, IH. apply orb_true_r. }
  rewrite Hhas. clear Hhas. induction enc as [|c enc IH].
  - change ("" +:+ "+" +:+ fallback) with (String "+" fallback). reflexivity.
  - rewrite contains_plus_cons in Hnone. apply orb_false_iff in Hnone as [Hc Hrest].
    rewrite append_cons. simpl. rewrite Hc, (IH Hrest). reflexivity.
Qed.

Lemma parse_hw_splits_at_first_plus_witness :
  contains "+" "nvenc" = false
  ∧ _parse_hw "nvenc+vaapi" = ("nvenc", "vaapi")
  ∧ _parse_hw "nvenc" = ("nvenc", "software").
Proof.
  split; [reflexivity|]. apply (parse_hw_splits_at_first_plus "nvenc" "vaapi"). reflexivity.
Defined.

Lemma int_of_float_inject (n : Z) : 0 ≤ n → int_of_float (inject_Z n) = n.
Proof.
  intros Hn. unfold int_of_float.
  assert (H : Qlt_bool (inject_Z n) 0 = false).
  { apply Qlt_bool_false_iff. change 0%Q with (inject_Z 0). rewrite <- Zle_Qle. exact Hn. }
  rewrite H. apply Qfloor_Z.
Qed.

(** The live playlist window: ten segments when DVR is off (no setting, or
    a setting of zero or less), twenty segments per DVR minute otherwise; it
    is never shorter than ten segments. *)
Theorem live_list_size_by_dvr_minutes (h : host) :
  let dvr_mins := default 0 (live_dvr_mins (settings h)) in
  get_live_hls_list_size h = (if dvr_mins <=? 0 then 10 else 20 * dvr_mins)
  ∧ 10 ≤ get_live_hls_list_size h.
Proof.
  intros dvr_mins. unfold get_live_hls_list_size. fold dvr_mins.
  destruct (Z.leb_spec dvr_mins 0) as [Hle|Hgt].
  - split; [reflexivity|]. vm_compute. discriminate.
  - assert (Heq : (inject_Z dvr_mins * 60 / _HLS_SEGMENT_DURATION_SEC
                   == inject_Z (20 * dvr_mins))%Q).
    { unfold _HLS_SEGMENT_DURATION_SEC. rewrite inject_Z_mult. field. }
    assert (Hval : int_of_float (inject_Z dvr_mins * 60 / _HLS_SEGMENT_DURATION_SEC)
                   = 20 * dvr_mins).
    { rewrite <- (int_of_float_inject (20 * dvr_mins)) by lia.
      unfold int_of_float.
      assert (Hlt : ∀ a b : Q, (a == b)%Q → Qlt_bool a 0 = Qlt_bool b 0).
      { intros a b Hab. unfold Qlt_bool. f_equal.
        destruct (Qle_bool 0 a) eqn:Ha, (Qle_bool 0 b) eqn:Hb; try reflexivity.
        - apply Qle_bool_iff in Ha. rewrite Hab in Ha. apply Qle_bool_iff in Ha. congruence.
        - apply Qle_bool_iff in Hb. rewrite <- Hab in Hb. apply Qle_bool_iff in Hb. congruence. }
      rewrite (Hlt _ _ Heq).
      destruct (Qlt_bool _ 0); [apply Qceiling_comp, Heq|apply Qfloor_comp, Heq]. }
    rewrite Hval. split; [reflexivity|lia].
Qed.

Lemma video_args_by_encoder (h : host) (hw : string) (deinterlace use_hw_pipeline : bool)
    (max_res q : string) (hdr : bool) :
  (requires_vaapi hw → truthy_opt (VAAPI_DEVICE h) = true) →
  if known_encoder (_parse_hw hw).1
  then ∃ pre post,
         _build_video_args h false hw deinterlace use_hw_pipeline max_res q hdr
         = Ok (pre, post)
  else _build_video_args h false hw deinterlace use_hw_pipeline max_res q hdr
       = Raise (ValueError ("Unrecognized hardware encoder: '" +:+ (_parse_hw hw).1 +:+ "'.")).
Proof.
  intros Hdev. unfold _build_video_args, requires_vaapi, known_encoder, str_in in *.
  destruct (_parse_hw hw) as [enc fb]. simpl fst in *. simpl snd in *.
  assert (Hguard : (String.eqb enc "vaapi" || String.eqb fb "vaapi")
                   && negb (truthy_opt (VAAPI_DEVICE h)) = false).
  { destruct (String.eqb_spec enc "vaapi") as [He|He];
      [rewrite Hdev by (left; exact He); reflexivity|].
    destruct (String.eqb_spec fb "vaapi") as [Hf|Hf];
      [rewrite Hdev by (right; exact Hf); reflexivity|reflexivity]. }
  rewrite Hguard. cbv zeta. simpl existsb.
  destruct (String.eqb enc "nvenc") eqn:E1.
  { simpl. match goal with |- context [let '(_, _) := ?x in _] => destruct x end.
    eexists _, _. reflexivity. }
  destruct (String.eqb enc "amf") eqn:E2.
  { simpl. match goal with |- context [let '(_, _) := ?x in _] => destruct x end.
    eexists _, _. reflexivity. }
  destruct (String.eqb enc "vaapi") eqn:E3.
  { simpl. match goal with |- context [let '(_, _) := ?x in _] => destruct x end.
    eexists _, _. reflexivity. }
  destruct (String.eqb enc "qsv") eqn:E4.
  { simpl. match goal with |- context [let '(_, _) := ?x in _] => destruct x end.
    eexists _, _. reflexivity. }
  destruct (String.eqb enc "software") eqn:E5.
  { simpl. eexists _, _. reflexivity. }
  simpl. reflexivity.
Qed.

(** How planning ends. A source that can be stream-copied is always planned.
    Otherwise, when the policy's VAAPI requirement (if it has one) is met,
    planning succeeds for the encoders [nvenc], [amf], [vaapi], [qsv] and
    [software], and any other encoder name raises [ValueError] naming it. *)
Theorem planning_outcome_by_encoder (h : host) (input_url hw output_dir : string)
    (is_vod_ : bool) (subs : option (list SubtitleStream)) (media_info : option MediaInfo)
    (max_res q : string) (user_agent : option string) (deint_fallback : option bool) :
  let plan :=
    build_hls_ffmpeg_cmd h input_url hw output_dir is_vod_ subs media_info max_res q
      user_agent deint_fallback in
  (copy_video_of media_info max_res = true → ∃ cmd, plan = Ok cmd)
  ∧ (copy_video_of media_info max_res = false →
     (requires_vaapi hw → truthy_opt (VAAPI_DEVICE h) = true) →
     if known_encoder (_parse_hw hw).1
     then ∃ cmd, plan = Ok cmd
     else plan = Raise (ValueError ("Unrecognized hardware encoder: '"
                                     +:+ (_parse_hw hw).1 +:+ "'."))).
Proof.
  intros plan. subst plan. unfold build_hls_ffmpeg_cmd. cbv zeta. split.
  - intros ->. simpl. eexists. reflexivity.
  - intros -> Hdev.
    pose proof (video_args_by_encoder h hw
                  (match media_info with
                   | Some mi => interlaced mi
                   | None => default (negb is_vod_) deint_fallback
                   end)
                  (use_hw_pipeline_of h false hw media_info) max_res q
                  (match media_info with Some mi => is_hdr mi | None => false end) Hdev)
      as Hargs.
    destruct (known_encoder (_parse_hw hw).1).
    + destruct Hargs as (pre & post & ->). simpl. eexists. reflexivity.
    + rewrite Hargs. reflexivity.
Qed.

Lemma planning_outcome_by_encoder_witness :
  build_hls_ffmpeg_cmd plain_host movie_url "bogus" movie_dir true None None "1080p" "high"
    None None
  = Raise (ValueError "Unrecognized hardware encoder: 'bogus'.").
Proof.
  destruct (planning_outcome_by_encoder plain_host movie_url "bogus" movie_dir true None None
              "1080p" "high" None None) as [_ Hencode].
  apply Hencode; [reflexivity|].
  intros [Hv|Hv]; discriminate.
Defined.

(** A stream-copied plan does not look at the hardware policy, at the
    quality preset or at the host's devices: on hosts with the same
    settings it is the same command whatever these are. *)
Theorem stream_copy_ignores_hardware (h h' : host) (input_url hw hw' output_dir : string)
    (is_vod_ : bool) (subs : option (list SubtitleStream)) (media_info : option MediaInfo)
    (max_res q q' : string) (user_agent : option string) (deint_fallback : option bool) :
  copy_video_of media_info max_res = true →
  settings h = settings h' →
  build_hls_ffmpeg_cmd h input_url hw output_dir is_vod_ subs media_info max_res q
    user_agent deint_fallback
  = build_hls_ffmpeg_cmd h' input_url hw' output_dir is_vod_ subs media_info max_res q'
      user_agent deint_fallback.
Proof.
  intros Hcopy Hsettings. unfold build_hls_ffmpeg_cmd. cbv zeta. rewrite Hcopy.
  unfold _build_video_args, get_live_hls_list_size. rewrite Hsettings. reflexivity.
Qed.

Lemma stream_copy_ignores_hardware_witness :
  copy_video_of (Some h264_720p) "1080p" = true
  ∧ build_hls_ffmpeg_cmd plain_host movie_url "vaapi" movie_dir true None
      (Some h264_720p) "1080p" "high" None None
    = build_hls_ffmpeg_cmd broken_probe_host movie_url "nvenc+software" movie_dir true None
        (Some h264_720p) "1080p" "low" None None.
Proof.
  split; [reflexivity|].
  apply (stream_copy_ignores_hardware plain_host broken_probe_host); reflexivity.
Defined.

(** *** The edits made to a planned command *)

Lemma index_of_present (s : string) (cmd : list arg) :
  Lit s ∈ cmd → is_Some (index_of s cmd).
Proof.
  induction cmd as [|a cmd IH]; intros Hin; [apply elem_of_nil in Hin; destruct Hin|].
  simpl. destruct (is_lit s a) eqn:Ha; [eexists; reflexivity|].
  apply elem_of_cons in Hin as [<-|Hin].
  - simpl in Ha. rewrite String.eqb_refl in Ha. discriminate.
  - destruct (IH Hin) as [i ->]. eexists. reflexivity.
Qed.

Lemma elem_of_insert_at (i : nat) (a x : arg) (cmd : list arg) :
  x ∈ cmd → x ∈ insert_at i a cmd.
Proof.
  intros Hin. unfold insert_at. rewrite <- (take_drop i cmd) in Hin.
  apply elem_of_app in Hin as [Hin|Hin]; apply elem_of_app;
    [left; exact Hin|right; apply elem_of_cons; right; exact Hin].
Qed.

Lemma insert_before_present (anchor flag : string) (value : arg) (cmd : list arg) :
  Lit anchor ∈ cmd →
  ∃ cmd', insert_before anchor flag value cmd = Ok cmd' ∧ ∀ x, x ∈ cmd → x ∈ cmd'.
Proof.
  intros Hin. unfold insert_before. destruct (index_of_present anchor cmd Hin) as [i ->].
  eexists. split; [reflexivity|]. intros x Hx. do 2 apply elem_of_insert_at. exact Hx.
Qed.

(** Every planned command has an input marker and an output format flag. *)
Lemma planned_command_markers (h : host) (input_url hw output_dir : string)
    (is_vod_ : bool) (subs : option (list SubtitleStream)) (media_info : option MediaInfo)
    (max_res q : string) (user_agent : option string) (deint_fallback : option bool)
    (cmd : list string) :
  build_hls_ffmpeg_cmd h input_url hw output_dir is_vod_ subs media_info max_res q
    user_agent deint_fallback = Ok cmd →
  Lit "-i" ∈ map Lit cmd ∧ Lit "-f" ∈ map Lit cmd.
Proof.
  unfold build_hls_ffmpeg_cmd. cbv zeta.
  destruct (_build_video_args _ _ _ _ _ _ _ _) as [[pre post]|e]; [|discriminate].
  unfold bind. intros [= <-].
  split; apply list_elem_of_In, in_map; apply list_elem_of_In;
    repeat first [apply list_elem_of_here | apply list_elem_of_further
                 | (apply elem_of_app; right)].
Qed.

(** The list edits applied to a planned command cannot fail: whenever the
    planner returns a command, the seek command, the resume command and the
    start command built from it are returned too ([cmd.index] always finds
    its ["-i"] and ["-f"]). *)
Theorem command_edits_never_fail (h : host) :
  (∀ (info : session) (media_info : option MediaInfo) (seek_time : Q) (segment_num : Z)
     (cmd : list string),
     let subtitles_ := map stream_of_sub (default [] (subtitles info)) in
     build_hls_ffmpeg_cmd h (url info) (default "software" (transcode_hw (get_settings h)))
       (dir info) true
       (match subtitles_ with [] => None | l => Some l end)
       media_info (default "1080p" (max_resolution (get_settings h)))
       (default "high" (quality (get_settings h))) (get_user_agent h) None = Ok cmd →
     ∃ edited,
       seek_command h info media_info seek_time segment_num
       = Ok (edited ++ [Lit "-start_number"; Lit (str segment_num)]))
  ∧ (∀ (url_ hw output_dir : string) (media_info : option MediaInfo) (max_res q : string)
       (hls_duration : Q) (segment_count : nat) (cmd : list string),
       build_hls_ffmpeg_cmd h url_ hw output_dir true None media_info max_res q
         (get_user_agent h) None = Ok cmd →
       ∃ edited,
         resume_command h url_ hw output_dir media_info max_res q hls_duration segment_count
         = Ok (edited ++ [Lit "-start_number"; Lit (str (Z.of_nat segment_count))]))
  ∧ (∀ (env : start_env) (url_ content_type : string) (media_info : option MediaInfo)
       (subs : list SubtitleStream) (old_seek_offset : Q) (deint : bool)
       (cmd : list string),
       build_hls_ffmpeg_cmd h url_ (default "software" (transcode_hw (get_settings h)))
         (se_output_dir env) (is_vod_content content_type) (Some subs) media_info
         (default "1080p" (max_resolution (get_settings h)))
         (default "high" (quality (get_settings h))) (get_user_agent h) (Some deint)
       = Ok cmd →
       ∃ edited,
         start_command h env url_ content_type media_info subs old_seek_offset deint
         = Ok edited).
Proof.
  split; [|split].
  - intros info media_info seek_time segment_num cmd subtitles_ Hplan. subst subtitles_.
    unfold seek_command. cbv zeta. rewrite Hplan. simpl bind.
    destruct (planned_command_markers _ _ _ _ _ _ _ _ _ _ _ _ Hplan) as [Hi Hf].
    destruct (insert_before_present "-i" "-ss" (Flt seek_time) _ Hi) as (c1 & -> & Hkeep).
    simpl bind.
    destruct (insert_before_present "-f" "-output_ts_offset" (Flt (- seek_time)) c1
                (Hkeep _ Hf)) as (c2 & -> & _).
    simpl bind. eexists. reflexivity.
  - intros url_ hw output_dir media_info max_res q hls_duration segment_count cmd Hplan.
    unfold resume_command. cbv zeta. rewrite Hplan. simpl bind.
    destruct (planned_command_markers _ _ _ _ _ _ _ _ _ _ _ _ Hplan) as [Hi _].
    destruct (insert_before_present "-i" "-ss" (Flt hls_duration) _ Hi) as (c1 & -> & _).
    simpl bind. eexists. reflexivity.
  - intros env url_ content_type media_info subs old_seek_offset deint cmd Hplan.
    unfold start_command. cbv zeta. rewrite Hplan. simpl bind.
    destruct (Qlt_bool 0 old_seek_offset); [|eexists; reflexivity].
    destruct (planned_command_markers _ _ _ _ _ _ _ _ _ _ _ _ Hplan) as [Hi _].
    destruct (insert_before_present "-i" "-ss" (Flt old_seek_offset) _ Hi) as (c1 & -> & _).
    eexists. reflexivity.
Qed.

Lemma command_edits_never_fail_witness :
  ∃ edited,
    seek_command plain_host movie_session None 30 10
    = Ok (edited ++ [Lit "-start_number"; Lit "10"]).
Proof.
  destruct (command_edits_never_fail plain_host) as (Hseek & _ & _).
  apply (Hseek movie_session None 30%Q 10
           (match build_hls_ffmpeg_cmd plain_host movie_url "software" movie_dir true None
                    None "1080p" "high" None None
            with Ok c => c | Raise _ => [] end)).
  vm_compute. reflexivity.
Defined.

(** ** The probe caches *)

(** On a cache miss, a probe with a video codec and a positive height is
    returned and handed to the caching block. *)
Lemma probe_media_stores (h : host) (now : Q) (url_ : string)
    (series_id_ episode_id_ : option Z) (series_name : string) (p : probe_state)
    (data : ff_data) (is_hls_ : bool) :
  probe_cache_miss now url_ series_id_ episode_id_ p →
  run_probe h url_ = Some (data, is_hls_) →
  truthy (x_video_codec (extract_streams data)) = true →
  0 < x_height (extract_streams data) →
  probe_media h now url_ series_id_ episode_id_ series_name p
  = ((Some (build_media_info data is_hls_), x_subtitles (extract_streams data)),
     store_probe now url_ series_id_ episode_id_ series_name
       (build_media_info data is_hls_) (x_subtitles (extract_streams data)) p).
Proof.
  intros [Hseries Hurl] Hrun Hcodec Hheight. unfold probe_media.
  pose proof (series_cache_miss_keeps_state now series_id_ episode_id_ p Hseries) as Hkeep.
  destruct (series_cache_lookup now series_id_ episode_id_ p) as [hit p'].
  simpl in Hseries, Hkeep. subst hit p'.
  rewrite Hurl. unfold probe_uncached. rewrite Hrun, Hcodec. simpl negb. cbv iota.
  apply Z.leb_gt in Hheight. rewrite Hheight. reflexivity.
Qed.

(** The URL-keyed probe cache answers for an hour. After a valid probe of a
    URL, a second [probe_media] for the URL within 3600 seconds returns the
    same metadata and subtitles without running the inspector and without
    touching the caches; from 3600 seconds on the inspector runs again. *)
Theorem valid_probe_is_cached_by_url (h h' : host) (now now' : Q)
    (url_ series_name series_name' : string) (p : probe_state)
    (data : ff_data) (is_hls_ : bool) :
  probe_cache_miss now url_ None None p →
  run_probe h url_ = Some (data, is_hls_) →
  truthy (x_video_codec (extract_streams data)) = true →
  0 < x_height (extract_streams data) →
  let first := probe_media h now url_ None None series_name p in
  first.1 = (Some (build_media_info data is_hls_), x_subtitles (extract_streams data))
  ∧ ((now' - now < _PROBE_CACHE_TTL_SEC)%Q →
     probe_media h' now' url_ None None series_name' first.2 = first)
  ∧ ((_PROBE_CACHE_TTL_SEC <= now' - now)%Q →
     probe_media h' now' url_ None None series_name' first.2
     = probe_uncached h' now' url_ None None series_name' first.2).
Proof.
  intros Hmiss Hrun Hcodec Hheight first. subst first.
  rewrite (probe_media_stores h now url_ None None series_name p data is_hls_
             Hmiss Hrun Hcodec Hheight).
  simpl fst. simpl snd. split; [reflexivity|].
  unfold probe_media at 1 2. unfold series_cache_lookup, url_cache_lookup, store_probe.
  simpl _probe_cache. rewrite lookup_insert_eq.
  split; intros Hage.
  - apply Qlt_bool_iff in Hage. rewrite Hage. reflexivity.
  - apply Qlt_bool_false_iff in Hage. rewrite Hage. reflexivity.
Qed.

Lemma valid_probe_is_cached_by_url_witness :
  probe_cache_miss 50 movie_url None None empty_probe_state
  ∧ (probe_media good_probe_host 50 movie_url None None "" empty_probe_state).1
    = (Some (build_media_info good_probe false), [])
  ∧ probe_media plain_host 3649 movie_url None None ""
      (probe_media good_probe_host 50 movie_url None None "" empty_probe_state).2
    = probe_media good_probe_host 50 movie_url None None "" empty_probe_state.
Proof.
  split; [split; reflexivity|].
  destruct (valid_probe_is_cached_by_url good_probe_host plain_host 50 3649 movie_url "" ""
              empty_probe_state good_probe false) as (Hfirst & Hhit & _).
  - split; reflexivity.
  - reflexivity.
  - reflexivity.
  - reflexivity.
  - split; [exact Hfirst|]. apply Hhit. reflexivity.
Defined.

(** The series entry the caching block leaves behind: the probed episode is
    cached and is the most recently used one; the other episodes are as
    before. *)
Lemma store_probe_series (now : Q) (url_ : string) (sid : Z) (episode_id_ : option Z)
    (series_name : string) (mi : MediaInfo) (subs : list SubtitleStream) (p : probe_state) :
  ∃ sd,
    _series_probe_cache (store_probe now url_ (Some sid) episode_id_ series_name mi subs p)
      !! sid = Some sd
    ∧ sd_mru sd = Some (default 0 episode_id_)
    ∧ sd_episodes sd !! default 0 episode_id_ = Some (now, Some mi, subs)
    ∧ ∀ eid', eid' ≠ default 0 episode_id_ →
        sd_episodes sd !! eid'
        = (_series_probe_cache p !! sid) ≫= λ old, sd_episodes old !! eid'.
Proof.
  unfold store_probe. cbv zeta. simpl _series_probe_cache.
  rewrite lookup_insert_eq. eexists. split; [reflexivity|].
  simpl. split; [reflexivity|]. split; [apply lookup_insert_eq|].
  intros eid' Hne. rewrite lookup_insert_ne by congruence.
  destruct (_series_probe_cache p !! sid) as [old|]; simpl; [|apply lookup_empty].
  destruct (negb (truthy (sd_name old)) && truthy series_name); reflexivity.
Qed.

(** A series-cache hit that leaves the state alone: the exact episode when it
    is already the most recently used one, or the fallback to that one. *)
Lemma series_lookup_hit (now : Q) (sid : Z) (episode_id_ : option Z) (p : probe_state)
    (sd : series_data) (mru : Z) (cache_time : Q) (mi : option MediaInfo)
    (subs : list SubtitleStream) :
  _series_probe_cache p !! sid = Some sd →
  sd_mru sd = Some mru →
  sd_episodes sd !! mru = Some (cache_time, mi, subs) →
  (now - cache_time < _SERIES_PROBE_CACHE_TTL_SEC)%Q →
  (∀ eid, episode_id_ = Some eid → eid ≠ mru → sd_episodes sd !! eid = None) →
  series_cache_lookup now (Some sid) episode_id_ p = (Some (mi, subs), p).
Proof.
  intros Hsd Hmru Hentry Hage Hother. unfold series_cache_lookup. rewrite Hsd.
  apply Qlt_bool_iff in Hage.
  unfold probe_entry in *.
  destruct episode_id_ as [eid|]; simpl.
  - destruct (decide (eid = mru)) as [->|Hne].
    + rewrite Hentry. simpl. rewrite Hage.
      destruct (decide (sd_mru sd = Some mru)); [reflexivity|contradiction].
    + rewrite (Hother eid eq_refl Hne). simpl. rewrite Hmru. simpl. rewrite Hentry, Hage.
      reflexivity.
  - rewrite Hmru. simpl. rewrite Hentry, Hage. reflexivity.
Qed.

(** The series probe cache answers for a week, for the whole series. After a
    valid probe of an episode, [probe_media] for that episode, for the
    series without an episode, or for an episode of the series that is not
    cached, returns the probed episode's metadata within seven days: no
    inspector run, whatever the URL, and the caches stay as they are. *)
Theorem series_probe_is_shared (h h' : host) (now now' : Q)
    (url_ url' series_name series_name' : string) (sid eid : Z) (p : probe_state)
    (data : ff_data) (is_hls_ : bool) :
  probe_cache_miss now url_ (Some sid) (Some eid) p →
  run_probe h url_ = Some (data, is_hls_) →
  truthy (x_video_codec (extract_streams data)) = true →
  0 < x_height (extract_streams data) →
  (now' - now < _SERIES_PROBE_CACHE_TTL_SEC)%Q →
  let first := probe_media h now url_ (Some sid) (Some eid) series_name p in
  probe_media h' now' url' (Some sid) (Some eid) series_name' first.2 = first
  ∧ probe_media h' now' url' (Some sid) None series_name' first.2 = first
  ∧ ∀ eid',
      (∀ sd, _series_probe_cache p !! sid = Some sd → sd_episodes sd !! eid' = None) →
      probe_media h' now' url' (Some sid) (Some eid') series_name' first.2 = first.
Proof.
  intros Hmiss Hrun Hcodec Hheight Hage first. subst first.
  rewrite (probe_media_stores h now url_ (Some sid) (Some eid) series_name p data is_hls_
             Hmiss Hrun Hcodec Hheight).
  simpl fst. simpl snd.
  set (mi := build_media_info data is_hls_). set (subs := x_subtitles (extract_streams data)).
  set (p' := store_probe now url_ (Some sid) (Some eid) series_name mi subs p).
  destruct (store_probe_series now url_ sid (Some eid) series_name mi subs p)
    as (sd & Hsd & Hmru & Hentry & Hothers).
  fold p' in Hsd. simpl in Hmru, Hentry, Hothers.
  assert (Hhit : ∀ episode_id_,
            (∀ e, episode_id_ = Some e → e ≠ eid → sd_episodes sd !! e = None) →
            probe_media h' now' url' (Some sid) episode_id_ series_name' p'
            = ((Some mi, subs), p')).
  { intros episode_id_ Hnone. unfold probe_media.
    rewrite (series_lookup_hit now' sid episode_id_ p' sd eid now (Some mi) subs
               Hsd Hmru Hentry Hage Hnone).
    reflexivity. }
  split; [apply Hhit; intros e [= <-] Hne; contradiction|].
  split; [apply Hhit; intros e [=]|].
  intros eid' Hfresh. apply Hhit. intros e [= <-] Hne.
  rewrite (Hothers _ Hne). destruct (_series_probe_cache p !! sid) as [old|] eqn:Hold;
    simpl; [apply (Hfresh old eq_refl)|reflexivity].
Qed.

Lemma series_probe_is_shared_witness :
  probe_cache_miss 50 movie_url (Some 7) (Some 3) empty_probe_state
  ∧ probe_media plain_host 86450 "http://vod/other.mkv" (Some 7) (Some 4) ""
      (probe_media good_probe_host 50 movie_url (Some 7) (Some 3) "Show"
         empty_probe_state).2
    = probe_media good_probe_host 50 movie_url (Some 7) (Some 3) "Show" empty_probe_state.
Proof.
  split; [split; reflexivity|].
  destruct (series_probe_is_shared good_probe_host plain_host 50 86450 movie_url
              "http://vod/other.mkv" "Show" "" 7 3 empty_probe_state good_probe false)
    as (_ & _ & Hother).
  - split; reflexivity.
  - reflexivity.
  - reflexivity.
  - reflexivity.
  - reflexivity.
  - apply Hother. intros sd Hsd. discriminate Hsd.
Defined.

(** Invalidating a whole series: the series cache no longer answers for it,
    whatever the episode; the URL-keyed cache is not touched, so a probe of
    a URL cached there is still answered from it. *)
Theorem invalidated_series_misses (sid : Z) (p : probe_state) :
  let p' := invalidate_series_probe_cache sid None p in
  _series_probe_cache p' !! sid = None
  ∧ (∀ now episode_id_, series_cache_lookup now (Some sid) episode_id_ p' = (None, p'))
  ∧ (∀ sid', sid' ≠ sid → _series_probe_cache p' !! sid' = _series_probe_cache p !! sid')
  ∧ _probe_cache p' = _probe_cache p
  ∧ ∀ h now url_ episode_id_ series_name hit,
      url_cache_lookup now url_ p = Some hit →
      probe_media h now url_ (Some sid) episode_id_ series_name p' = (hit, p').
Proof.
  intros p'.
  assert (Hgone : _series_probe_cache p' !! sid = None).
  { subst p'. unfold invalidate_series_probe_cache.
    destruct (_series_probe_cache p !! sid) eqn:Hsd; [|exact Hsd].
    simpl. apply lookup_delete_eq. }
  assert (Hmiss : ∀ now episode_id_,
            series_cache_lookup now (Some sid) episode_id_ p' = (None, p')).
  { intros now episode_id_. unfold series_cache_lookup. rewrite Hgone. reflexivity. }
  assert (Hurl : _probe_cache p' = _probe_cache p).
  { subst p'. unfold invalidate_series_probe_cache.
    destruct (_series_probe_cache p !! sid); reflexivity. }
  split; [exact Hgone|]. split; [exact Hmiss|]. split; [|split; [exact Hurl|]].
  - intros sid' Hne. subst p'. unfold invalidate_series_probe_cache.
    destruct (_series_probe_cache p !! sid); [|reflexivity].
    simpl. apply lookup_delete_ne. congruence.
  - intros h now url_ episode_id_ series_name hit Hhit. unfold probe_media.
    rewrite Hmiss. unfold url_cache_lookup in *. rewrite Hurl.
    destruct (_probe_cache p !! url_) as [[[cache_time mi] subs]|]; [|discriminate].
    destruct (Qlt_bool _ _); [|discriminate]. injection Hhit as <-. reflexivity.
Qed.

Lemma invalidated_series_misses_witness :
  let p := (probe_media good_probe_host 50 movie_url None None "" empty_probe_state).2 in
  probe_media plain_host 60 movie_url (Some 7) (Some 1) ""
    (invalidate_series_probe_cache 7 None p)
  = ((Some (build_media_info good_probe false), []), invalidate_series_probe_cache 7 None p).
Proof.
  intros p.
  destruct (invalidated_series_misses 7 p) as (_ & _ & _ & _ & Hurl).
  apply Hurl. reflexivity.
Defined.

(** Invalidating one episode: its entry is gone, the other episodes of the
    series and the other series keep theirs, the URL-keyed cache is not
    touched; and when the episode was the most recently used one, the series
    cache no longer answers a probe for it. *)
Theorem invalidated_episode_misses (sid eid : Z) (p : probe_state) (sd : series_data) :
  _series_probe_cache p !! sid = Some sd →
  let p' := invalidate_series_probe_cache sid (Some eid) p in
  (∃ sd', _series_probe_cache p' !! sid = Some sd'
          ∧ sd_episodes sd' = delete eid (sd_episodes sd)
          ∧ sd_mru sd' = sd_mru sd ∧ sd_name sd' = sd_name sd)
  ∧ (∀ sid', sid' ≠ sid → _series_probe_cache p' !! sid' = _series_probe_cache p !! sid')
  ∧ _probe_cache p' = _probe_cache p
  ∧ (sd_mru sd = Some eid →
     ∀ now, series_cache_lookup now (Some sid) (Some eid) p' = (None, p')).
Proof.
  intros Hsd p'. subst p'. unfold invalidate_series_probe_cache. rewrite Hsd.
  simpl _series_probe_cache. simpl _probe_cache.
  split; [|split; [|split; [reflexivity|]]].
  - rewrite lookup_insert_eq. eexists. split; [reflexivity|]. simpl. auto.
  - intros sid' Hne. apply lookup_insert_ne. congruence.
  - intros Hmru now. unfold series_cache_lookup. simpl _series_probe_cache.
    rewrite lookup_insert_eq. unfold probe_entry in *. simpl.
    rewrite lookup_delete_eq. simpl. rewrite Hmru. simpl. rewrite lookup_delete_eq.
    reflexivity.
Qed.

Lemma invalidated_episode_misses_witness :
  let p := (probe_media good_probe_host 50 movie_url (Some 7) (Some 3) "Show"
              empty_probe_state).2 in
  (series_cache_lookup 60 (Some 7) (Some 3) p).1
  = Some (Some (build_media_info good_probe false), [])
  ∧ (series_cache_lookup 60 (Some 7) (Some 3)
       (invalidate_series_probe_cache 7 (Some 3) p)).1 = None.
Proof.
  intros p. split; [reflexivity|].
  destruct (invalidated_episode_misses 7 3 p
              {| sd_name := "Show"; sd_mru := Some 3;
                 sd_episodes :=
                   {[ 3 := (50%Q, Some (build_media_info good_probe false), []) ]} |})
    as (_ & _ & _ & Hmiss).
  - reflexivity.
  - rewrite (Hmiss eq_refl 60%Q). reflexivity.
Defined.

Ltac fold_entry :=
  change (Q * option MediaInfo * list SubtitleStream)%type with probe_entry in *.

(** Restoring a probe entry never overwrites: an entry the URL cache or the
    episode already has stays, a missing one is filled in with the restored
    probe, and the series file is not rewritten. Restoring again for the
    same URL and episode, with whatever probe, changes nothing. *)
Theorem restore_never_overwrites (now now2 : Q) (url_ : string) (mi mi2 : MediaInfo)
    (subs subs2 : list SubtitleStream) (series_id_ episode_id_ : option Z)
    (p : probe_state) :
  let p' := restore_probe_cache_entry now url_ mi subs series_id_ episode_id_ p in
  _probe_cache p' !! url_
  = Some (default (now, Some mi, subs) (_probe_cache p !! url_))
  ∧ (∀ sid, series_id_ = Some sid →
     ∃ sd', _series_probe_cache p' !! sid = Some sd'
       ∧ sd_episodes sd' !! default 0 episode_id_
         = Some (default (now, Some mi, subs)
                   ((_series_probe_cache p !! sid)
                      ≫= λ sd, sd_episodes sd !! default 0 episode_id_)))
  ∧ series_probe_cache_file p' = series_probe_cache_file p
  ∧ restore_probe_cache_entry now2 url_ mi2 subs2 series_id_ episode_id_ p' = p'.
Proof.
  intros p'. subst p'. unfold restore_probe_cache_entry. cbv zeta.
  fold_entry.
  match goal with
  | |- context [match ?c with Some _ => p | None => ?n end] =>
      set (p1 := match c with Some _ => p | None => n end)
  end.
  assert (Hurl : _probe_cache p1 !! url_
                 = Some (default (now, Some mi, subs) (_probe_cache p !! url_))).
  { subst p1. fold_entry. case_match; simpl;
      first [reflexivity|assumption|apply lookup_insert_eq]. }
  assert (Hser : _series_probe_cache p1 = _series_probe_cache p)
    by (subst p1; case_match; reflexivity).
  assert (Hfile : series_probe_cache_file p1 = series_probe_cache_file p)
    by (subst p1; case_match; reflexivity).
  clearbody p1. fold_entry.
  destruct series_id_ as [sid|].
  - simpl _probe_cache. simpl _series_probe_cache. simpl series_probe_cache_file.
    set (sd0 := default {| sd_name := ""; sd_mru := None; sd_episodes := ∅ |}
                        (_series_probe_cache p1 !! sid)).
    match goal with
    | |- context [match ?c with Some _ => sd0 | None => ?n end] =>
        set (sd' := match c with Some _ => sd0 | None => n end)
    end.
    assert (Hsd' : sd_episodes sd' !! default 0 episode_id_
                   = Some (default (now, Some mi, subs)
                             (sd_episodes sd0 !! default 0 episode_id_))).
    { subst sd'. fold_entry. case_match; simpl;
        first [reflexivity|assumption|apply lookup_insert_eq]. }
    fold_entry.
    split; [exact Hurl|]. split; [|split; [exact Hfile|]].
    + intros sid' [= <-]. exists sd'. split; [apply lookup_insert_eq|]. rewrite Hsd'.
      subst sd0. rewrite Hser. destruct (_series_probe_cache p !! sid) as [sd|]; simpl;
        [reflexivity|]. rewrite lookup_empty. reflexivity.
    + rewrite Hurl. simpl _series_probe_cache. rewrite lookup_insert_eq. simpl from_option.
      rewrite Hsd'. rewrite insert_insert_eq. reflexivity.
  - split; [exact Hurl|]. split; [intros sid [=]|]. split; [exact Hfile|].
    rewrite Hurl. reflexivity.
Qed.

Lemma restore_never_overwrites_witness :
  let p := restore_probe_cache_entry 50 movie_url h264_720p [] (Some 7) (Some 1)
             empty_probe_state in
  _probe_cache p !! movie_url = Some (50%Q, Some h264_720p, [])
  ∧ restore_probe_cache_entry 60 movie_url hevc_1080p [] (Some 7) (Some 1) p = p.
Proof.
  intros p.
  destruct (restore_never_overwrites 50 60 movie_url h264_720p hevc_1080p [] [] (Some 7)
              (Some 1) empty_probe_state) as (Hurl & _ & _ & Hagain).
  split; [exact Hurl|exact Hagain].
Defined.

(** Clearing the probe caches: both caches and the series file end up
    empty, the returned count is zero exactly when there was nothing to
    clear, and from then on every [probe_media] call runs the inspector. *)
Theorem clear_all_probe_cache_empties (p : probe_state) :
  let n := (clear_all_probe_cache p).1 in
  let p' := (clear_all_probe_cache p).2 in
  _probe_cache p' = ∅
  ∧ _series_probe_cache p' = ∅
  ∧ series_probe_cache_file p' = ∅
  ∧ (n = 0 ↔ _probe_cache p = ∅
             ∧ ∀ sid sd, _series_probe_cache p !! sid = Some sd → sd_episodes sd = ∅)
  ∧ ∀ h now url_ series_id_ episode_id_ series_name,
      probe_media h now url_ series_id_ episode_id_ series_name p'
      = probe_uncached h now url_ series_id_ episode_id_ series_name p'.
Proof.
  intros n p'. subst n p'. unfold clear_all_probe_cache. simpl fst. simpl snd.
  split; [reflexivity|]. split; [reflexivity|]. split; [apply fmap_empty|]. split.
  - rewrite <- Nat2Z.inj_0, Nat2Z.inj_iff, Nat.eq_add_0.
    rewrite map_size_empty_iff.
    assert (Hsum : ∀ l : list (Z * series_data),
              sum_list ((λ kv, size (sd_episodes kv.2)) <$> l) = 0%nat
              ↔ ∀ kv, kv ∈ l → sd_episodes kv.2 = ∅).
    { induction l as [|kv l IH]; simpl.
      - split; [intros _ kv Hin; apply elem_of_nil in Hin; destruct Hin|reflexivity].
      - rewrite Nat.eq_add_0, IH, map_size_empty_iff. split.
        + intros [H0 Hl] kv' Hin. apply elem_of_cons in Hin as [->|Hin]; auto.
        + intros Hall. split; [apply Hall; left|intros kv' Hin; apply Hall; right; exact Hin]. }
    rewrite Hsum. split; intros [Hurl Hser]; (split; [exact Hurl|]).
    + intros sid sd Hsd. apply (Hser (sid, sd)), elem_of_map_to_list, Hsd.
    + intros [sid sd] Hin. apply (Hser sid sd), elem_of_map_to_list, Hin.
  - intros h now url_ series_id_ episode_id_ series_name. unfold probe_media.
    unfold series_cache_lookup, url_cache_lookup. simpl _series_probe_cache.
    simpl _probe_cache.
    destruct series_id_ as [sid|]; rewrite ?lookup_empty; reflexivity.
Qed.

(** A probe that fails is not cached. When neither cache answers and both
    inspector runs fail, or the inspector reports no video codec,
    [probe_media] returns no metadata and no subtitles and leaves the
    caches as they were. *)
Theorem failed_probe_not_cached (h : host) (now : Q) (url_ : string)
    (series_id_ episode_id_ : option Z) (series_name : string) (p : probe_state) :
  probe_cache_miss now url_ series_id_ episode_id_ p →
  (ffprobe h url_ false = None ∧ ffprobe h url_ true = None)
  ∨ (∃ data is_hls_, run_probe h url_ = Some (data, is_hls_)
                     ∧ x_video_codec (extract_streams data) = "") →
  probe_media h now url_ series_id_ episode_id_ series_name p = ((None, []), p).
Proof.
  intros [Hseries Hurl] Hfail. unfold probe_media.
  pose proof (series_cache_miss_keeps_state now series_id_ episode_id_ p Hseries) as Hkeep.
  destruct (series_cache_lookup now series_id_ episode_id_ p) as [hit p'].
  simpl in Hseries, Hkeep. subst hit p'. rewrite Hurl. unfold probe_uncached.
  destruct Hfail as [[Hplain Hforced]|(data & is_hls_ & Hrun & Hcodec)].
  - unfold run_probe. rewrite Hplain, Hforced. reflexivity.
  - rewrite Hrun, Hcodec. reflexivity.
Qed.

Lemma failed_probe_not_cached_witness :
  probe_cache_miss 50 movie_url (Some 7) (Some 3) empty_probe_state
  ∧ probe_media plain_host 50 movie_url (Some 7) (Some 3) "Show" empty_probe_state
    = ((None, []), empty_probe_state).
Proof.
  split; [split; reflexivity|].
  apply (failed_probe_not_cached plain_host 50 movie_url (Some 7) (Some 3) "Show"
           empty_probe_state).
  - split; reflexivity.
  - left. split; reflexivity.
Defined.







(** Clearing a series' MRU pointer keeps its episodes and name and leaves
    the URL-keyed cache alone; afterwards the series cache answers only for
    the episodes it holds: a probe for the series without an episode, or
    for an episode that is not cached, is no longer answered from another
    episode. *)
Theorem cleared_mru_disables_fallback (sid : Z) (p : probe_state) (sd : series_data) :
  _series_probe_cache p !! sid = Some sd →
  let p' := clear_series_mru sid p in
  _series_probe_cache p' !! sid = Some (set_mru None sd)
  ∧ _probe_cache p' = _probe_cache p
  ∧ (∀ now, series_cache_lookup now (Some sid) None p' = (None, p'))
  ∧ (∀ now eid, sd_episodes sd !! eid = None →
       series_cache_lookup now (Some sid) (Some eid) p' = (None, p')).
Proof.
  intros Hsd p'. subst p'. unfold clear_series_mru. rewrite Hsd.
  simpl _series_probe_cache. simpl _probe_cache.
  split; [apply lookup_insert_eq|]. split; [reflexivity|].
  split.
  - intros now. unfold series_cache_lookup. simpl _series_probe_cache.
    rewrite lookup_insert_eq. reflexivity.
  - intros now eid Hnone. unfold series_cache_lookup. simpl _series_probe_cache.
    rewrite lookup_insert_eq. fold_entry. simpl. fold_entry. rewrite Hnone. reflexivity.
Qed.

Lemma cleared_mru_disables_fallback_witness :
  let p := (probe_media good_probe_host 50 movie_url (Some 7) (Some 3) "Show"
              empty_probe_state).2 in
  (series_cache_lookup 60 (Some 7) (Some 4) p).1
  = Some (Some (build_media_info good_probe false), [])
  ∧ (series_cache_lookup 60 (Some 7) (Some 4) (clear_series_mru 7 p)).1 = None.
Proof.
  intros p. split; [reflexivity|].
  destruct (cleared_mru_disables_fallback 7 p
              {| sd_name := "Show"; sd_mru := Some 3;
                 sd_episodes :=
                   {[ 3 := (50%Q, Some (build_media_info good_probe false), []) ]} |})
    as (_ & _ & _ & Hmiss).
  - reflexivity.
  - rewrite (Hmiss 60%Q 4); reflexivity.
Defined.

(** ** Stopping, expiry and queries *)

Lemma kill_process_dead (p : process_handle) (w : world) :
  returncode_is_None (_kill_process p w).2 p = false.
Proof.
  unfold _kill_process, returncode_is_None. destruct p as [|pid]; [reflexivity|].
  destruct (procs w !! pid) as [[| |]|] eqn:Hp; simpl; rewrite ?lookup_insert_eq, ?Hp;
    reflexivity.
Qed.

Lemma kill_process_signals (pid : nat) (w : world) :
  procs w !! pid = Some Running →
  procs (_kill_process (Process pid) w).2 = <[pid := Terminated]> (procs w)
  ∧ signalled (_kill_process (Process pid) w).2 = signalled w ++ [pid].
Proof. intros Hp. unfold _kill_process. rewrite Hp. split; reflexivity. Qed.

(** A stop that goes through removes the session for good. When the stop is
    forced, or comes five seconds or more after the last access of a
    session whose kind has no cache timeout, the session leaves the table,
    the index entry under its (non-empty) URL goes, its directory is
    deleted and its process is no longer running; the other sessions, the
    other index entries and the other directories stay. *)
Theorem stop_removes_session (h : host) (now : Q) (session_id : string) (force : bool)
    (s : session) (w : world) :
  unique_ids w →
  dict_get session_id (_transcode_sessions w) = Some s →
  force = true ∨ ((5 <= now - last_access s)%Q ∧ cache_timeout_of h s ≤ 0) →
  let w' := stop_session h now session_id force w in
  dict_get session_id (_transcode_sessions w') = None
  ∧ (∀ sid, sid ≠ session_id →
       dict_get sid (_transcode_sessions w') = dict_get sid (_transcode_sessions w))
  ∧ (url s ≠ "" → _url_to_session w' !! url s = None)
  ∧ (∀ u, u ≠ url s → _url_to_session w' !! u = _url_to_session w !! u)
  ∧ dirs w' = delete (dir s) (dirs w)
  ∧ returncode_is_None w' (process s) = false
  ∧ spawned w' = spawned w.
Proof.
  intros Hids Hget Hwhy w'. subst w'. unfold stop_session. rewrite Hget.
  assert (Hrecent : negb force && Qlt_bool (now - last_access s) 5 = false).
  { destruct Hwhy as [->|[Hold _]]; [reflexivity|].
    apply Qlt_bool_false_iff in Hold. rewrite Hold. apply andb_false_r. }
  assert (Hcache : negb force && (0 <? cache_timeout_of h s) = false).
  { destruct Hwhy as [->|[_ Hno]]; [reflexivity|].
    apply Z.ltb_ge in Hno. rewrite Hno. apply andb_false_r. }
  rewrite Hrecent, Hcache.
  destruct (kill_frame (process s) w) as (Hs & Hi & Hd & Hsp & _).
  pose proof (kill_process_dead (process s) w) as Hdead.
  set (w1 := (_kill_process (process s) w).2) in *.
  assert (Hall : ∀ w3 : world,
            _transcode_sessions w3 = dict_pop session_id (_transcode_sessions w1) →
            dirs w3 = dirs w1 → procs w3 = procs w1 → spawned w3 = spawned w1 →
            dict_get session_id (_transcode_sessions (rmtree (dir s) w3)) = None
            ∧ (∀ sid, sid ≠ session_id →
                 dict_get sid (_transcode_sessions (rmtree (dir s) w3))
                 = dict_get sid (_transcode_sessions w))
            ∧ dirs (rmtree (dir s) w3) = delete (dir s) (dirs w)
            ∧ returncode_is_None (rmtree (dir s) w3) (process s) = false
            ∧ spawned (rmtree (dir s) w3) = spawned w).
  { intros w3 Hs3 Hd3 Hp3 Hsp3. simpl. rewrite Hs3, Hs, Hd3, Hd, Hsp3, Hsp.
    split; [apply dict_get_pop_eq, Hids|].
    split; [intros sid Hne; apply dict_get_pop_ne; congruence|].
    split; [reflexivity|]. split; [|reflexivity].
    unfold returncode_is_None in *. simpl. rewrite Hp3. exact Hdead. }
  unfold truthy. destruct (String.eqb_spec (url s) "") as [Hempty|Hurl]; simpl negb; cbv iota.
  - destruct (Hall (with_sessions (dict_pop session_id (_transcode_sessions w1)) w1))
      as (H1 & H2 & H3 & H4 & H5); try reflexivity.
    split; [exact H1|]. split; [exact H2|]. split; [contradiction|].
    split; [intros u _; simpl; rewrite Hi; reflexivity|]. tauto.
  - destruct (Hall (with_index
                      (delete (url s)
                         (_url_to_session
                            (with_sessions (dict_pop session_id (_transcode_sessions w1)) w1)))
                      (with_sessions (dict_pop session_id (_transcode_sessions w1)) w1)))
      as (H1 & H2 & H3 & H4 & H5); try reflexivity.
    split; [exact H1|]. split; [exact H2|].
    split; [intros _; simpl; apply lookup_delete_eq|].
    split; [intros u Hne; simpl; rewrite lookup_delete_ne by congruence; rewrite Hi;
            reflexivity|].
    tauto.
Qed.

Lemma stop_removes_session_witness :
  unique_ids one_session_world
  ∧ dict_get "s1" (_transcode_sessions (stop_session plain_host 101 "s1" true
                                          one_session_world)) = None
  ∧ _url_to_session (stop_session plain_host 101 "s1" true one_session_world)
      !! "http://live/1" = None
  ∧ dirs (stop_session plain_host 101 "s1" true one_session_world)
    = delete "/tmp/netv_transcode_s1" (dirs one_session_world).
Proof.
  assert (Hids : unique_ids one_session_world).
  { unfold unique_ids. simpl. apply NoDup_singleton. }
  split; [exact Hids|].
  destruct (stop_removes_session plain_host 101 "s1" true
              (example_session "/tmp/netv_transcode_s1" "http://live/1" "alice" 100)
              one_session_world Hids eq_refl (or_introl eq_refl))
    as (Hgone & _ & Hindex & _ & Hdirs & _).
  split; [exact Hgone|]. split; [apply Hindex; discriminate|exact Hdirs].
Defined.

(** A stop that caches. A non-forced stop five seconds or more after the
    last access, of a session whose kind has a cache timeout, stops the
    transcoder and keeps everything else: the session stays in the table
    with its last access set to now, its index entry and its directory stay,
    and the session counts as valid from then until the earlier of the
    heartbeat timeout and the cache timeout. *)
Theorem stop_caches_session (h : host) (now : Q) (session_id : string)
    (s : session) (w : world) :
  dict_get session_id (_transcode_sessions w) = Some s →
  (5 <= now - last_access s)%Q →
  0 < cache_timeout_of h s →
  let w' := stop_session h now session_id false w in
  dict_get session_id (_transcode_sessions w') = Some (set_last_access now s)
  ∧ (∀ sid, sid ≠ session_id →
       dict_get sid (_transcode_sessions w') = dict_get sid (_transcode_sessions w))
  ∧ _url_to_session w' = _url_to_session w
  ∧ dirs w' = dirs w
  ∧ returncode_is_None w' (process s) = false
  ∧ ∀ later : Q,
      is_session_valid h w' later (set_last_access now s)
      = negb (Qlt_bool _HEARTBEAT_TIMEOUT_SEC (later - now))
        && Qlt_bool (later - now) (inject_Z (cache_timeout_of h s)).
Proof.
  intros Hget Hold Hcache w'. subst w'. unfold stop_session. rewrite Hget.
  apply Qlt_bool_false_iff in Hold. rewrite Hold, andb_false_r.
  pose proof Hcache as Hpos. apply Z.ltb_lt in Hcache. rewrite Hcache. simpl andb. cbv iota.
  destruct (kill_frame (process s) w) as (Hs & Hi & Hd & _).
  pose proof (kill_process_dead (process s) w) as Hdead.
  set (w1 := (_kill_process (process s) w).2) in *.
  simpl _transcode_sessions. simpl _url_to_session. simpl dirs. rewrite Hs.
  split; [apply dict_get_set_eq|].
  split; [intros sid Hne; apply dict_get_set_ne; congruence|].
  split; [exact Hi|]. split; [exact Hd|].
  assert (Hdead' : returncode_is_None
                     (with_sessions
                        (dict_set session_id (set_last_access now s) (_transcode_sessions w))
                        w1) (process s) = false) by exact Hdead.
  split; [exact Hdead'|].
  intros later. unfold is_session_valid, _is_process_alive. cbv zeta.
  change (process (set_last_access now s)) with (process s). rewrite Hdead'.
  change (last_access (set_last_access now s)) with now.
  change (cache_timeout_of h (set_last_access now s)) with (cache_timeout_of h s).
  destruct (Qlt_bool _HEARTBEAT_TIMEOUT_SEC (later - now)); [reflexivity|].
  assert (Hle : (cache_timeout_of h s <=? 0) = false) by (apply Z.leb_gt; exact Hpos).
  rewrite Hle. reflexivity.
Qed.

Lemma stop_caches_session_witness :
  dict_get "v1" (_transcode_sessions movie_world) = Some movie_session
  ∧ dict_get "v1" (_transcode_sessions (stop_session plain_host 120 "v1" false movie_world))
    = Some (set_last_access 120 movie_session)
  ∧ dirs (stop_session plain_host 120 "v1" false movie_world) = dirs movie_world
  ∧ is_session_valid plain_host (stop_session plain_host 120 "v1" false movie_world) 140
      (set_last_access 120 movie_session) = true.
Proof.
  split; [reflexivity|].
  destruct (stop_caches_session plain_host 120 "v1" movie_session movie_world)
    as (Hkept & _ & _ & Hdirs & _ & Hvalid).
  - reflexivity.
  - discriminate.
  - reflexivity.
  - split; [exact Hkept|]. split; [exact Hdirs|]. rewrite Hvalid. reflexivity.
Defined.

(** *** Expiry *)

Lemma foldl_pop_cons (k : string) (v : session) (t : list (string * session))
    (ids : list string) :
  k ∉ ids →
  foldl (λ t sid, dict_pop sid t) ((k, v) :: t) ids
  = (k, v) :: foldl (λ t sid, dict_pop sid t) t ids.
Proof.
  revert t. induction ids as [|sid ids IH]; intros t Hnot; [reflexivity|].
  apply not_elem_of_cons in Hnot as [Hne Hnot]. simpl.
  destruct (String.eqb_spec k sid) as [->|_]; [contradiction|]. apply IH, Hnot.
Qed.

Lemma foldl_pop_filter (P : string * session → bool) (t : list (string * session)) :
  NoDup t.*1 →
  foldl (λ t sid, dict_pop sid t) t ((filter (λ kv, P kv = false) t).*1)
  = filter (λ kv, P kv = true) t.
Proof.
  induction t as [|[k v] t IH]; intros Hnd; [reflexivity|].
  apply NoDup_cons in Hnd as [Hnotin Hnd].
  destruct (P (k, v)) eqn:HP.
  - rewrite filter_cons_False by (rewrite HP; discriminate).
    rewrite filter_cons_True by exact HP.
    rewrite foldl_pop_cons; [rewrite IH by exact Hnd; reflexivity|].
    intros Hin. apply Hnotin. apply list_elem_of_fmap in Hin as (kv & -> & Hin).
    apply list_elem_of_filter in Hin as [_ Hin]. apply list_elem_of_fmap.
    exists kv. split; [reflexivity|exact Hin].
  - rewrite filter_cons_True by exact HP.
    rewrite filter_cons_False by (rewrite HP; discriminate).
    simpl. rewrite String.eqb_refl. apply IH, Hnd.
Qed.

Lemma foldl_stop_sessions (h : host) (now : Q) (ids : list string) (w : world) :
  _transcode_sessions (foldl (λ w sid, stop_session h now sid true w) w ids)
  = foldl (λ t sid, dict_pop sid t) (_transcode_sessions w) ids.
Proof.
  revert w. induction ids as [|sid ids IH]; intros w; [reflexivity|]. simpl.
  rewrite IH, forced_stop_sessions. reflexivity.
Qed.

(** The expiry clean-up removes exactly the sessions that are not valid when
    it starts: what stays in the table is the valid sessions, in their
    order and unchanged. *)
Theorem expiry_removes_exactly_invalid (h : host) (now : Q) (w : world) :
  unique_ids w →
  _transcode_sessions (cleanup_expired_sessions h now w)
  = filter (λ kv, is_session_valid h w now kv.2 = true) (_transcode_sessions w).
Proof.
  intros Hids. unfold cleanup_expired_sessions. cbv zeta.
  rewrite foldl_stop_sessions.
  apply (foldl_pop_filter (λ kv, is_session_valid h w now kv.2)), Hids.
Qed.

Lemma expiry_removes_exactly_invalid_witness :
  unique_ids movie_world
  ∧ _transcode_sessions (cleanup_expired_sessions plain_host 120 movie_world)
    = [("v1", movie_session)]
  ∧ _transcode_sessions (cleanup_expired_sessions plain_host 131 movie_world) = [].
Proof.
  assert (Hids : unique_ids movie_world).
  { unfold unique_ids. simpl. apply NoDup_singleton. }
  split; [exact Hids|].
  rewrite !(expiry_removes_exactly_invalid plain_host _ movie_world Hids).
  split; reflexivity.
Defined.

(** *** Heartbeats and queries *)

Lemma dict_get_filter (P : string * session → Prop) `{∀ kv, Decision (P kv)}
    (k : string) (v : session) (t : list (string * session)) :
  dict_get k t = Some v → P (k, v) → dict_get k (filter P t) = Some v.
Proof.
  intros Hget HP. induction t as [|[k0 v0] t IH]; [discriminate|].
  simpl in Hget. destruct (String.eqb_spec k0 k) as [->|Hne].
  - injection Hget as ->. rewrite filter_cons_True by exact HP. simpl.
    rewrite String.eqb_refl. reflexivity.
  - destruct (decide (P (k0, v0))).
    + rewrite filter_cons_True by assumption. simpl.
      destruct (String.eqb_spec k0 k); [contradiction|]. apply IH, Hget.
    + rewrite filter_cons_False by assumption. apply IH, Hget.
Qed.

Lemma dict_get_filter_None (P : string * session → Prop) `{∀ kv, Decision (P kv)}
    (k : string) (v : session) (t : list (string * session)) :
  NoDup t.*1 → dict_get k t = Some v → ¬ P (k, v) → dict_get k (filter P t) = None.
Proof.
  intros Hnd Hget HP. apply dict_get_None_notin. intros Hin.
  apply list_elem_of_fmap in Hin as ([k' v'] & Hk & Hin). simpl in Hk. subst k'.
  apply list_elem_of_filter in Hin as [HP' Hin].
  assert (v' = v) as ->; [|contradiction].
  clear HP HP'. induction t as [|[k0 v0] t IH]; [apply elem_of_nil in Hin; destruct Hin|].
  apply NoDup_cons in Hnd as [Hnotin Hnd]. simpl in Hget.
  apply elem_of_cons in Hin as [Heq|Hin].
  - injection Heq as <- <-. rewrite String.eqb_refl in Hget. congruence.
  - destruct (String.eqb_spec k0 k) as [->|Hne].
    + exfalso. apply Hnotin. apply list_elem_of_fmap. exists (k, v'). split; [reflexivity|exact Hin].
    + apply IH; assumption.
Qed.

(** The heartbeat decides expiry. After [touch_session] at [now], the next
    expiry clean-up keeps a session whose transcoder is running if it comes
    within the thirty seconds of the heartbeat timeout, and removes the
    session, running or not, if it comes later. *)
Theorem heartbeat_decides_expiry (h : host) (now later : Q) (session_id : string)
    (s : session) (w : world) :
  unique_ids w →
  dict_get session_id (_transcode_sessions w) = Some s →
  let touched := touch_session now session_id w in
  touched.1 = true
  ∧ get_session session_id touched.2 = Some (set_last_access now s)
  ∧ (returncode_is_None w (process s) = true →
     (later - now <= _HEARTBEAT_TIMEOUT_SEC)%Q →
     get_session session_id (cleanup_expired_sessions h later touched.2)
     = Some (set_last_access now s))
  ∧ ((_HEARTBEAT_TIMEOUT_SEC < later - now)%Q →
     get_session session_id (cleanup_expired_sessions h later touched.2) = None).
Proof.
  intros Hids Hget touched. subst touched. unfold touch_session. rewrite Hget.
  simpl fst. simpl snd. split; [reflexivity|].
  set (w1 := with_sessions _ w).
  assert (Hids1 : unique_ids w1) by (apply dict_set_NoDup, Hids).
  assert (Hget1 : dict_get session_id (_transcode_sessions w1) = Some (set_last_access now s))
    by apply dict_get_set_eq.
  split; [exact Hget1|]. unfold get_session.
  unfold cleanup_expired_sessions. cbv zeta. rewrite foldl_stop_sessions.
  rewrite (foldl_pop_filter (λ kv, is_session_valid h w1 later kv.2) _ Hids1).
  split.
  - intros Halive Hsoon. apply dict_get_filter; [exact Hget1|].
    simpl. unfold is_session_valid, _is_process_alive. cbv zeta.
    change (last_access (set_last_access now s)) with now.
    change (process (set_last_access now s)) with (process s).
    apply Qlt_bool_false_iff in Hsoon. rewrite Hsoon.
    change (returncode_is_None w1 (process s)) with (returncode_is_None w (process s)).
    rewrite Halive. reflexivity.
  - intros Hlate. apply (dict_get_filter_None _ _ (set_last_access now s));
      [exact Hids1|exact Hget1|].
    simpl. unfold is_session_valid. cbv zeta.
    change (last_access (set_last_access now s)) with now.
    apply Qlt_bool_iff in Hlate. rewrite Hlate. discriminate.
Qed.

Lemma heartbeat_decides_expiry_witness :
  unique_ids movie_world
  ∧ get_session "v1"
      (cleanup_expired_sessions plain_host 200 (touch_session 170 "v1" movie_world).2)
    = Some (set_last_access 170 movie_session)
  ∧ get_session "v1"
      (cleanup_expired_sessions plain_host 201 (touch_session 170 "v1" movie_world).2)
    = None.
Proof.
  assert (Hids : unique_ids movie_world).
  { unfold unique_ids. simpl. apply NoDup_singleton. }
  split; [exact Hids|]. split.
  - destruct (heartbeat_decides_expiry plain_host 170 200 "v1" movie_session movie_world
                Hids eq_refl) as (_ & _ & Hkeep & _).
    apply Hkeep; [reflexivity|discriminate].
  - destruct (heartbeat_decides_expiry plain_host 170 201 "v1" movie_session movie_world
                Hids eq_refl) as (_ & _ & _ & Hdrop).
    apply Hdrop. reflexivity.
Defined.

(** The query operations keep the registry invariant: a heartbeat, a
    progress poll and the removal of a URL mapping leave the table a dict,
    the index tight and the resume monitors on the right URL; in
    particular no index entry is left dangling by them. *)
Theorem queries_keep_registry (now : Q) (session_id url_ : string) (w : world) :
  registry_ok w →
  registry_ok (touch_session now session_id w).2
  ∧ registry_ok (get_session_progress now session_id w).2
  ∧ registry_ok (clear_url_session url_ w).2
  ∧ index_sound (clear_url_session url_ w).2
  ∧ (clear_url_session url_ w).1 = _url_to_session w !! url_
  ∧ _url_to_session (clear_url_session url_ w).2 !! url_ = None
  ∧ _transcode_sessions (clear_url_session url_ w).2 = _transcode_sessions w.
Proof.
  intros Hok.
  assert (Htouch : registry_ok (touch_session now session_id w).2).
  { unfold touch_session.
    destruct (dict_get session_id (_transcode_sessions w)) as [s|] eqn:Hget; [|exact Hok].
    apply (evolves_update session_id s); [exact Hget|reflexivity|exact Hok]. }
  assert (Hclear : registry_ok (clear_url_session url_ w).2)
    by (apply (evolves_delete url_ w), Hok).
  split; [exact Htouch|]. split.
  - unfold get_session_progress. cbv zeta.
    destruct (get_session session_id (touch_session now session_id w).2) as [s|];
      [|exact Htouch].
    destruct (dirs (touch_session now session_id w).2 !! dir s ≫= d_playlist);
      exact Htouch.
  - split; [exact Hclear|]. split; [apply tight_sound, Hclear|].
    split; [reflexivity|]. split; [apply lookup_delete_eq|reflexivity].
Qed.

Lemma queries_keep_registry_witness :
  registry_ok movie_world
  ∧ registry_ok (get_session_progress 120 "v1" movie_world).2
  ∧ index_sound (clear_url_session movie_url movie_world).2.
Proof.
  assert (Hok : registry_ok movie_world).
  { split; [apply NoDup_singleton|]. split.
    - intros u sid Hu.
      change (_url_to_session movie_world) with ({[movie_url := "v1"]} : gmap string string)
        in Hu.
      apply lookup_singleton_Some in Hu as [<- <-].
      split; [reflexivity|]. exists movie_session. split; reflexivity.
    - intros pid sid u Hin. apply elem_of_nil in Hin. destruct Hin. }
  split; [exact Hok|].
  destruct (queries_keep_registry 120 "v1" movie_url movie_world Hok)
    as (_ & Hprogress & _ & Hsound & _).
  split; assumption.
Defined.

(** *** Reading a regenerated playlist back *)

Lemma contains_char_cons (a c : ascii) (s : string) :
  contains (String a "") (String c s) = Ascii.eqb c a || contains (String a "") s.
Proof.
  change (contains (String a "") (String c s))
    with ((if ascii_dec a c then String.prefix "" s else false) || contains (String a "") s).
  destruct (ascii_dec a c) as [<-|Hne].
  - rewrite Ascii.eqb_refl. destruct s; reflexivity.
  - destruct (Ascii.eqb_spec c a) as [->|_]; [contradiction|reflexivity].
Qed.

Lemma contains_char_app (a : ascii) (s t : string) :
  contains (String a "") (s +:+ t) = contains (String a "") s || contains (String a "") t.
Proof.
  induction s as [|c s IH].
  - change ("" +:+ t) with t. destruct t; reflexivity.
  - change (String c s +:+ t) with (String c (s +:+ t)).
    rewrite !contains_char_cons, IH. apply orb_assoc.
Qed.

Lemma findall_extinf_no_hash (s : string) :
  contains "#" s = false → findall_extinf s = [].
Proof.
  induction s as [|c s IH]; intros Hno; [reflexivity|].
  rewrite contains_char_cons in Hno. apply orb_false_iff in Hno as [Hc Hs].
  change (findall_extinf (String c s))
    with ((if String.prefix "#EXTINF:" (String c s)
           then match digit_run (String.substring 8 (String.length (String c s) - 8)
                                   (String c s)) with
                | "" => []
                | run => [run]
                end
           else []) ++ findall_extinf s).
  rewrite (IH Hs).
  change (String.prefix "#EXTINF:" (String c s))
    with (if ascii_dec "#" c then String.prefix "EXTINF:" s else false).
  destruct (ascii_dec "#" c) as [<-|_]; [discriminate|reflexivity].
Qed.

Lemma uint_no_hash (d : Decimal.uint) : contains "#" (NilEmpty.string_of_uint d) = false.
Proof.
  induction d; simpl NilEmpty.string_of_uint; [reflexivity|..];
    rewrite contains_char_cons, IHd; reflexivity.
Qed.

Lemma str_no_hash (n : Z) : contains "#" (py.str n) = false.
Proof.
  unfold py.str, NilZero.string_of_int.
  destruct (Z.to_int n) as [d|d]; unfold NilZero.string_of_uint.
  - destruct d; try apply (uint_no_hash (_ d)); reflexivity.
  - rewrite contains_char_cons. simpl orb.
    destruct d; try apply (uint_no_hash (_ d)); reflexivity.
Qed.

(** What [#EXTINF] durations a regenerated playlist holds: one per segment,
    each the segment duration to six decimals. *)
Lemma playlist_lines_durations (n : Z) (segments : list (Z * string)) :
  Forall (λ seg, contains "#" seg.2 = false) segments →
  concat (map findall_extinf (playlist_lines n segments))
  = replicate (length segments) "3.000000".
Proof.
  intros Hnames. unfold playlist_lines. rewrite map_app, concat_app.
  assert (Hhead : concat (map findall_extinf
             ["#EXTM3U"; "#EXT-X-VERSION:3";
              "#EXT-X-TARGETDURATION:" +:+ str (int_of_float get_hls_segment_duration + 1);
              "#EXT-X-MEDIA-SEQUENCE:" +:+ str n; "#EXT-X-PLAYLIST-TYPE:EVENT"]) = []).
  { cbn [map concat].
    replace (findall_extinf ("#EXT-X-MEDIA-SEQUENCE:" +:+ str n)) with (@nil string).
    - vm_compute. reflexivity.
    - symmetry.
      change ("#EXT-X-MEDIA-SEQUENCE:" +:+ str n)
        with (String "#" ("EXT-X-MEDIA-SEQUENCE:" +:+ str n)).
      change (findall_extinf (String "#" ("EXT-X-MEDIA-SEQUENCE:" +:+ str n)))
        with ((if String.prefix "#EXTINF:" (String "#" ("EXT-X-MEDIA-SEQUENCE:" +:+ str n))
               then match digit_run
                            (String.substring 8
                               (String.length
                                  (String "#" ("EXT-X-MEDIA-SEQUENCE:" +:+ str n)) - 8)
                               (String "#" ("EXT-X-MEDIA-SEQUENCE:" +:+ str n))) with
                    | "" => []
                    | run => [run]
                    end
               else []) ++ findall_extinf ("EXT-X-MEDIA-SEQUENCE:" +:+ str n)).
      rewrite findall_extinf_no_hash
        by (rewrite contains_char_app, str_no_hash; reflexivity).
      reflexivity. }
  rewrite Hhead. cbn [app].
  induction Hnames as [|[num name] segments Hname _ IH]; [reflexivity|].
  cbn [map concat app length replicate]. rewrite IH.
  simpl in Hname. rewrite (findall_extinf_no_hash name Hname).
  replace (findall_extinf ("#EXTINF:" +:+ format_6f get_hls_segment_duration +:+ ","))
    with ["3.000000"] by (vm_compute; reflexivity).
  reflexivity.
Qed.

Lemma sum_floats_segments (k : nat) (acc : Q) :
  ∃ total,
    foldl (λ acc s,
             bind acc (λ total,
               match float_of_string s with
               | Some x => Ok (total + x)%Q
               | None => Raise (ValueError ("could not convert string to float: " +:+ s))
               end))
          (Ok acc) (replicate k "3.000000") = Ok total
    ∧ (total == acc + 3 * inject_Z (Z.of_nat k))%Q.
Proof.
  revert acc. induction k as [|k IH]; intros acc.
  - exists acc. split; [reflexivity|]. simpl. ring.
  - cbn [replicate foldl]. 
    change (float_of_string "3.000000") with (Some (3000000 # 1000000)).
    cbn [bind]. destruct (IH (acc + (3000000 # 1000000))%Q) as (total & -> & Htotal).
    exists total. split; [reflexivity|]. rewrite Htotal, Nat2Z.inj_succ, <- Z.add_1_r.
    rewrite inject_Z_plus.
    assert (H3 : (3000000 # 1000000 == 3)%Q) by reflexivity.
    rewrite H3. ring.
Qed.

Lemma playlist_segment_names (d : dir_state) (n : Z) :
  (∀ name size, d_files d !! name = Some size → contains "#" name = false) →
  Forall (λ seg, contains "#" seg.2 = false) (playlist_segments d n).
Proof.
  intros Hnames. apply Forall_forall. intros [num name] Hin. simpl.
  unfold playlist_segments in Hin.
  apply list_elem_of_omap in Hin as ([name' size] & Hin & Hkeep).
  apply elem_of_sorted_glob in Hin as [Hfile _].
  destruct (segment_number name'); [|discriminate].
  destruct (_ && _); [|discriminate]. injection Hkeep as _ <-.
  apply (Hnames _ _ Hfile).
Qed.

Lemma regenerate_dir_some (d : dir_state) (n : Z) :
  playlist_segments d n ≠ [] →
  regenerate_dir n d
  = set_playlist (Some (playlist_lines n (playlist_segments d n))) d.
Proof.
  intros Hsome. unfold regenerate_dir.
  destruct (playlist_segments d n); [contradiction|reflexivity].
Qed.

(** The playlist [_regenerate_playlist] writes reads back. When the files of
    a session's directory have no ['#'] in their names and some segment
    qualifies, a progress poll after the regeneration reports one segment
    per qualifying file and three seconds for each, and [_calc_hls_duration]
    returns the same total whatever segment count it is given. *)
Theorem progress_reads_regenerated_playlist (now : Q) (session_id : string) (n : Z)
    (count : nat) (s : session) (d : dir_state) (w : world) :
  dict_get session_id (_transcode_sessions w) = Some s →
  dirs w !! dir s = Some d →
  (∀ name size, d_files d !! name = Some size → contains "#" name = false) →
  playlist_segments d n ≠ [] →
  let w1 := _regenerate_playlist (dir s) n w in
  ∃ total,
    (get_session_progress now session_id w1).1
    = Ok (Some {| segment_count := length (playlist_segments d n);
                  progress_duration := total |})
    ∧ (total == 3 * inject_Z (Z.of_nat (length (playlist_segments d n))))%Q
    ∧ _calc_hls_duration (dirs w1 !! dir s) count = Ok total.
Proof.
  intros Hget Hdir Hnames Hsome w1. subst w1.
  unfold _regenerate_playlist. rewrite Hdir, (regenerate_dir_some d n Hsome).
  pose proof (playlist_lines_durations n _ (playlist_segment_names d n Hnames)) as Hdur.
  destruct (sum_floats_segments (length (playlist_segments d n)) 0) as (total & Hsum & Htotal).
  exists total. split; [|split].
  - unfold get_session_progress, touch_session, get_session. cbv zeta.
    simpl _transcode_sessions. rewrite Hget. simpl snd. simpl _transcode_sessions.
    rewrite dict_get_set_eq.
    change (dir (set_last_access now s)) with (dir s).
    simpl dirs. rewrite lookup_insert_eq. simpl mbind. cbv beta iota. cbn [fst].
    rewrite Hdur. unfold sum_floats. rewrite Hsum. simpl. rewrite length_replicate.
    reflexivity.
  - rewrite Htotal. ring.
  - unfold _calc_hls_duration. simpl dirs. rewrite lookup_insert_eq. simpl mbind.
    cbv beta iota. rewrite Hdur.
    destruct (length (playlist_segments d n)) as [|k] eqn:Hlen.
    { apply length_zero_iff_nil in Hlen. contradiction. }
    exact Hsum.
Qed.

Lemma progress_reads_regenerated_playlist_witness :
  ∃ total,
    (get_session_progress 130 "v1" (_regenerate_playlist movie_dir 2 movie_world)).1
    = Ok (Some {| segment_count := 2; progress_duration := total |})
    ∧ (total == 6)%Q.
Proof.
  destruct (progress_reads_regenerated_playlist 130 "v1" 2 0 movie_session
              (movie_dir_state "v1" 100 0) movie_world) as (total & Hprogress & Htotal & _).
  - reflexivity.
  - reflexivity.
  - intros name size Hfile. apply elem_of_list_to_map_2 in Hfile.
    repeat (apply elem_of_cons in Hfile as [[= -> _]|Hfile]; [reflexivity|]).
    apply elem_of_nil in Hfile. destruct Hfile.
  - vm_compute. discriminate.
  - exists total. split; [exact Hprogress|]. rewrite Htotal. reflexivity.
Defined.

(** *** Shutdown *)

Lemma kill_never_revives (p q : process_handle) (w : world) :
  returncode_is_None w p = false → returncode_is_None (_kill_process q w).2 p = false.
Proof.
  intros Hdead. unfold _kill_process. destruct q as [|pid]; [exact Hdead|].
  destruct (procs w !! pid) as [[| |]|] eqn:Hq; try exact Hdead.
  unfold returncode_is_None in *. destruct p as [|pid']; [reflexivity|]. simpl.
  destruct (decide (pid = pid')) as [<-|Hne].
  - rewrite lookup_insert_eq. reflexivity.
  - rewrite lookup_insert_ne by exact Hne. exact Hdead.
Qed.

Lemma kill_other_process (q : process_handle) (pid : nat) (w : world) :
  q ≠ Process pid → procs (_kill_process q w).2 !! pid = procs w !! pid.
Proof.
  intros Hne. unfold _kill_process. destruct q as [|pid']; [reflexivity|].
  destruct (procs w !! pid') as [[| |]|]; try reflexivity.
  simpl. apply lookup_insert_ne. congruence.
Qed.

Lemma kill_all_frame (l : list (string * session)) (w : world) :
  let w' := foldl (λ w kv, (_kill_process (process kv.2) w).2) w l in
  _transcode_sessions w' = _transcode_sessions w
  ∧ _url_to_session w' = _url_to_session w
  ∧ dirs w' = dirs w
  ∧ spawned w' = spawned w
  ∧ _background_tasks w' = _background_tasks w.
Proof.
  revert w. induction l as [|kv l IH]; intros w; simpl; [tauto|].
  destruct (IH (_kill_process (process kv.2) w).2) as (H1 & H2 & H3 & H4 & H5).
  destruct (kill_frame (process kv.2) w) as (K1 & K2 & K3 & K4 & _ & K5).
  rewrite H1, H2, H3, H4, H5. tauto.
Qed.

Lemma kill_all_keeps_dead (l : list (string * session)) (p : process_handle) (w : world) :
  returncode_is_None w p = false →
  returncode_is_None (foldl (λ w kv, (_kill_process (process kv.2) w).2) w l) p = false.
Proof.
  revert w. induction l as [|kv l IH]; intros w Hdead; [exact Hdead|].
  simpl. apply IH, kill_never_revives, Hdead.
Qed.

Lemma kill_all_dead (l : list (string * session)) (w : world) (kv : string * session) :
  kv ∈ l →
  returncode_is_None (foldl (λ w kv, (_kill_process (process kv.2) w).2) w l)
    (process kv.2) = false.
Proof.
  revert w. induction l as [|kv0 l IH]; intros w Hin; [apply elem_of_nil in Hin; destruct Hin|].
  simpl. apply elem_of_cons in Hin as [->|Hin].
  - apply kill_all_keeps_dead, kill_process_dead.
  - apply IH, Hin.
Qed.

Lemma kill_all_others (l : list (string * session)) (w : world) (pid : nat) :
  (∀ kv, kv ∈ l → process kv.2 ≠ Process pid) →
  procs (foldl (λ w kv, (_kill_process (process kv.2) w).2) w l) !! pid = procs w !! pid.
Proof.
  revert w. induction l as [|kv0 l IH]; intros w Hnone; [reflexivity|].
  simpl. rewrite IH by (intros kv Hin; apply Hnone; right; exact Hin).
  apply kill_other_process, Hnone. left.
Qed.

(** Shutdown stops every transcoder a session holds and empties the table;
    it touches no other process, and it leaves the URL index, the
    directories and the background tasks as they are, so that every index
    entry there was names a session that is gone. *)
Theorem shutdown_stops_every_session (w : world) :
  let w' := shutdown w in
  _transcode_sessions w' = []
  ∧ (∀ sid s, (sid, s) ∈ _transcode_sessions w → returncode_is_None w' (process s) = false)
  ∧ (∀ pid, (∀ sid s, (sid, s) ∈ _transcode_sessions w → process s ≠ Process pid) →
       procs w' !! pid = procs w !! pid)
  ∧ _url_to_session w' = _url_to_session w
  ∧ dirs w' = dirs w
  ∧ _background_tasks w' = _background_tasks w
  ∧ (∀ u sid, _url_to_session w !! u = Some sid → ¬ index_sound w').
Proof.
  intros w'. subst w'. unfold shutdown.
  destruct (kill_all_frame (_transcode_sessions w) w) as (_ & Hi & Hd & _ & Ht).
  split; [reflexivity|]. split; [|split; [|split; [exact Hi|split; [exact Hd|split]]]].
  - intros sid s Hin. apply (kill_all_dead _ w (sid, s) Hin).
  - intros pid Hnone. apply (kill_all_others _ w pid). intros [sid s] Hin. apply (Hnone sid s Hin).
  - exact Ht.
  - intros u sid Hu Hsound. destruct (Hsound u sid) as [s Hs]; [simpl; rewrite Hi; exact Hu|].
    discriminate Hs.
Qed.

Lemma shutdown_stops_every_session_witness :
  returncode_is_None movie_world (Process 1) = true
  ∧ returncode_is_None (shutdown movie_world) (Process 1) = false
  ∧ ¬ index_sound (shutdown movie_world).
Proof.
  split; [reflexivity|].
  destruct (shutdown_stops_every_session movie_world) as (_ & Hdead & _ & _ & _ & _ & Hindex).
  split.
  - apply (Hdead "v1" movie_session). apply list_elem_of_here.
  - apply (Hindex movie_url "v1"). reflexivity.
Defined.

(** *** A seek that restarts the transcoder *)

Lemma cleared_segment (n k : Z) (d : dir_state) :
  0 ≤ k →
  d_files (clear_for_seek n d) !! segment_name k
  = if k <? n then d_files d !! segment_name k else None.
Proof.
  intros Hk. unfold clear_for_seek. simpl d_files.
  assert (Hunlinked : unlinked_by_seek n (segment_name k) = (n <=? k)).
  { unfold unlinked_by_seek. rewrite segment_name_matches, (segment_number_name k Hk).
    simpl andb. assert (Hsub : glob_match "sub" ".vtt" (segment_name k) = false) by reflexivity.
    rewrite Hsub. apply orb_false_r. }
  destruct (Z.ltb_spec k n) as [Hlt|Hge].
  - destruct (d_files d !! segment_name k) as [size|] eqn:Hfile.
    + apply map_lookup_filter_Some. split; [exact Hfile|]. simpl. rewrite Hunlinked.
      apply Z.leb_gt, Hlt.
    + apply map_lookup_filter_None. left. exact Hfile.
  - apply map_lookup_filter_None. right. intros size _. simpl. rewrite Hunlinked.
    assert (Hle : (n <=? k) = true) by (apply Z.leb_le; exact Hge). rewrite Hle. discriminate.
Qed.

Lemma cleared_subtitle (n : Z) (d : dir_state) (name : string) :
  glob_match "sub" ".vtt" name = true → d_files (clear_for_seek n d) !! name = None.
Proof.
  intros Hsub. unfold clear_for_seek. simpl d_files.
  apply map_lookup_filter_None. right. intros size _. simpl.
  unfold unlinked_by_seek. rewrite Hsub, orb_true_r. discriminate.
Qed.

(** What a restarting seek does to the session's directory and to the
    session. When the target segment is not on disk, the playlist and the
    extracted subtitle files are deleted, every segment numbered at or above
    the target is deleted and every segment below it is kept; and when the
    command can be planned, exactly one process is spawned with it, and the
    session afterwards has that process as its process and [seek_time] as
    its seek offset, its other fields as before, under its index entry. *)
Theorem restarting_seek_keeps_earlier_segments (h : host) (now : Q) (env : seek_env)
    (session_id : string) (seek_time : Q) (s : session) (d : dir_state) (w : world) :
  dict_get session_id (_transcode_sessions w) = Some s →
  is_vod s = true →
  dirs w !! dir s = Some d →
  let n := int_of_float (seek_time / get_hls_segment_duration) in
  segment_materialized w (dir s) n = false →
  let out := seek_transcode h now env session_id seek_time w in
  let s' :=
    {| dir := dir s; process := Process (sk_pid env); started := started s; url := url s;
       is_vod := is_vod s; last_access := last_access s; subtitles := subtitles s;
       duration_ := duration_ s; seek_offset := seek_time;
       series_id := series_id s; episode_id := episode_id s;
       username := username s; source_id := source_id s |} in
  (∃ d', dirs out.2 !! dir s = Some d'
     ∧ d_playlist d' = None
     ∧ (∀ k, 0 ≤ k →
          d_files d' !! segment_name k
          = if k <? n then d_files d !! segment_name k else None)
     ∧ (∀ name, glob_match "sub" ".vtt" name = true → d_files d' !! name = None))
  ∧ (∀ cmd, seek_command h s (seek_prepare h now s n w).1 seek_time n = Ok cmd →
       spawned out.2 = spawned w ++ [(sk_pid env, cmd)]
       ∧ dict_get session_id (_transcode_sessions out.2) = Some s'
       ∧ (url s ≠ "" → _url_to_session out.2 !! url s = Some session_id)
       ∧ out.1 = if wo_ready (sk_wait env)
                 then Ok (SeekDone n seek_time)
                 else Raise (HTTPException 500
                               "Seek transcode timed out waiting for playlist"))
  ∧ (∀ e, seek_command h s (seek_prepare h now s n w).1 seek_time n = Raise e →
       out.1 = Raise e ∧ spawned out.2 = spawned w
       ∧ _transcode_sessions out.2 = _transcode_sessions w).
Proof.
  intros Hget Hvod Hdir n Hmiss out s'. subst out. unfold seek_transcode.
  rewrite Hget, Hvod. simpl negb. cbv iota. fold n. rewrite Hmiss.
  pose proof (seek_prepare_frame h now s n w) as (Hs & Hi & Hsp & Hd & _).
  destruct (seek_prepare h now s n w) as [media_info w3]. simpl in Hs, Hi, Hsp, Hd.
  simpl fst. rewrite Hdir in Hd. simpl in Hd.
  assert (Hfiles : ∀ d', d_files d' = d_files (clear_for_seek n d) →
            d_playlist d' = None →
            d_playlist d' = None
            ∧ (∀ k, 0 ≤ k →
                 d_files d' !! segment_name k
                 = if k <? n then d_files d !! segment_name k else None)
            ∧ (∀ name, glob_match "sub" ".vtt" name = true → d_files d' !! name = None)).
  { intros d' Hf Hp. split; [exact Hp|]. rewrite Hf.
    split; [intros k Hk; apply cleared_segment, Hk|apply cleared_subtitle]. }
  destruct (seek_command h s media_info seek_time n) as [cmd|e].
  - unfold seek_respawn, _update_seek_session. simpl _transcode_sessions.
    rewrite Hs, Hget. simpl negb. cbv iota.
    change (set_seek_offset seek_time (set_process (Process (sk_pid env)) s)) with s'.
    set (w4 := with_sessions (dict_set session_id s' (_transcode_sessions w)) _).
    set (w5 := if truthy (url s) then _ else w4).
    assert (H5 : dirs w5 = dirs w3 ∧ spawned w5 = spawned w ++ [(sk_pid env, cmd)]
                 ∧ _transcode_sessions w5 = dict_set session_id s' (_transcode_sessions w)
                 ∧ (url s ≠ "" → _url_to_session w5 !! url s = Some session_id)).
    { subst w5. unfold truthy. destruct (String.eqb_spec (url s) "") as [Hu|Hu]; simpl.
      - rewrite Hsp. tauto.
      - rewrite Hsp. split; [reflexivity|]. split; [reflexivity|]. split; [reflexivity|].
        intros _. apply lookup_insert_eq. }
    destruct H5 as (Hd5 & Hsp5 & Hs5 & Hi5). clearbody w5.
    set (w6 := _spawn_background_task _ (persist_seek_offset (dir s) seek_time w5)).
    assert (H6 : (∃ d', dirs w6 !! dir s = Some d'
                        ∧ d_files d' = d_files (clear_for_seek n d) ∧ d_playlist d' = None)
                 ∧ spawned w6 = spawned w5 ∧ _transcode_sessions w6 = _transcode_sessions w5
                 ∧ _url_to_session w6 = _url_to_session w5).
    { subst w6. unfold persist_seek_offset. rewrite Hd5, Hd.
      destruct (d_session_json (clear_for_seek n d)) as [[info|]|]; simpl;
        rewrite ?lookup_insert_eq, ?Hd5, ?Hd;
        (split; [eexists; split; [reflexivity|split; reflexivity]|tauto]). }
    destruct H6 as ((d' & Hd6 & Hf6 & Hp6) & Hsp6 & Hs6 & Hi6). clearbody w6.
    destruct (after_wait_frame (sk_pid env) (sk_wait env) w6)
      as (Hs7 & Hi7 & Hd7 & Hsp7 & _).
    assert (Hout : ∀ r : result seek_response,
              (∃ d', dirs (r, after_wait (sk_pid env) (sk_wait env) w6).2 !! dir s = Some d'
                 ∧ d_playlist d' = None
                 ∧ (∀ k, 0 ≤ k →
                      d_files d' !! segment_name k
                      = if k <? n then d_files d !! segment_name k else None)
                 ∧ (∀ name, glob_match "sub" ".vtt" name = true → d_files d' !! name = None))
              ∧ spawned (r, after_wait (sk_pid env) (sk_wait env) w6).2
                = spawned w ++ [(sk_pid env, cmd)]
              ∧ dict_get session_id
                  (_transcode_sessions (r, after_wait (sk_pid env) (sk_wait env) w6).2)
                = Some s'
              ∧ (url s ≠ "" →
                 _url_to_session (r, after_wait (sk_pid env) (sk_wait env) w6).2 !! url s
                 = Some session_id)).
    { intros r. simpl snd. rewrite Hd7, Hsp7, Hs7, Hi7, Hsp6, Hs6, Hi6, Hsp5, Hs5.
      split; [exists d'; split; [exact Hd6|apply Hfiles; assumption]|].
      split; [reflexivity|]. split; [apply dict_get_set_eq|exact Hi5]. }
    destruct (wo_ready (sk_wait env)); simpl negb; cbv iota.
    + destruct (Hout (Ok (SeekDone n seek_time))) as (Hdirs & Hspawn & Hsess & Hidx).
      split; [exact Hdirs|]. split; [|intros e [=]].
      intros cmd' [= <-]. tauto.
    + destruct (Hout (Raise (HTTPException 500
                               "Seek transcode timed out waiting for playlist")))
        as (Hdirs & Hspawn & Hsess & Hidx).
      split; [exact Hdirs|]. split; [|intros e [=]].
      intros cmd' [= <-]. tauto.
  - simpl. split; [|split; [intros cmd [=]|]].
    + exists (clear_for_seek n d). split; [exact Hd|]. apply Hfiles; reflexivity.
    + intros e' [= <-]. rewrite Hsp, Hs. tauto.
Qed.

Lemma restarting_seek_keeps_earlier_segments_witness :
  segment_materialized movie_world movie_dir 10 = false
  ∧ (process <$> dict_get "v1"
       (_transcode_sessions (seek_transcode plain_host 120 ready_seek "v1" 30 movie_world).2))
    = Some (Process 2)
  ∧ (seek_offset <$> dict_get "v1"
       (_transcode_sessions (seek_transcode plain_host 120 ready_seek "v1" 30 movie_world).2))
    = Some 30%Q
  ∧ ∃ d', dirs (seek_transcode plain_host 120 ready_seek "v1" 30 movie_world).2 !! movie_dir
          = Some d'
          ∧ d_files d' !! "seg003.ts" = Some 200000
          ∧ d_playlist d' = None
          ∧ length (spawned (seek_transcode plain_host 120 ready_seek "v1" 30 movie_world).2)
            = 1%nat.
Proof.
  split; [reflexivity|].
  destruct (restarting_seek_keeps_earlier_segments plain_host 120 ready_seek "v1" 30
              movie_session (movie_dir_state "v1" 100 0) movie_world)
    as ((d' & Hdir & Hplaylist & Hsegs & _) & Hplanned & _).
  - reflexivity.
  - reflexivity.
  - reflexivity.
  - reflexivity.
  - destruct (Hplanned
                (match seek_command plain_host movie_session None 30 10 with
                 | Ok c => c
                 | Raise _ => []
                 end)) as (_ & Hsession & _); [vm_compute; reflexivity|].
    split; [rewrite Hsession; reflexivity|]. split; [rewrite Hsession; reflexivity|].
    exists d'. split; [exact Hdir|]. split; [exact (Hsegs 3 ltac:(lia))|].
    split; [exact Hplaylist|reflexivity].
Defined.

(** *** The end of a background task *)

(** A finished task leaves the task set, and only a resume monitor whose
    transcoder failed quickly touches the registry: the end of a stderr
    monitor or of a seek monitor, of a resume monitor whose process ended
    with code zero, and of one that ended ten seconds or more after the
    monitor started, leave the session table, the URL index and the
    directories as they are. *)
Theorem task_end_leaves_registry (i : nat) (returncode : Z) (elapsed : Q) (t : task)
    (w : world) :
  _background_tasks w !! i = Some t →
  let w' := task_done i returncode elapsed w in
  _background_tasks w' = delete i (_background_tasks w)
  ∧ ((∀ pid sid u, t = MonitorResume pid sid u →
        observed_returncode pid returncode w = 0
        ∨ (_QUICK_FAILURE_THRESHOLD_SEC <= elapsed)%Q) →
     _transcode_sessions w' = _transcode_sessions w
     ∧ _url_to_session w' = _url_to_session w
     ∧ dirs w' = dirs w).
Proof.
  intros Hi w'. subst w'. unfold task_done. rewrite Hi.
  set (w1 := with_tasks (delete i (_background_tasks w)) w).
  assert (Hrec : ∀ pid rc, _background_tasks (record_exit pid rc w1) = _background_tasks w1
                           ∧ _transcode_sessions (record_exit pid rc w1) = _transcode_sessions w
                           ∧ _url_to_session (record_exit pid rc w1) = _url_to_session w
                           ∧ dirs (record_exit pid rc w1) = dirs w).
  { intros pid rc. unfold record_exit. destruct (procs w1 !! pid) as [[| |]|]; simpl; tauto. }
  destruct t as [pid sid|pid sid u|pid sid].
  - split; [reflexivity|]. intros _. simpl. tauto.
  - unfold _monitor_resume_ffmpeg.
    change (observed_returncode pid returncode w1) with (observed_returncode pid returncode w).
    set (rc := observed_returncode pid returncode w).
    destruct (Hrec pid rc) as (Ht & Hs & Hidx & Hd).
    split.
    + destruct (negb (rc =? 0)); [|exact Ht].
      destruct (Qlt_bool elapsed _QUICK_FAILURE_THRESHOLD_SEC); [|exact Ht].
      cbv zeta. destruct (dict_get sid _); simpl; exact Ht.
    + intros Hquiet. destruct (Hquiet pid sid u eq_refl) as [Hzero|Hlate].
      * change (rc = 0) in Hzero. rewrite Hzero. simpl. destruct (Hrec pid 0) as (_ & ? & ? & ?). tauto.
      * apply Qlt_bool_false_iff in Hlate. rewrite Hlate.
        destruct (negb (rc =? 0)); tauto.
  - destruct (Hrec pid returncode) as (Ht & Hs & Hidx & Hd).
    split; [exact Ht|]. intros _. tauto.
Qed.

Lemma task_end_leaves_registry_witness :
  let w := _spawn_background_task (MonitorResume 1 "v1" movie_url) movie_world in
  _background_tasks (task_done 0 1 12 w) = []
  ∧ _transcode_sessions (task_done 0 1 12 w) = _transcode_sessions movie_world
  ∧ _url_to_session (task_done 0 1 12 w) = _url_to_session movie_world.
Proof.
  intros w.
  destruct (task_end_leaves_registry 0 1 12 (MonitorResume 1 "v1" movie_url) w eq_refl)
    as (Htasks & Hquiet).
  split; [exact Htasks|].
  destruct Hquiet as (Hs & Hi & _); [|split; assumption].
  intros pid sid u _. right. discriminate.
Defined.

(** ** Session listings and admission *)

Lemma insert_by_started_perm (x : string * session) (l : list (string * session)) :
  insert_by_started x l ≡ₚ x :: l.
Proof.
  induction l as [|y l IH]; simpl; [reflexivity|].
  destruct (Qle_bool _ _); [reflexivity|].
  rewrite IH. apply Permutation_swap.
Qed.

Lemma sorted_by_started_perm (l : list (string * session)) : sorted_by_started l ≡ₚ l.
Proof.
  induction l as [|x l IH]; simpl; [reflexivity|].
  rewrite insert_by_started_perm, IH. reflexivity.
Qed.

Lemma sorted_equal_starts (t : Q) (l : list (string * session)) :
  Forall (λ kv, Qeq_bool (started kv.2) t = true) l → sorted_by_started l = l.
Proof.
  induction l as [|x l IH]; intros Hall; [reflexivity|].
  apply Forall_cons in Hall as [Hx Hl]. simpl. rewrite (IH Hl).
  apply insert_below_all. apply Forall_forall. intros y Hy.
  rewrite Forall_forall in Hl. specialize (Hl y Hy).
  apply Qeq_bool_iff in Hx, Hl. unfold started_le. rewrite Hx, Hl. apply Qle_refl.
Qed.

(** [get_user_sessions] and [get_source_sessions] list exactly the sessions
    of the user, or of the source, each once, in ascending order of start
    time; sessions that started at the same time keep the order in which
    they were registered. *)
Theorem session_listings_oldest_first (w : world) (user src : string) (t : Q) :
  let same_start (kv : string * session) := Qeq_bool (started kv.2) t = true in
  let of_user := filter (λ kv, username kv.2 = user) (_transcode_sessions w) in
  let of_source := filter (λ kv, source_id kv.2 = src) (_transcode_sessions w) in
  get_user_sessions w user ≡ₚ of_user
  ∧ StronglySorted started_le (get_user_sessions w user)
  ∧ filter same_start (get_user_sessions w user) = filter same_start of_user
  ∧ get_source_sessions w src ≡ₚ of_source
  ∧ StronglySorted started_le (get_source_sessions w src)
  ∧ filter same_start (get_source_sessions w src) = filter same_start of_source.
Proof.
  intros same_start of_user of_source.
  assert (Hstable : ∀ l, filter same_start (sorted_by_started l) = filter same_start l).
  { intros l. rewrite filter_sorted_by_started. apply (sorted_equal_starts t).
    apply Forall_forall. intros kv Hkv. apply list_elem_of_filter in Hkv as [Hkv _]. exact Hkv. }
  unfold get_user_sessions, get_source_sessions.
  repeat split; try apply sorted_by_started_perm; try apply sorted_by_started_sorted;
    apply Hstable.
Qed.

(** With both caps unset, or with the source and the caller below their
    caps, [enforce_stream_limits] admits the caller and changes nothing: no
    error, no session stopped, the world as it was. *)
Theorem admission_under_caps_changes_nothing (h : host) (now : Q) (user : string)
    (src : option string) (umax smax : Z) (w : world) :
  truthy_opt src = false ∨ smax ≤ 0
  ∨ Z.of_nat (length (filter (λ kv, source_id kv.2 = default "" src)
                        (_transcode_sessions w))) < smax →
  umax ≤ 0
  ∨ Z.of_nat (length (filter (λ kv, username kv.2 = user) (_transcode_sessions w))) < umax →
  enforce_stream_limits h now user src umax smax w
  = {| lo_error := None; lo_source_stopped := None; lo_user_stopped := None;
       lo_world := w |}.
Proof.
  intros Hsource Huser. unfold enforce_stream_limits.
  assert (Hcheck : check_source_limit w user src smax = Within).
  { unfold check_source_limit, get_source_sessions.
    destruct (truthy_opt src) eqn:Hsrc; [|reflexivity].
    destruct (Z.ltb_spec 0 smax) as [Hpos|Hle]; [|reflexivity]. simpl.
    rewrite length_sorted_by_started.
    destruct Hsource as [Hc|[Hc|Hc]]; [discriminate|lia|].
    destruct (Z.leb_spec smax (Z.of_nat (length (filter (λ kv, source_id kv.2 = default "" src)
                                                   (_transcode_sessions w)))));
      [lia|reflexivity]. }
  rewrite Hcheck. simpl stop_if.
  assert (Hvictim : user_limit_victim w user umax = None).
  { unfold user_limit_victim, get_user_sessions.
    destruct (Z.ltb_spec 0 umax) as [Hpos|Hle]; [|reflexivity].
    rewrite length_sorted_by_started.
    destruct Huser as [Hc|Hc]; [lia|].
    destruct (Z.leb_spec umax (Z.of_nat (length (filter (λ kv, username kv.2 = user)
                                                   (_transcode_sessions w)))));
      [lia|reflexivity]. }
  rewrite Hvictim. reflexivity.
Qed.

Lemma admission_under_caps_changes_nothing_witness :
  lo_world (enforce_stream_limits plain_host 50 "alice" (Some "src") 3 0 two_alice_sessions)
  = two_alice_sessions.
Proof.
  rewrite (admission_under_caps_changes_nothing plain_host 50 "alice" (Some "src") 3 0
             two_alice_sessions).
  - reflexivity.
  - right. left. lia.
  - right. vm_compute. reflexivity.
Defined.

(** A named caller whose source is at its cap, and who has no session on
    that source to give up, is refused by [start_transcode] with HTTP 429
    before anything else happens: no start is attempted and the world is as
    it was. *)
Theorem refused_start_changes_nothing (h : host) (now : Q) (env : transcode_env)
    (url_ content_type : string) (series_id_ episode_id_ : option Z) (series_name : string)
    (deinterlace_fallback : bool) (user src : string) (umax smax : Z) (w : world) :
  truthy user = true →
  truthy src = true →
  0 < smax →
  smax ≤ Z.of_nat (length (filter (λ kv, source_id kv.2 = src) (_transcode_sessions w))) →
  (∀ kv, kv ∈ _transcode_sessions w → ¬ by_user_on_source user src kv) →
  start_transcode h now env url_ content_type series_id_ episode_id_ series_name
    deinterlace_fallback user src umax smax w
  = {| so_result :=
         Raise (HTTPException 429 ("Source at capacity (" +:+ str smax +:+ " streams)"));
       so_attempts := 0;
       so_world := w |}.
Proof.
  intros Huser Hsrc Hmax Hfull Hnone. unfold start_transcode. rewrite Huser.
  unfold enforce_stream_limits.
  rewrite (source_at_capacity w user (Some src) smax Hsrc Hmax Hfull Hnone).
  reflexivity.
Qed.

Lemma refused_start_changes_nothing_witness :
  start_transcode plain_host 150 failing_transcode "http://vod/other.mp4" "movie" None None ""
    false "bob" "src1" 2 1 movie_world
  = {| so_result := Raise (HTTPException 429 "Source at capacity (1 streams)");
       so_attempts := 0;
       so_world := movie_world |}.
Proof.
  apply (refused_start_changes_nothing plain_host 150 failing_transcode "http://vod/other.mp4"
           "movie" None None "" false "bob" "src1" 2 1 movie_world).
  - reflexivity.
  - reflexivity.
  - lia.
  - vm_compute. discriminate.
  - intros kv Hkv [Huser _].
    apply list_elem_of_singleton in Hkv. subst kv. discriminate.
Defined.

(** ** Reuse of an existing session *)

(** Reuse serves an existing session without starting a transcoder when the
    session is live, when its on-demand transcoder is still running, or
    when its transcoder is gone but segments and a seek offset remain.
    Nothing is spawned or signalled; the session only has its last access
    refreshed, the URL index and the directories stay as they are; and the
    answer names the existing session with its stored duration, seek offset
    and subtitle tracks, and the transcoded duration read from its
    directory. *)
Theorem reuse_serves_existing_session (h : host) (now : Q) (env : resume_env)
    (existing_id url_ : string) (is_vod_ : bool) (content_type : string) (s : session)
    (w : world) :
  dict_get existing_id (_transcode_sessions w) = Some s →
  is_vod_ = false
  ∨ returncode_is_None w (process s) = true
  ∨ (segment_files w (dir s) ≠ [] ∧ (0 < seek_offset s)%Q) →
  let out := _try_reuse_session h now env existing_id url_ is_vod_ content_type w in
  spawned out.2 = spawned w
  ∧ signalled out.2 = signalled w
  ∧ _transcode_sessions out.2
    = dict_set existing_id (set_last_access now s) (_transcode_sessions w)
  ∧ _url_to_session out.2 = _url_to_session w
  ∧ dirs out.2 = dirs w
  ∧ out.1
    = bind (_calc_hls_duration (dirs w !! dir s) (length (segment_files w (dir s))))
        (λ transcoded,
           Ok (Some {| r_session_id := existing_id;
                       r_playlist := "/transcode/" +:+ existing_id +:+ "/stream.m3u8";
                       r_subtitles :=
                         _build_subtitle_tracks existing_id (default [] (subtitles s));
                       r_duration := duration_ s;
                       r_seek_offset := seek_offset s;
                       r_transcoded_duration := Some transcoded |})).
Proof.
  intros Hget Hcase out. subst out.
  assert (Hbuild : ∀ snap w', dirs w' = dirs w →
            snap = {| snap_output_dir := dir s; snap_process := process s;
                      snap_seek_offset := seek_offset s;
                      snap_subtitles := default [] (subtitles s);
                      snap_duration := duration_ s |} →
            bind (_build_session_response existing_id snap w') (λ r, Ok (Some r))
            = bind (_calc_hls_duration (dirs w !! dir s) (length (segment_files w (dir s))))
                (λ transcoded,
                   Ok (Some {| r_session_id := existing_id;
                               r_playlist := "/transcode/" +:+ existing_id +:+ "/stream.m3u8";
                               r_subtitles :=
                                 _build_subtitle_tracks existing_id (default [] (subtitles s));
                               r_duration := duration_ s;
                               r_seek_offset := seek_offset s;
                               r_transcoded_duration := Some transcoded |}))).
  { intros snap w' Hdirs ->. unfold _build_session_response, segment_files. simpl.
    rewrite Hdirs. destruct (_calc_hls_duration _ _); reflexivity. }
  unfold _try_reuse_session.
  destruct is_vod_.
  - destruct Hcase as [Hc|Hcase]; [discriminate|].
    unfold _handle_existing_vod_session, _get_session_snapshot. rewrite Hget.
    set (w0 := with_sessions _ w).
    cbn [snap_process snap_output_dir snap_seek_offset].
    change (returncode_is_None w0 (process s)) with (returncode_is_None w (process s)).
    change (segment_files w0 (dir s)) with (segment_files w (dir s)).
    destruct (returncode_is_None w (process s)) eqn:Halive.
    + cbn [fst snd].
      set (w1 := match process_pid (process s) with
                 | Some pid => after_wait pid (re_wait_active env) w0
                 | None => w0
                 end).
      assert (Hframe : spawned w1 = spawned w0 ∧ signalled w1 = signalled w0
                       ∧ _transcode_sessions w1 = _transcode_sessions w0
                       ∧ _url_to_session w1 = _url_to_session w0 ∧ dirs w1 = dirs w0).
      { subst w1. destruct (process_pid (process s)) as [pid|]; [|tauto].
        unfold after_wait. destruct (wo_exit _); [|tauto].
        unfold record_exit. destruct (procs w0 !! pid) as [[| |]|]; simpl; tauto. }
      destruct Hframe as (H1 & H2 & H3 & H4 & H5).
      rewrite H1, H2, H3, H4, H5.
      repeat split. apply Hbuild; [exact H5|reflexivity].
    + destruct Hcase as [Hc|[Hsegs Hseek]]; [discriminate|].
      destruct (segment_files w (dir s)) as [|seg segs] eqn:Hfiles; [contradiction|].
      apply Qlt_bool_iff in Hseek. rewrite Hseek. cbn [fst snd].
      repeat split. apply Hbuild; reflexivity.
  - unfold _get_session_snapshot. rewrite Hget. cbn [fst snd].
    repeat split. apply Hbuild; reflexivity.
Qed.

Lemma reuse_serves_existing_session_witness :
  let out := _try_reuse_session plain_host 150 idle_resume "v1" movie_url true "movie"
               movie_world in
  spawned out.2 = []
  ∧ (last_access <$> dict_get "v1" (_transcode_sessions out.2)) = Some 150%Q
  ∧ (r_session_id <$> (match out.1 with Ok r => r | Raise _ => None end)) = Some "v1".
Proof.
  intros out.
  destruct (reuse_serves_existing_session plain_host 150 idle_resume "v1" movie_url true
              "movie" movie_session movie_world eq_refl (or_intror (or_introl eq_refl)))
    as (Hspawned & _ & Htable & _ & _ & Hanswer).
  fold out in Hspawned, Htable, Hanswer.
  split; [exact Hspawned|]. split.
  - rewrite Htable. reflexivity.
  - rewrite Hanswer. vm_compute. reflexivity.
Defined.

(** ** The descriptor round trip *)

(** An on-demand session comes back from its descriptor. Let a session be
    registered by a fresh start for a non-empty URL of on-demand content,
    in an output directory that exists. If a later sweep meets a directory
    of that name with the descriptor the start wrote, at least one segment
    and an age within the cache timeout, and no session is registered for
    the URL, then the sweep registers the session again under its id with
    the same directory, URL, duration, seek offset, series and episode ids,
    user and source. Four things differ: the start time is the one stamped
    on the descriptor, a later reading of the clock than the one the
    session itself got; the process is the placeholder of a dead one; the
    last access is the time of the sweep; and an empty subtitle list comes
    back as no list. The URL index names the session, and the session is
    valid at the time of the sweep exactly when the on-demand cache timeout
    is positive. *)
Theorem started_session_recovers_from_descriptor (h : host) (now now' : Q) (env : start_env)
    (url_ content_type : string) (series_id_ episode_id_ : option Z) (old_seek_offset : Q)
    (username_ source_id_ : string) (media_info : option MediaInfo)
    (subtitles_ : list SubtitleStream) (cmd : list arg) (d d2 : dir_state) (w w2 : world) :
  is_vod_content content_type = true →
  truthy url_ = true →
  dirs w !! se_output_dir env = Some d →
  let w' := start_register now env url_ content_type series_id_ episode_id_ old_seek_offset
              username_ source_id_ media_info subtitles_ cmd w in
  dirs w2 !! se_output_dir env = Some d2 →
  Some (d_session_json d2) = d_session_json <$> dirs w' !! se_output_dir env →
  sorted_glob SEG_PREFIX ".ts" d2 ≠ [] →
  (now' - d_mtime d2 <= inject_Z (get_vod_cache_timeout h))%Q →
  _url_to_session w2 !! url_ = None →
  let w3 := recover_dir h now' w2 (se_output_dir env) in
  ∃ s s',
    dict_get (se_session_id env) (_transcode_sessions w') = Some s
    ∧ dict_get (se_session_id env) (_transcode_sessions w3) = Some s'
    ∧ started s = (now + se_clock_started env)%Q
    ∧ s' = {| dir := dir s;
              process := _DeadProcess;
              started := (now + se_clock_descriptor env)%Q;
              url := url s;
              is_vod := is_vod s;
              last_access := now';
              subtitles := match default [] (subtitles s) with [] => None | l => Some l end;
              duration_ := duration_ s;
              seek_offset := seek_offset s;
              series_id := series_id s;
              episode_id := episode_id s;
              username := username s;
              source_id := source_id s |}
    ∧ _url_to_session w3 !! url_ = Some (se_session_id env)
    ∧ dirs w3 !! se_output_dir env = Some d2
    ∧ is_session_valid h w3 now' s' = (0 <? get_vod_cache_timeout h)
    ∧ ((se_clock_started env <= se_clock_descriptor env)%Q →
       (started s <= started s')%Q).
Proof.
  intros Hvod Hurl Hdir w' Hdir2 Hjson Hsegs Hfresh Hindex w3.
  subst w' w3. unfold start_register in *. rewrite Hvod in *.
  unfold write_session_json in *.
  cbn [dirs with_index with_sessions _spawn_background_task spawn with_tasks with_spawned
       with_procs]
    in Hjson |- *.
  rewrite Hdir in Hjson |- *.
  cbn [dirs with_dirs] in Hjson. rewrite lookup_insert_eq in Hjson.
  cbn [fmap option_fmap option_map set_session_json d_session_json] in Hjson.
  injection Hjson as Hjson.
  eexists. eexists.
  split.
  { cbn [_transcode_sessions with_dirs with_index with_sessions]. apply dict_get_set_eq. }
  unfold recover_dir. rewrite Hdir2, Hjson.
  apply Qlt_bool_false_iff in Hfresh. rewrite Hfresh.
  destruct (sorted_glob SEG_PREFIX ".ts" d2) as [|seg segs]; [contradiction|].
  cbn [info_is_vod info_url info_probe andb]. rewrite Hurl. cbn [negb].
  set (info := {| info_session_id := se_session_id env |}).
  assert (Hreg : ∀ w4 : world, _transcode_sessions w4 = _transcode_sessions
                   (register_recovered (se_output_dir env) now' (d_mtime d2) info w2) →
                 _url_to_session w4 = _url_to_session
                   (register_recovered (se_output_dir env) now' (d_mtime d2) info w2) →
                 dirs w4 = dirs w2 →
                 dict_get (se_session_id env) (_transcode_sessions w4)
                 = Some (recovered_session (se_output_dir env) now' (d_mtime d2) info)
                 ∧ _url_to_session w4 !! url_ = Some (se_session_id env)
                 ∧ dirs w4 !! se_output_dir env = Some d2).
  { intros w4 -> -> ->. unfold register_recovered.
    cbn [_url_to_session with_sessions info_url info info_session_id].
    rewrite Hindex. cbn [_transcode_sessions with_index with_sessions _url_to_session dirs].
    rewrite dict_get_set_eq, lookup_insert_eq. tauto. }
  set (w4 := match probe_info_of <$> media_info with
             | Some p => _
             | None => _
             end).
  destruct (Hreg w4) as (Hs & Hi & Hd).
  { subst w4. destruct (probe_info_of <$> media_info); reflexivity. }
  { subst w4. destruct (probe_info_of <$> media_info); reflexivity. }
  { subst w4. destruct (probe_info_of <$> media_info); cbn [dirs with_probe];
      unfold register_recovered;
      cbn [_url_to_session with_sessions info_url info info_session_id];
      rewrite Hindex; reflexivity. }
  split; [exact Hs|].
  split; [reflexivity|].
  split.
  { unfold recovered_session.
    cbn [info info_started info_url info_subtitles info_duration info_seek_offset
         info_series_id info_episode_id info_username info_source_id default
         dir started url is_vod subtitles duration_ seek_offset series_id episode_id
         username source_id].
    reflexivity. }
  split; [exact Hi|]. split; [exact Hd|].
  split.
  { unfold is_session_valid, recovered_session. cbn [last_access process is_vod].
    unfold _is_process_alive, returncode_is_None, cache_timeout_of. cbn [is_vod].
    assert (Hzero : (now' - now' == 0)%Q) by ring.
    assert (H1 : Qlt_bool _HEARTBEAT_TIMEOUT_SEC (now' - now') = false).
    { apply Qlt_bool_false_iff. rewrite Hzero. discriminate. }
    rewrite H1.
    destruct (Z.leb_spec (get_vod_cache_timeout h) 0) as [Hle|Hpos].
    - symmetry. apply Z.ltb_ge. exact Hle.
    - transitivity true; [|symmetry; apply Z.ltb_lt; exact Hpos].
      apply Qlt_bool_iff. rewrite Hzero. change 0%Q with (inject_Z 0).
      rewrite <- Zlt_Qlt. exact Hpos. }
  intros Hclock. unfold recovered_session.
  cbn [started info info_started default]. apply Qplus_le_r. exact Hclock.
Qed.

Lemma started_session_recovers_from_descriptor_witness :
  let w3 := recover_dir plain_host 200 movie_leftover "/tmp/netv_transcode_m1_q7" in
  dict_get "m1" (_transcode_sessions w3)
  = Some {| dir := "/tmp/netv_transcode_m1_q7"; process := _DeadProcess;
            started := 100 + 2;
            url := movie_url; is_vod := true; last_access := 200;
            subtitles := Some [{| si_index := 2; si_lang := "eng"; si_name := "English" |}];
            duration_ := 0; seek_offset := 0; series_id := None; episode_id := None;
            username := "alice"; source_id := "src1" |}
  ∧ _url_to_session w3 !! movie_url = Some "m1".
Proof.
  intros w3.
  destruct (started_session_recovers_from_descriptor plain_host 100 200 movie_start movie_url
              "movie" None None 0 "alice" "src1" None [english_subtitle] []
              (empty_dir 100)
              {| d_mtime := 160;
                 d_files := {[ "seg000.ts" := 200000 ]};
                 d_playlist := None;
                 d_session_json :=
                   Some (Some {| info_session_id := "m1"; info_url := movie_url;
                                 info_is_vod := true; info_started := Some (100 + 2)%Q;
                                 info_subtitles :=
                                   [{| si_index := 2; si_lang := "eng";
                                       si_name := "English" |}];
                                 info_duration := 0; info_seek_offset := 0;
                                 info_series_id := None; info_episode_id := None;
                                 info_username := "alice"; info_source_id := "src1";
                                 info_probe := None |}) |}
              (with_dirs {[ "/tmp/netv_transcode_m1_q7" := empty_dir 100 ]} empty_world)
              movie_leftover)
    as (s & s' & Hs & Hs' & _ & Heq & Hindex & _).
  - reflexivity.
  - reflexivity.
  - reflexivity.
  - reflexivity.
  - reflexivity.
  - vm_compute. discriminate.
  - vm_compute. discriminate.
  - reflexivity.
  - injection Hs as <-. subst s'. split; [exact Hs'|exact Hindex].
Defined.

(** ** A fresh start that succeeds *)

(** When the command can be planned and the playlist becomes ready,
    [_do_start_transcode] starts exactly one process, with the planned
    command; registers the session under the new id, with that process, a
    start time and a last access read from the clock during the call, the
    given URL, user, source, series and episode, and the seek offset carried
    over; files the URL under the id; starts the stderr monitor; and answers
    with the id, its playlist path, the carried seek offset and no
    transcoded duration. The descriptor, stamped with a reading of its own,
    is written for on-demand content only. *)
Theorem ready_start_registers_session (h : host) (now : Q) (env : start_env)
    (url_ content_type : string) (series_id_ episode_id_ : option Z)
    (old_seek_offset : Q) (series_name : string) (deinterlace_fallback : bool)
    (username_ source_id_ : string) (cmd : list arg) (w : world) :
  let prep := start_prepare h now env url_ content_type series_id_ episode_id_ series_name w in
  let media_info := prep.1.1 in
  let subtitles_ := prep.1.2 in
  start_command h env url_ content_type media_info subtitles_ old_seek_offset
    deinterlace_fallback = Ok cmd →
  wo_ready (se_wait env) = true →
  let out := _do_start_transcode h now env url_ content_type series_id_ episode_id_
               old_seek_offset series_name deinterlace_fallback username_ source_id_ w in
  out.1 = Ok {| r_session_id := se_session_id env;
                r_playlist := "/transcode/" +:+ se_session_id env +:+ "/stream.m3u8";
                r_subtitles :=
                  _build_subtitle_tracks (se_session_id env) (map sub_of_stream subtitles_);
                r_duration := total_duration_of media_info;
                r_seek_offset := old_seek_offset;
                r_transcoded_duration := None |}
  ∧ spawned out.2 = (spawned w ++ [(se_pid env, cmd)])%list
  ∧ signalled out.2 = signalled w
  ∧ _transcode_sessions out.2
    = dict_set (se_session_id env)
        {| dir := se_output_dir env;
           process := Process (se_pid env);
           started := (now + se_clock_started env)%Q;
           url := url_;
           is_vod := is_vod_content content_type;
           last_access := (now + se_clock_last_access env)%Q;
           subtitles := Some (map sub_of_stream subtitles_);
           duration_ := total_duration_of media_info;
           seek_offset := old_seek_offset;
           series_id := series_id_;
           episode_id := episode_id_;
           username := username_;
           source_id := source_id_ |}
        (_transcode_sessions w)
  ∧ _url_to_session out.2 = <[url_ := se_session_id env]> (_url_to_session w)
  ∧ _background_tasks out.2
    = (_background_tasks w ++ [MonitorStderr (se_pid env) (se_session_id env)])%list
  ∧ (d_session_json <$> dirs out.2 !! se_output_dir env)
    = Some (if is_vod_content content_type
            then Some (Some {| info_session_id := se_session_id env;
                               info_url := url_;
                               info_is_vod := true;
                               info_started := Some (now + se_clock_descriptor env)%Q;
                               info_subtitles := map sub_of_stream subtitles_;
                               info_duration := total_duration_of media_info;
                               info_seek_offset := old_seek_offset;
                               info_series_id := series_id_;
                               info_episode_id := episode_id_;
                               info_username := username_;
                               info_source_id := source_id_;
                               info_probe := probe_info_of <$> media_info |})
            else None).
Proof.
  intros prep media_info subtitles_ Hplan Hready out.
  subst out. unfold _do_start_transcode. fold prep.
  assert (Hprep : _transcode_sessions prep.2 = _transcode_sessions w
                  ∧ _url_to_session prep.2 = _url_to_session w
                  ∧ _background_tasks prep.2 = _background_tasks w
                  ∧ spawned prep.2 = spawned w
                  ∧ signalled prep.2 = signalled w
                  ∧ dirs prep.2 !! se_output_dir env = Some (empty_dir now)).
  { subst prep. unfold start_prepare.
    destruct (probe_setting_for content_type true (get_settings h)).
    - destruct (probe_media _ _ _ _ _ _ _) as [r p]. simpl.
      rewrite lookup_insert_eq. tauto.
    - simpl. rewrite lookup_insert_eq. tauto. }
  destruct prep as [[mi subs] w1]. simpl in media_info, subtitles_, Hprep.
  subst media_info subtitles_. rewrite Hplan.
  destruct Hprep as (Hs & Hi & Ht & Hsp & Hsig & Hd).
  unfold start_await. rewrite Hready. cbn [negb fst snd].
  set (w4 := start_register _ _ _ _ _ _ _ _ _ _ _ _ _).
  assert (Hwait : ∀ w5, spawned (after_wait (se_pid env) (se_wait env) w5) = spawned w5
                        ∧ signalled (after_wait (se_pid env) (se_wait env) w5) = signalled w5
                        ∧ _transcode_sessions (after_wait (se_pid env) (se_wait env) w5)
                          = _transcode_sessions w5
                        ∧ _url_to_session (after_wait (se_pid env) (se_wait env) w5)
                          = _url_to_session w5
                        ∧ _background_tasks (after_wait (se_pid env) (se_wait env) w5)
                          = _background_tasks w5
                        ∧ dirs (after_wait (se_pid env) (se_wait env) w5) = dirs w5).
  { intros w5. unfold after_wait. destruct (wo_exit _); [|tauto].
    unfold record_exit. destruct (procs w5 !! se_pid env) as [[| |]|]; simpl; tauto. }
  destruct (Hwait w4) as (H1 & H2 & H3 & H4 & H5 & H6).
  rewrite H1, H2, H3, H4, H5, H6. clear Hwait H1 H2 H3 H4 H5 H6.
  split; [reflexivity|].
  subst w4. unfold start_register, write_session_json.
  destruct (is_vod_content content_type).
  - cbn [dirs with_index with_sessions _spawn_background_task spawn with_tasks with_spawned
         with_procs].
    rewrite Hd.
    cbn [spawned signalled _transcode_sessions _url_to_session _background_tasks dirs
         with_dirs with_index with_sessions _spawn_background_task spawn with_tasks
         with_spawned with_procs].
    rewrite Hs, Hi, Ht, Hsp, Hsig, lookup_insert_eq. repeat split; reflexivity.
  - cbn [spawned signalled _transcode_sessions _url_to_session _background_tasks dirs
         with_dirs with_index with_sessions _spawn_background_task spawn with_tasks
         with_spawned with_procs].
    rewrite Hs, Hi, Ht, Hsp, Hsig, Hd. repeat split; reflexivity.
Qed.

Lemma ready_start_registers_session_witness :
  let out := _do_start_transcode plain_host 100 movie_start movie_url "movie" None None 0 ""
               true "alice" "src1" empty_world in
  (_transcode_sessions out.2).*1 = ["m1"]
  ∧ _url_to_session out.2 !! movie_url = Some "m1"
  ∧ length (spawned out.2) = 1%nat.
Proof.
  intros out.
  destruct (ready_start_registers_session plain_host 100 movie_start movie_url "movie" None
              None 0 "" true "alice" "src1"
              (match start_command plain_host movie_start movie_url "movie" None [] 0 true
               with Ok c => c | Raise _ => [] end)
              empty_world)
    as (_ & Hspawned & _ & Htable & Hindex & _).
  - vm_compute. reflexivity.
  - reflexivity.
  - fold out in Hspawned, Htable, Hindex. rewrite Hspawned, Htable, Hindex.
    repeat split.
Defined.

(** ** What the recovery sweep keeps *)

Lemma recover_dir_step (h : host) (now : Q) (w : world) (path : string) :
  let w1 := recover_dir h now w path in
  dirs w1
  = (if default false (recoverable h now <$> dirs w !! path)
     then dirs w else delete path (dirs w))
  ∧ procs w1 = procs w ∧ spawned w1 = spawned w ∧ signalled w1 = signalled w
  ∧ (∀ sid s, dict_get sid (_transcode_sessions w1) = Some s →
       dict_get sid (_transcode_sessions w) = Some s
       ∨ (process s = _DeadProcess ∧ dir s = path ∧ last_access s = now
          ∧ default false (recoverable h now <$> dirs w !! path) = true)).
Proof.
  unfold recover_dir, recoverable.
  destruct (dirs w !! path) as [d|]; simpl; [|tauto].
  destruct (d_session_json d) as [[info|]|]; simpl; [| |tauto].
  2: { destruct (Qlt_bool _ _); [simpl; tauto|].
       destruct (sorted_glob SEG_PREFIX ".ts" d); simpl; tauto. }
  destruct (Qlt_bool _ _); simpl; [tauto|].
  destruct (sorted_glob SEG_PREFIX ".ts" d) as [|seg segs]; simpl; [tauto|].
  destruct (info_is_vod info && truthy (info_url info)); simpl; [|tauto].
  assert (Hreg : dirs (register_recovered path now (d_mtime d) info w) = dirs w
                 ∧ procs (register_recovered path now (d_mtime d) info w) = procs w
                 ∧ spawned (register_recovered path now (d_mtime d) info w) = spawned w
                 ∧ signalled (register_recovered path now (d_mtime d) info w) = signalled w
                 ∧ _transcode_sessions (register_recovered path now (d_mtime d) info w)
                   = dict_set (info_session_id info)
                       (recovered_session path now (d_mtime d) info) (_transcode_sessions w)).
  { unfold register_recovered. cbv zeta.
    destruct (_url_to_session _ !! _) as [eid|]; [|simpl; tauto].
    destruct (truthy eid); [|simpl; tauto].
    destruct (_ || _); simpl; tauto. }
  destruct Hreg as (Hd & Hp & Hsp & Hsig & Ht).
  assert (Hsessions : ∀ sid s,
            dict_get sid (dict_set (info_session_id info)
                            (recovered_session path now (d_mtime d) info)
                            (_transcode_sessions w)) = Some s →
            dict_get sid (_transcode_sessions w) = Some s
            ∨ (process s = _DeadProcess ∧ dir s = path ∧ last_access s = now ∧ true = true)).
  { intros sid s. destruct (String.eqb_spec (info_session_id info) sid) as [<-|Hne].
    - rewrite dict_get_set_eq. intros [= <-]. right. repeat split.
    - rewrite dict_get_set_ne by exact Hne. tauto. }
  destruct (info_probe info); simpl; rewrite Hd, Hp, Hsp, Hsig, Ht; repeat split;
    exact Hsessions.
Qed.

(** The sweep deletes exactly the candidate directories that cannot be
    recovered and leaves every other directory as it is; it starts and
    signals no process; and every session in the table afterwards either
    was there before or is a recovered one: its process is the placeholder
    of a dead one, its last access is the time of the sweep, and its
    directory is a candidate that still exists. *)
Theorem sweep_keeps_exactly_recoverable (h : host) (now : Q) (candidates : list string)
    (w : world) :
  let w' := cleanup_and_recover_sessions h now candidates w in
  (∀ path,
     dirs w' !! path
     = d ← dirs w !! path;
       if bool_decide (path ∈ candidates) && negb (recoverable h now d)
       then None else Some d)
  ∧ procs w' = procs w ∧ spawned w' = spawned w ∧ signalled w' = signalled w
  ∧ (∀ sid s, dict_get sid (_transcode_sessions w') = Some s →
       dict_get sid (_transcode_sessions w) = Some s
       ∨ (process s = _DeadProcess ∧ last_access s = now
          ∧ dir s ∈ candidates ∧ is_Some (dirs w' !! dir s))).
Proof.
  unfold cleanup_and_recover_sessions.
  assert (Hinv : ∀ cs,
    let w' := foldl (recover_dir h now) w cs in
    (∀ path,
       dirs w' !! path
       = d ← dirs w !! path;
         if bool_decide (path ∈ cs) && negb (recoverable h now d) then None else Some d)
    ∧ procs w' = procs w ∧ spawned w' = spawned w ∧ signalled w' = signalled w
    ∧ (∀ sid s, dict_get sid (_transcode_sessions w') = Some s →
         dict_get sid (_transcode_sessions w) = Some s
         ∨ (process s = _DeadProcess ∧ last_access s = now ∧ dir s ∈ cs
            ∧ default false (recoverable h now <$> dirs w !! dir s) = true))).
  { induction cs as [|c cs IH] using rev_ind.
    - simpl. split; [|tauto]. intros path. destruct (dirs w !! path); reflexivity.
    - rewrite foldl_app. simpl foldl. cbv zeta in IH |- *.
      set (w0 := foldl (recover_dir h now) w cs) in *.
      destruct IH as (IHd & IHp & IHsp & IHsig & IHs).
      destruct (recover_dir_step h now w0 c) as (Hd & Hp & Hsp & Hsig & Hs).
      split; [|split; [congruence|split; [congruence|split; [congruence|]]]].
      + intros path. rewrite Hd.
        destruct (decide (path = c)) as [->|Hne].
        * rewrite IHd.
          destruct (dirs w !! c) as [d|] eqn:Hc; simpl.
          -- rewrite (bool_decide_eq_true_2 (c ∈ cs ++ [c]))
               by (apply elem_of_app; right; apply list_elem_of_here).
             destruct (recoverable h now d) eqn:Hrec; simpl.
             ++ rewrite andb_false_r. simpl. rewrite Hrec.
                rewrite IHd, Hc. simpl. rewrite Hrec, andb_false_r. reflexivity.
             ++ rewrite andb_true_r.
                destruct (bool_decide (c ∈ cs)); simpl.
                ** apply lookup_delete_eq.
                ** rewrite Hrec. apply lookup_delete_eq.
          -- rewrite lookup_delete_eq. reflexivity.
        * assert (Hmem : bool_decide (path ∈ cs ++ [c]) = bool_decide (path ∈ cs)).
          { apply bool_decide_ext. rewrite elem_of_app, list_elem_of_singleton. tauto. }
          rewrite Hmem.
          destruct (default false _); [apply IHd|].
          rewrite lookup_delete_ne by congruence. apply IHd.
      + intros sid s Hget. destruct (Hs sid s Hget) as [Hold|(Hproc & Hdir & Hla & Hrec)].
        * destruct (IHs sid s Hold) as [Hw|(H1 & H2 & H3 & H4)]; [left; exact Hw|].
          right. repeat split; try assumption. apply elem_of_app. left. exact H3.
        * right. repeat split; try assumption;
            [rewrite Hdir; apply elem_of_app; right; apply list_elem_of_here|].
          rewrite Hdir. rewrite IHd in Hrec.
          destruct (dirs w !! c) as [d|]; simpl in *; [|discriminate].
          destruct (bool_decide (c ∈ cs) && negb (recoverable h now d)) eqn:Hb;
            simpl in Hrec; [discriminate|exact Hrec]. }
  cbv zeta.
  destruct (Hinv candidates) as (Hd & Hp & Hsp & Hsig & Hs).
  split; [exact Hd|]. split; [exact Hp|]. split; [exact Hsp|]. split; [exact Hsig|].
  intros sid s Hget. destruct (Hs sid s Hget) as [Hold|(H1 & H2 & H3 & H4)];
    [left; exact Hold|].
  right. repeat split; try assumption.
  rewrite Hd. destruct (dirs w !! dir s) as [d|]; simpl in *; [|discriminate].
  rewrite H4. rewrite andb_false_r. eexists. reflexivity.
Qed.

Lemma sweep_keeps_exactly_recoverable_witness :
  let w' := cleanup_and_recover_sessions plain_host 3750
              ["/tmp/netv_transcode_a"; "/tmp/netv_transcode_b"] two_leftovers in
  dirs w' !! "/tmp/netv_transcode_a" = None
  ∧ dirs w' !! "/tmp/netv_transcode_b" = Some (movie_dir_state "b" 200 0)
  ∧ (process <$> dict_get "b" (_transcode_sessions w')) = Some _DeadProcess.
Proof.
  intros w'.
  destruct (sweep_keeps_exactly_recoverable plain_host 3750
              ["/tmp/netv_transcode_a"; "/tmp/netv_transcode_b"] two_leftovers)
    as (Hdirs & _ & _ & _ & Hsessions).
  fold w' in Hdirs, Hsessions.
  split; [rewrite Hdirs; reflexivity|]. split; [rewrite Hdirs; reflexivity|].
  assert (Hget : dict_get "b" (_transcode_sessions w')
                 = Some (recovered_session "/tmp/netv_transcode_b" 3750 200
                           (movie_descriptor "b" 0))) by reflexivity.
  destruct (Hsessions _ _ Hget) as [Hold|(Hdead & _)]; [discriminate|].
  rewrite Hget. simpl. reflexivity.
Defined.
